(** * prestodb.client: the Presto HTTP protocol driver

  A shallow embedding of [prestodb/client.py]: the session state
  ([ClientSession]), the request layer ([PrestoRequest]: header
  building, the retry wiring of [max_attempts], [post]/[get]/[delete],
  [process]), the query driver ([PrestoQuery]: [execute], [fetch],
  [cancel]) and the result iterator with its typed row mapper
  ([PrestoResult]).

  Conventions.
  - A Python [str] is a Rocq [string]; protocol text (header names and
    values, URIs, type names) is ASCII, and a non-ASCII [str] stands
    for its UTF-8 bytes.
  - A Python exception is a value of [exn]; code that may raise runs
    in the monad [M], whose state is the heap of the objects the
    driver mutates together with the network.
  - The network is a script: the answers the coordinator will give, in
    order, and the log of the requests sent so far. *)

From Stdlib Require Import String Ascii List ZArith Lia Bool Arith.
From Stdlib Require Import DecimalString.
Import ListNotations.

Local Open Scope string_scope.
Local Open Scope list_scope.
Local Open Scope nat_scope.

(** ** Python text primitives *)

Module Py.

Definition is_ascii (c : ascii) : bool := nat_of_ascii c <? 128.

(** [str.isspace] on the ASCII range: TAB, LF, VT, FF, CR, the four
    separators FS, GS, RS, US, and SPACE. *)
Definition is_space (c : ascii) : bool :=
  let n := nat_of_ascii c in
  ((9 <=? n) && (n <=? 13)) || ((28 <=? n) && (n <=? 32)).

(** The white space beyond ASCII, as its UTF-8 bytes: U+0085 and
    U+00A0 take two bytes; U+1680, U+2000 to U+200A, U+2028, U+2029,
    U+202F, U+205F and U+3000 take three. *)
Definition is_space2 (a b : ascii) : bool :=
  (nat_of_ascii a =? 194) &&
  ((nat_of_ascii b =? 133) || (nat_of_ascii b =? 160)).

Definition is_space3 (a b c : ascii) : bool :=
  let x := nat_of_ascii a in
  let y := nat_of_ascii b in
  let z := nat_of_ascii c in
  ((x =? 225) && (y =? 154) && (z =? 128)) ||
  ((x =? 226) && (y =? 128) &&
   (((128 <=? z) && (z <=? 138)) || (z =? 168) || (z =? 169) || (z =? 175))) ||
  ((x =? 226) && (y =? 129) && (z =? 159)) ||
  ((x =? 227) && (y =? 128) && (z =? 128)).

(** [s.lstrip()]: the leading white space characters are dropped. *)
Fixpoint lstrip (s : string) : string :=
  match s with
  | String a r1 =>
      if is_space a then lstrip r1
      else
        match r1 with
        | String b r2 =>
            if is_space2 a b then lstrip r2
            else
              match r2 with
              | String c r3 => if is_space3 a b c then lstrip r3 else s
              | EmptyString => s
              end
        | EmptyString => s
        end
  | EmptyString => EmptyString
  end.

(** The trailing white space characters are dropped: [l] holds the
    bytes of the text from the last to the first. *)
Fixpoint rstrip_rev (l : list ascii) : list ascii :=
  match l with
  | a :: r1 =>
      if is_space a then rstrip_rev r1
      else
        match r1 with
        | b :: r2 =>
            if is_space2 b a then rstrip_rev r2
            else
              match r2 with
              | c :: r3 => if is_space3 c b a then rstrip_rev r3 else l
              | [] => l
              end
        | [] => l
        end
  | [] => []
  end.

(** [s.rstrip()] *)
Definition rstrip (s : string) : string :=
  string_of_list_ascii (rev (rstrip_rev (rev (list_ascii_of_string s)))).

(** [s.strip()] *)
Definition strip (s : string) : string := rstrip (lstrip s).

(** [s.split(sep)] for a one-character separator: never empty. *)
Fixpoint split (sep : ascii) (s : string) : list string :=
  match s with
  | EmptyString => [EmptyString]
  | String c r =>
      if Ascii.eqb c sep then EmptyString :: split sep r
      else match split sep r with
           | h :: t => String c h :: t
           | [] => [String c EmptyString]
           end
  end.

(** The text before and after the first occurrence of [sep]. *)
Fixpoint partition (sep : ascii) (s : string) : option (string * string) :=
  match s with
  | EmptyString => None
  | String c r =>
      if Ascii.eqb c sep then Some (EmptyString, r)
      else match partition sep r with
           | Some (a, b) => Some (String c a, b)
           | None => None
           end
  end.

(** [s.split(sep, 1)] *)
Definition split1 (sep : ascii) (s : string) : list string :=
  match partition sep s with
  | Some (a, b) => [a; b]
  | None => [s]
  end.

(** The text before and after the last occurrence of [sep]. *)
Fixpoint rpartition (sep : ascii) (s : string) : option (string * string) :=
  match s with
  | EmptyString => None
  | String c r =>
      match rpartition sep r with
      | Some (a, b) => Some (String c a, b)
      | None => if Ascii.eqb c sep then Some (EmptyString, r) else None
      end
  end.

(** [s.rsplit(sep, 1)] *)
Definition rsplit1 (sep : ascii) (s : string) : list string :=
  match rpartition sep s with
  | Some (a, b) => [a; b]
  | None => [s]
  end.

(** [sep.join(l)] *)
Definition join (sep : string) (l : list string) : string :=
  String.concat sep l.

(** [s.startswith(p)] *)
Definition startswith (s p : string) : bool := prefix p s.

(** [sub in s] *)
Fixpoint contains (sub s : string) : bool :=
  prefix sub s ||
  match s with
  | String _ r => contains sub r
  | EmptyString => false
  end.

(** [str(n)] for an [int]. *)
Definition str_of_int (n : Z) : string := NilZero.string_of_int (Z.to_int n).

Definition lower_ascii (c : ascii) : ascii :=
  let n := nat_of_ascii c in
  if (65 <=? n) && (n <=? 90) then ascii_of_nat (n + 32) else c.

(** [s.lower()] on ASCII text; HTTP header names compare this way. *)
Fixpoint lower (s : string) : string :=
  match s with
  | String c r => String (lower_ascii c) (lower r)
  | EmptyString => EmptyString
  end.

Definition is_digit (c : ascii) : bool :=
  let n := nat_of_ascii c in (48 <=? n) && (n <=? 57).

(** [all(p(c) for c in s)] *)
Fixpoint all (p : ascii -> bool) (s : string) : bool :=
  match s with
  | String c r => p c && all p r
  | EmptyString => true
  end.

End Py.

(** ** urllib.parse: [quote] and [unquote]

  [quote] is [quote_from_bytes] on the UTF-8 bytes with the default
  [safe='/']; [unquote] decodes the bytes of the escapes back from
  UTF-8, an undecodable byte becoming U+FFFD. *)

Module Urllib.

Definition always_safe (c : ascii) : bool :=
  let n := nat_of_ascii c in
  ((65 <=? n) && (n <=? 90)) || ((97 <=? n) && (n <=? 122)) ||
  ((48 <=? n) && (n <=? 57)) ||
  (n =? 95) || (n =? 46) || (n =? 45) || (n =? 126).

(** The characters [quote] leaves alone. *)
Definition safe (c : ascii) : bool :=
  always_safe c || (nat_of_ascii c =? 47).

Definition hex_digit (n : nat) : ascii :=
  if n <? 10 then ascii_of_nat (48 + n) else ascii_of_nat (55 + n).

Definition hex_value (c : ascii) : option nat :=
  let n := nat_of_ascii c in
  if (48 <=? n) && (n <=? 57) then Some (n - 48)
  else if (65 <=? n) && (n <=? 70) then Some (n - 55)
  else if (97 <=? n) && (n <=? 102) then Some (n - 87)
  else None.

Definition percent : ascii := "%"%char.

Fixpoint quote (s : string) : string :=
  match s with
  | EmptyString => EmptyString
  | String c r =>
      if safe c then String c (quote r)
      else
        let n := nat_of_ascii c in
        String percent (String (hex_digit (n / 16))
                          (String (hex_digit (n mod 16)) (quote r)))
  end.

(** [unquote_to_bytes]: every escape of two hexadecimal digits becomes
    its byte; a percent sign followed by anything else stays. *)
Fixpoint unquote_to_bytes (s : string) : string :=
  match s with
  | EmptyString => EmptyString
  | String c r =>
      if Ascii.eqb c percent then
        match r with
        | String a (String b r') =>
            match hex_value a, hex_value b with
            | Some h, Some l =>
                String (ascii_of_nat (16 * h + l)) (unquote_to_bytes r')
            | _, _ => String c (unquote_to_bytes r)
            end
        | _ => String c (unquote_to_bytes r)
        end
      else String c (unquote_to_bytes r)
  end.

(** A continuation byte of UTF-8. *)
Definition continuation (c : ascii) : bool :=
  let n := nat_of_ascii c in (128 <=? n) && (n <=? 191).

(** The second byte that a lead byte of three bytes, and of four,
    admits. *)
Definition second_of_three (a b : ascii) : bool :=
  let n := nat_of_ascii a in
  let m := nat_of_ascii b in
  if n =? 224 then (160 <=? m) && (m <=? 191)
  else if n =? 237 then (128 <=? m) && (m <=? 159)
  else continuation b.

Definition second_of_four (a b : ascii) : bool :=
  let n := nat_of_ascii a in
  let m := nat_of_ascii b in
  if n =? 240 then (144 <=? m) && (m <=? 191)
  else if n =? 244 then (128 <=? m) && (m <=? 143)
  else continuation b.

(** U+FFFD in UTF-8. *)
Definition replacement : string :=
  String (ascii_of_nat 239) (String (ascii_of_nat 191)
    (String (ascii_of_nat 189) EmptyString)).

(** [bytes.decode('utf-8', 'replace')], the text being written in
    UTF-8 again: a byte that starts no character, and a character cut
    short together with the bytes of it that are there, become
    U+FFFD. *)
Fixpoint decode_replace (s : string) : string :=
  match s with
  | EmptyString => EmptyString
  | String a r1 =>
      let n := nat_of_ascii a in
      if n <? 128 then String a (decode_replace r1)
      else if (194 <=? n) && (n <=? 223) then
        match r1 with
        | String b r2 =>
            if continuation b then String a (String b (decode_replace r2))
            else (replacement ++ decode_replace r1)%string
        | EmptyString => replacement
        end
      else if (224 <=? n) && (n <=? 239) then
        match r1 with
        | String b r2 =>
            if second_of_three a b then
              match r2 with
              | String c r3 =>
                  if continuation c
                  then String a (String b (String c (decode_replace r3)))
                  else (replacement ++ decode_replace r2)%string
              | EmptyString => replacement
              end
            else (replacement ++ decode_replace r1)%string
        | EmptyString => replacement
        end
      else if (240 <=? n) && (n <=? 244) then
        match r1 with
        | String b r2 =>
            if second_of_four a b then
              match r2 with
              | String c r3 =>
                  if continuation c then
                    match r3 with
                    | String d r4 =>
                        if continuation d
                        then String a (String b (String c (String d
                               (decode_replace r4))))
                        else (replacement ++ decode_replace r3)%string
                    | EmptyString => replacement
                    end
                  else (replacement ++ decode_replace r2)%string
              | EmptyString => replacement
              end
            else (replacement ++ decode_replace r1)%string
        | EmptyString => replacement
        end
      else (replacement ++ decode_replace r1)%string
  end.

(** The bytes are the UTF-8 form of a text: decoding replaces
    nothing. *)
Definition well_formed (s : string) : bool := String.eqb (decode_replace s) s.

(** The text of a run of ASCII characters once unquoted: [run] holds
    the run from its last character to its first. *)
Definition unquote_run (run : list ascii) : string :=
  decode_replace (unquote_to_bytes (string_of_list_ascii (rev run))).

(** [unquote] works on the runs of ASCII characters of the text, each
    unquoted to bytes and decoded on its own; the characters beyond
    ASCII stay where they are. *)
Fixpoint unquote_runs (run : list ascii) (s : string) : string :=
  match s with
  | EmptyString => unquote_run run
  | String c r =>
      if Py.is_ascii c then unquote_runs (c :: run) r
      else (unquote_run run ++ String c (unquote_runs [] r))%string
  end.

(** [unquote(s)], with the default [encoding='utf-8'] and
    [errors='replace']. *)
Definition unquote (s : string) : string := unquote_runs [] s.

End Urllib.

(** ** JSON values, as [json.loads] returns them *)

#[local] Set Warnings "-register-all".

Inductive json : Type :=
| JNull
| JBool (b : bool)
| JNum (n : Z)
| JStr (s : string)
| JArr (l : list json)
| JObj (o : list (string * json)).

(** A Python [dict] keeps insertion order; an association list without
  repeated keys models it. *)
Section Dict.
Context {V : Type}.

Fixpoint dict_get (d : list (string * V)) (k : string) : option V :=
  match d with
  | [] => None
  | (k', v) :: r => if String.eqb k' k then Some v else dict_get r k
  end.

Definition dict_mem (d : list (string * V)) (k : string) : bool :=
  match dict_get d k with Some _ => true | None => false end.

(** [d[k] = v]: an existing key keeps its position. *)
Fixpoint dict_set (d : list (string * V)) (k : string) (v : V)
  : list (string * V) :=
  match d with
  | [] => [(k, v)]
  | (k', v') :: r =>
      if String.eqb k' k then (k', v) :: r else (k', v') :: dict_set r k v
  end.

(** [d.pop(k, None)] *)
Definition dict_pop (d : list (string * V)) (k : string) : list (string * V) :=
  filter (fun kv => negb (String.eqb (fst kv) k)) d.

(** [d.update(e)] *)
Definition dict_update (d e : list (string * V)) : list (string * V) :=
  fold_left (fun acc kv => dict_set acc (fst kv) (snd kv)) e d.

Definition dict_keys (d : list (string * V)) : list string := map fst d.

(** The headers of an HTTP session are a [CaseInsensitiveDict] of
  [requests]: a name is found whatever its letter case, and setting it
  keeps its place and takes the new spelling. *)
Definition ci_eqb (a b : string) : bool :=
  String.eqb (Py.lower a) (Py.lower b).

Fixpoint ci_get (d : list (string * V)) (k : string) : option V :=
  match d with
  | [] => None
  | (k', v) :: r => if ci_eqb k' k then Some v else ci_get r k
  end.

Fixpoint ci_set (d : list (string * V)) (k : string) (v : V)
  : list (string * V) :=
  match d with
  | [] => [(k, v)]
  | (k', v') :: r =>
      if ci_eqb k' k then (k, v) :: r else (k', v') :: ci_set r k v
  end.

Definition ci_update (d e : list (string * V)) : list (string * V) :=
  fold_left (fun acc kv => ci_set acc (fst kv) (snd kv)) e d.

(** What a [CaseInsensitiveDict] keeps true of its items: no two names
  differ in their letter case only. *)
Definition distinct_names (d : list (string * V)) : Prop :=
  NoDup (map (fun kv => Py.lower (fst kv)) d).

End Dict.

(** [x == "literal"] for a JSON value [x]. *)
Definition json_is_str (j : json) (s : string) : bool :=
match j with
| JStr t => String.eqb t s
| _ => false
end.

(** Truth value of a JSON value in a condition. *)
Definition truthy (j : json) : bool :=
match j with
| JNull => false
| JBool b => b
| JNum n => negb (Z.eqb n 0)
| JStr s => negb (String.eqb s EmptyString)
| JArr l => match l with [] => false | _ => true end
| JObj o => match o with [] => false | _ => true end
end.

(** ** Exceptions

  [ConnectionError] and [Timeout] are the transport's [HTTP_EXCEPTIONS];
  [AuthError] stands for an exception class an authenticator declares,
  [TransportError] for any other exception of the transport.  The
  [Presto*] and [Http*] classes are those of [prestodb.exceptions], with
  the arguments the driver passes to them; [HttpError]'s message is
  ["error {status_code}"], followed by [": {content}"] when the body is
  not empty. *)

Inductive exn : Type :=
| ConnectionError
| Timeout
| AuthError (name : string)
| TransportError (name : string)
| Http503Error (msg : string)
| HttpError (status_code : Z) (content : string)
| PrestoExternalError (error : json) (query_id : option string)
| PrestoUserError (error : json) (query_id : option string)
| PrestoQueryError (error : json) (query_id : option string)
| KeyError (key : string)
| IndexError
| TypeError (what : string)
| ValueError (what : string)
| NameError (name : string)
| AttributeError (attr : string)
| AssertionError.

(** The outcome of running Python code: a value, an exception, or no
  outcome within the steps allowed (loops run on fuel). *)
Inductive res (A : Type) : Type :=
| Ok (a : A)
| Raise (e : exn)
| Diverge.

Arguments Ok {A} a.
Arguments Raise {A} e.
Arguments Diverge {A}.

Definition res_bind {A B : Type} (r : res A) (k : A -> res B) : res B :=
match r with
| Ok a => k a
| Raise e => Raise e
| Diverge => Diverge
end.

Notation "'let?' x ':=' r 'in' k" := (res_bind r (fun x => k))
  (at level 10, x pattern, r at level 100, k at level 200).

(** ** The wire format

  Modelled from the spec: [prestodb/constants.py] is not among the
  sources; the header names and the statement path are those of the
  wire protocol (section 6 of the specification). *)

Module constants.

Definition HEADER_CATALOG : string := "X-Presto-Catalog".
Definition HEADER_SCHEMA : string := "X-Presto-Schema".
Definition HEADER_SOURCE : string := "X-Presto-Source".
Definition HEADER_USER : string := "X-Presto-User".
Definition HEADER_SESSION : string := "X-Presto-Session".
Definition HEADER_TRANSACTION : string := "X-Presto-Transaction-Id".
Definition HEADER_PREPARED_STATEMENT : string := "X-Presto-Prepared-Statement".
Definition HEADER_SET_SESSION : string := "X-Presto-Set-Session".
Definition HEADER_CLEAR_SESSION : string := "X-Presto-Clear-Session".
Definition HEADER_ADDED_PREPARE : string := "X-Presto-Added-Prepare".
Definition URL_STATEMENT_PATH : string := "/v1/statement".

End constants.

(** A key of a JSON object is absent, [null], or has a value. *)
Inductive field (A : Type) : Type :=
| Absent
| Null
| Val (a : A).

Arguments Absent {A}.
Arguments Null {A}.
Arguments Val {A} a.

(** [d.get(k)]: [None] stands for Python's [None]. *)
Definition field_get {A : Type} (f : field A) : option A :=
match f with
| Val a => Some a
| _ => None
end.

(** [d.get(k, default)] *)
Definition field_get_default {A : Type} (f : field A) (d : A) : option A :=
match f with
| Absent => Some d
| Null => None
| Val a => Some a
end.

(** [d[k]] *)
Definition field_item {A : Type} (k : string) (f : field A) : res (option A) :=
match f with
| Absent => Raise (KeyError k)
| Null => Ok None
| Val a => Ok (Some a)
end.

(** The JSON object of a response body, typed as the protocol types
  it; cells, column descriptors, statistics, warnings and the error
  structure stay JSON values. *)
Record response_json : Type := {
  j_error : option json;
  j_id : field string;
  j_infoUri : field string;
  j_nextUri : field string;
  j_stats : field (list (string * json));
  j_warnings : field (list json);
  j_data : field (list (list json));
  j_columns : field (list json)
}.

(** A [requests.Response]: [json] is [None] when the body does not
  decode. *)
Record http_response : Type := {
  status_code : Z;
  headers : list (string * string);
  content : string;
  json_body : option response_json
}.

(** Lookup in the case-insensitive header mapping of a response. *)
Fixpoint header_get (hs : list (string * string)) (name : string)
  : option string :=
match hs with
| [] => None
| (k, v) :: r =>
    if String.eqb (Py.lower k) (Py.lower name) then Some v
    else header_get r name
end.

Definition header_mem (hs : list (string * string)) (name : string) : bool :=
match header_get hs name with
| Some _ => true
| None => false
end.

(** [Response.ok]: no 4xx or 5xx status. *)
Definition ok (r : http_response) : bool :=
negb ((400 <=? status_code r)%Z && (status_code r <? 600)%Z).

(** [Response.is_redirect] *)
Definition is_redirect (r : http_response) : bool :=
header_mem (headers r) "location" &&
existsb (Z.eqb (status_code r)) [301; 302; 303; 307; 308]%Z.

Inductive verb : Type := POST | GET | DELETE.

(** A call of the transport: the keyword arguments the client passes
  that decide what travels (time-outs and proxies do not). *)
Record http_request : Type := {
  method : verb;
  url : string;
  req_headers : option (list (string * option string));
  data : option string;
  allow_redirects : bool
}.

Inductive outcome : Type :=
| Raises (e : exn)
| Responds (r : http_response).

(** The network: what the coordinator will answer to the coming
  requests, and every request sent so far with its outcome. *)
Record world : Type := {
  pending : list outcome;
  log : list (http_request * outcome)
}.

(** ** The objects of the driver *)

Record ClientSession : Type := {
  catalog : option string;
  schema : option string;
  source : option string;
  user : string;
  _properties : list (string * string);
  _headers : list (string * string);
  transaction_id : option string
}.

Record Credentials : Type := {
  valid : bool;
  token : string
}.

Record PrestoRequest : Type := {
  _client_session : ClientSession;
  _host : string;
  _port : Z;
  _next_uri : option string;
  http_session_headers : list (string * option string);
  prepared_statements : list string;
  auth_exceptions : list string;
  _redirect_handler : option (string -> res string);
  _max_attempts : Z;
  _http_scheme : string
}.

(** What travels with a call of the transport: [requests] merges
  the headers of the HTTP session with those of the call
  ([sessions.merge_setting] with a [CaseInsensitiveDict]), the call's
  winning, and drops the names set to [None].  A call that passes no
  headers has the empty mapping. *)
Definition merge_setting (request_setting : option (list (string * option string)))
  (session_setting : list (string * option string))
  : list (string * string) :=
let merged :=
  ci_update (ci_update [] session_setting)
    (match request_setting with Some hs => hs | None => [] end) in
flat_map (fun kv => match snd kv with
                    | Some v => [(fst kv, v)]
                    | None => []
                    end) merged.

Definition sent_headers (r : PrestoRequest) (rq : http_request)
  : list (string * string) :=
merge_setting (req_headers rq) (http_session_headers r).

Record PrestoStatus : Type := {
  id : option string;
  stats : option (list (string * json));
  warnings : option (list json);
  info_uri : option string;
  next_uri : option string;
  rows : option (list (list json));
  columns : option (list json)
}.

Record PrestoQuery : Type := {
  query_id : option string;
  _stats : list (string * json);
  _warnings : option (list json);
  _columns : option (list json);
  _finished : bool;
  _cancelled : bool;
  _sql : string;
  _experimental_python_types : bool
}.

(** [typed] is the result's own [_experimental_python_types]. *)
Record PrestoResult : Type := {
  _rows : option (list (list json));
  _rownumber : nat;
  typed : bool
}.

(** The heap: one request object with the credentials it shares with
  the query, one query with its current result, and the network. *)
Record heap : Type := {
  request : PrestoRequest;
  credentials : option Credentials;
  query : PrestoQuery;
  result : PrestoResult;
  net : world
}.

(** Field updates. *)

Definition with_properties (p : list (string * string)) (c : ClientSession)
  : ClientSession :=
{| catalog := catalog c; schema := schema c; source := source c;
   user := user c; _properties := p; _headers := _headers c;
   transaction_id := transaction_id c |}.

Definition with_client_session (c : ClientSession) (r : PrestoRequest)
  : PrestoRequest :=
{| _client_session := c; _host := _host r; _port := _port r;
   _next_uri := _next_uri r; http_session_headers := http_session_headers r;
   prepared_statements := prepared_statements r;
   auth_exceptions := auth_exceptions r;
   _redirect_handler := _redirect_handler r;
   _max_attempts := _max_attempts r; _http_scheme := _http_scheme r |}.

Definition with_next_uri (u : option string) (r : PrestoRequest)
  : PrestoRequest :=
{| _client_session := _client_session r; _host := _host r; _port := _port r;
   _next_uri := u; http_session_headers := http_session_headers r;
   prepared_statements := prepared_statements r;
   auth_exceptions := auth_exceptions r;
   _redirect_handler := _redirect_handler r;
   _max_attempts := _max_attempts r; _http_scheme := _http_scheme r |}.

Definition with_http_session_headers (hs : list (string * option string))
  (r : PrestoRequest) : PrestoRequest :=
{| _client_session := _client_session r; _host := _host r; _port := _port r;
   _next_uri := _next_uri r; http_session_headers := hs;
   prepared_statements := prepared_statements r;
   auth_exceptions := auth_exceptions r;
   _redirect_handler := _redirect_handler r;
   _max_attempts := _max_attempts r; _http_scheme := _http_scheme r |}.

Definition with_query_id (i : option string) (q : PrestoQuery) : PrestoQuery :=
{| query_id := i; _stats := _stats q; _warnings := _warnings q;
   _columns := _columns q; _finished := _finished q;
   _cancelled := _cancelled q; _sql := _sql q;
   _experimental_python_types := _experimental_python_types q |}.

Definition with_stats (s : list (string * json)) (q : PrestoQuery)
  : PrestoQuery :=
{| query_id := query_id q; _stats := s; _warnings := _warnings q;
   _columns := _columns q; _finished := _finished q;
   _cancelled := _cancelled q; _sql := _sql q;
   _experimental_python_types := _experimental_python_types q |}.

Definition with_warnings (w : option (list json)) (q : PrestoQuery)
  : PrestoQuery :=
{| query_id := query_id q; _stats := _stats q; _warnings := w;
   _columns := _columns q; _finished := _finished q;
   _cancelled := _cancelled q; _sql := _sql q;
   _experimental_python_types := _experimental_python_types q |}.

Definition with_columns (c : option (list json)) (q : PrestoQuery)
  : PrestoQuery :=
{| query_id := query_id q; _stats := _stats q; _warnings := _warnings q;
   _columns := c; _finished := _finished q;
   _cancelled := _cancelled q; _sql := _sql q;
   _experimental_python_types := _experimental_python_types q |}.

Definition with_finished (b : bool) (q : PrestoQuery) : PrestoQuery :=
{| query_id := query_id q; _stats := _stats q; _warnings := _warnings q;
   _columns := _columns q; _finished := b;
   _cancelled := _cancelled q; _sql := _sql q;
   _experimental_python_types := _experimental_python_types q |}.

Definition with_cancelled (b : bool) (q : PrestoQuery) : PrestoQuery :=
{| query_id := query_id q; _stats := _stats q; _warnings := _warnings q;
   _columns := _columns q; _finished := _finished q;
   _cancelled := b; _sql := _sql q;
   _experimental_python_types := _experimental_python_types q |}.

Definition with_rows (l : option (list (list json))) (r : PrestoResult)
  : PrestoResult :=
{| _rows := l; _rownumber := _rownumber r; typed := typed r |}.

Definition with_rownumber (n : nat) (r : PrestoResult) : PrestoResult :=
{| _rows := _rows r; _rownumber := n; typed := typed r |}.

Definition on_request (f : PrestoRequest -> PrestoRequest) (h : heap) : heap :=
{| request := f (request h); credentials := credentials h; query := query h;
   result := result h; net := net h |}.

Definition on_credentials (c : option Credentials) (h : heap) : heap :=
{| request := request h; credentials := c; query := query h;
   result := result h; net := net h |}.

Definition on_query (f : PrestoQuery -> PrestoQuery) (h : heap) : heap :=
{| request := request h; credentials := credentials h; query := f (query h);
   result := result h; net := net h |}.

Definition on_result (f : PrestoResult -> PrestoResult) (h : heap) : heap :=
{| request := request h; credentials := credentials h; query := query h;
   result := f (result h); net := net h |}.

Definition on_net (f : world -> world) (h : heap) : heap :=
{| request := request h; credentials := credentials h; query := query h;
   result := result h; net := f (net h) |}.

(** ** The monad of the driver: state and exceptions *)

Definition M (A : Type) : Type := heap -> res A * heap.

Definition ret {A : Type} (a : A) : M A := fun h => (Ok a, h).

Definition raise {A : Type} (e : exn) : M A := fun h => (Raise e, h).

Definition bind {A B : Type} (m : M A) (k : A -> M B) : M B :=
fun h =>
  match m h with
  | (Ok a, h') => k a h'
  | (Raise e, h') => (Raise e, h')
  | (Diverge, h') => (Diverge, h')
  end.

Definition lift {A : Type} (r : res A) : M A := fun h => (r, h).

Definition gets {A : Type} (f : heap -> A) : M A := fun h => (Ok (f h), h).

Definition modify (f : heap -> heap) : M unit := fun h => (Ok tt, f h).

Notation "x <- m ;; k" := (bind m (fun x => k))
  (at level 61, m at next level, right associativity).
Notation "m ;;; k" := (bind m (fun _ => k))
  (at level 61, right associativity).

Definition diverge {A : Type} : M A := fun h => (Diverge, h).

(** ** The transport

  One call of [requests]: the request is logged with its outcome, the
  next scripted answer is consumed.  Once the script is over the
  coordinator no longer answers: the call raises [ConnectionError]. *)

Definition http_send (rq : http_request) : M http_response :=
fun h =>
  match pending (net h) with
  | [] =>
      (Raise ConnectionError,
       on_net (fun w => {| pending := [];
                           log := log w ++ [(rq, Raises ConnectionError)] |}) h)
  | o :: rest =>
      (match o with
       | Raises e => Raise e
       | Responds r => Ok r
       end,
       on_net (fun w => {| pending := rest; log := log w ++ [(rq, o)] |}) h)
  end.

(** Modelled from the spec: [exceptions.retry_with] is not among the
  sources.  Section 4.B: a wrapped verb is retried on an exception of
  the given set and on a response the conditions flag, and the attempts
  never exceed [max_attempts]; section 7: once they are used up the last
  failure, or the last flagged response, surfaces.  [last] is the
  outcome of the latest attempt; the back-off sleeps of the retry policy
  take time and change no state. *)
Fixpoint retry_with (exceptions : exn -> bool)
  (conditions : http_response -> bool) (max_attempts : nat)
  (func : M http_response) (last : res (option http_response))
  : M (option http_response) :=
match max_attempts with
| O => lift last
| S n =>
    fun h =>
      match func h with
      | (Ok r, h') =>
          if conditions r
          then retry_with exceptions conditions n func (Ok (Some r)) h'
          else (Ok (Some r), h')
      | (Raise e, h') =>
          if exceptions e
          then retry_with exceptions conditions n func (Raise e) h'
          else (Raise e, h')
      | (Diverge, h') => (Diverge, h')
      end
end.

(** ** PrestoRequest *)

(** [self._exceptions]: [HTTP_EXCEPTIONS] and what the authenticator
  declares. *)
Definition _exceptions (r : PrestoRequest) (e : exn) : bool :=
match e with
| ConnectionError | Timeout => true
| AuthError n => existsb (String.eqb n) (auth_exceptions r)
| _ => false
end.

(** The [max_attempts] setter (client.py, lines 303-325) wires [_get],
  [_post] and [_delete]: the
  bare transport call when the value is 1, else the call wrapped by
  [retry_with] with the condition "the status code is 503".  The wiring
  is a function of the stored value, which only the setter writes. *)
Definition with_retry (r : PrestoRequest) (func : M http_response)
  : M (option http_response) :=
if (_max_attempts r =? 1)%Z then (x <- func ;; ret (Some x))
else retry_with (_exceptions r)
       (fun response => (status_code response =? 503)%Z)
       (Z.to_nat (_max_attempts r)) func (Ok None).

Definition post_request (u : string) (body : string)
  (hs : list (string * option string)) (redirects : bool) : http_request :=
{| method := POST; url := u; req_headers := Some hs; data := Some body;
   allow_redirects := redirects |}.

Definition get_request (u : string) (hs : list (string * option string))
  : http_request :=
{| method := GET; url := u; req_headers := Some hs; data := None;
   allow_redirects := true |}.

Definition delete_request (u : string) : http_request :=
{| method := DELETE; url := u; req_headers := None; data := None;
   allow_redirects := true |}.

Definition _post (u : string) (body : string)
  (hs : list (string * option string)) (redirects : bool)
  : M (option http_response) :=
r <- gets request ;;
with_retry r (http_send (post_request u body hs redirects)).

Definition _get (u : string) (hs : list (string * option string))
  : M (option http_response) :=
r <- gets request ;;
with_retry r (http_send (get_request u hs)).

Definition _delete (u : string) : M (option http_response) :=
r <- gets request ;;
with_retry r (http_send (delete_request u)).

(** The entries of the session header: [name=quote(str(value))]. *)
Definition session_entries (props : list (string * string)) : list string :=
map (fun kv => (fst kv ++ "=" ++ Urllib.quote (snd kv))%string) props.

(** The loop that refuses a custom header already in [headers]. *)
Fixpoint check_custom_headers (hs : list (string * option string))
  (keys : list string) : res unit :=
match keys with
| [] => Ok tt
| key :: r =>
    if dict_mem hs key
    then Raise (ValueError ("cannot override reserved HTTP header " ++ key))
    else check_custom_headers hs r
end.

(** [PrestoRequest.http_headers] (lines 269-296): the reserved
  headers, the custom headers merged over them unless one is already
  there, and the transaction header last. *)
Definition http_headers (r : PrestoRequest)
  : res (list (string * option string)) :=
let cs := _client_session r in
let hs := [] in
let hs := dict_set hs constants.HEADER_CATALOG (catalog cs) in
let hs := dict_set hs constants.HEADER_SCHEMA (schema cs) in
let hs := dict_set hs constants.HEADER_SOURCE (source cs) in
let hs := dict_set hs constants.HEADER_USER (Some (user cs)) in
let hs :=
  if 0 <? length (prepared_statements r)
  then dict_set hs constants.HEADER_PREPARED_STATEMENT
         (Some (Py.join "," (prepared_statements r)))
  else hs in
let hs := dict_set hs constants.HEADER_SESSION
            (Some (Py.join "," (session_entries (_properties cs)))) in
let? _ := check_custom_headers hs (dict_keys (_headers cs)) in
let hs := dict_update hs (map (fun kv => (fst kv, Some (snd kv))) (_headers cs)) in
let hs := dict_set hs constants.HEADER_TRANSACTION (transaction_id cs) in
Ok hs.

(** [PrestoRequest.get_url] (lines 327-331). *)
Definition get_url (r : PrestoRequest) (path : string) : string :=
(_http_scheme r ++ "://" ++ _host r ++ ":" ++ Py.str_of_int (_port r) ++ path)%string.

Definition statement_url (r : PrestoRequest) : string :=
get_url r constants.URL_STATEMENT_PATH.

(** The redirect loop of [post]: while the response is a redirect, the
  handler resolves its [Location] and the same body and headers are
  posted again. *)
Fixpoint follow_redirects (fuel : nat) (handle : string -> res string)
  (body : string) (hs : list (string * option string))
  (answer : option http_response) : M (option http_response) :=
match answer with
| None => ret None
| Some r =>
    if is_redirect r then
      match fuel with
      | O => diverge
      | S fuel' =>
          location <- lift (match header_get (headers r) "Location" with
                            | Some l => Ok l
                            | None => Raise (KeyError "Location")
                            end) ;;
          u <- lift (handle location) ;;
          next <- _post u body hs false ;;
          follow_redirects fuel' handle body hs next
      end
    else ret (Some r)
end.

(** Every turn of a loop of the driver consumes an answer of the
  script or ends the loop: one more step than answers left is enough
  for any loop. *)
Definition steps (h : heap) : nat := S (length (pending (net h))).

(** [PrestoRequest.post] (lines 343-372). *)
Definition post (sql : string) : M (option http_response) :=
r <- gets request ;;
hs <- lift (http_headers r) ;;
answer <-
  _post (statement_url r) sql hs
    (match _redirect_handler r with None => true | Some _ => false end) ;;
match _redirect_handler r with
| Some handle =>
    fuel <- gets steps ;;
    follow_redirects fuel handle sql hs answer
| None => ret answer
end.

(** [PrestoRequest.get] (lines 374-380): the headers are built anew
  for each call. *)
Definition get (u : string) : M (option http_response) :=
r <- gets request ;;
hs <- lift (http_headers r) ;;
_get u hs.

(** [PrestoRequest.delete] (lines 382-383): no headers are passed. *)
Definition delete (u : string) : M (option http_response) := _delete u.

(** [j[k]] for a string key [k]. *)
Definition getitem (j : json) (k : string) : res json :=
match j with
| JObj o =>
    match dict_get o k with
    | Some v => Ok v
    | None => Raise (KeyError k)
    end
| _ => Raise (TypeError "subscript")
end.

(** [PrestoRequest._process_error] (lines 385-392).  [Ok e]: the
  exception is returned; [Raise e]: it is raised. *)
Definition _process_error (error : json) (query_id : option string) : res exn :=
let? error_type := getitem error "errorType" in
if json_is_str error_type "EXTERNAL"
then Raise (PrestoExternalError error query_id)
else if json_is_str error_type "USER_ERROR"
then Ok (PrestoUserError error query_id)
else Ok (PrestoQueryError error query_id).

(** [PrestoRequest.raise_response_error] (lines 394-403): the
  exception it raises. *)
Definition raise_response_error (r : http_response) : exn :=
if (status_code r =? 503)%Z
then Http503Error "error 503: service unavailable"
else HttpError (status_code r) (content r).

(** [get_header_values] (lines 99-100). *)
Definition get_header_values (hs : list (string * string)) (header : string)
  : res (list string) :=
match header_get hs header with
| Some v => Ok (map Py.strip (Py.split ","%char v))
| None => Raise (KeyError header)
end.

(** The pairs [(k.strip(), unquote(v.strip()))]; an entry without [=]
  does not unpack. *)
Fixpoint session_pairs (kvs : list string) : res (list (string * string)) :=
match kvs with
| [] => Ok []
| kv :: r =>
    match Py.split1 "="%char kv with
    | [k; v] =>
        let? rest := session_pairs r in
        Ok ((Py.strip k, Urllib.unquote (Py.strip v)) :: rest)
    | _ => Raise (ValueError "not enough values to unpack")
    end
end.

(** [get_session_property_values] (lines 103-108). *)
Definition get_session_property_values (hs : list (string * string))
  (header : string) : res (list (string * string)) :=
let? kvs := get_header_values hs header in
session_pairs kvs.

Definition set_properties (f : list (string * string) -> list (string * string))
  : M unit :=
modify (on_request (fun r =>
  with_client_session
    (with_properties (f (_properties (_client_session r))) (_client_session r))
    r)).

(** [raise e] where [e] is the outcome of a call. *)
Definition raise_result {A : Type} (r : res exn) : M A :=
match r with
| Ok e => raise e
| Raise e => raise e
| Diverge => diverge
end.

(** [PrestoRequest.process] (lines 405-442).  The response is [None]
  when the wired verb made no attempt. *)
Definition process (answer : option http_response) : M PrestoStatus :=
match answer with
| None => raise (AttributeError "ok")
| Some r =>
    if negb (ok r) then raise (raise_response_error r)
    else
      match json_body r with
      | None => raise (ValueError "response body is not JSON")
      | Some response =>
          match j_error response with
          | Some error =>
              raise_result (_process_error error (field_get (j_id response)))
          | None =>
              (if header_mem (headers r) constants.HEADER_CLEAR_SESSION then
                 props <- lift (get_header_values (headers r)
                                  constants.HEADER_CLEAR_SESSION) ;;
                 set_properties (fun p => fold_left dict_pop props p)
               else ret tt) ;;;
              (if header_mem (headers r) constants.HEADER_SET_SESSION then
                 kvs <- lift (get_session_property_values (headers r)
                                constants.HEADER_SET_SESSION) ;;
                 set_properties
                   (fun p => fold_left (fun d kv => dict_set d (fst kv) (snd kv))
                               kvs p)
               else ret tt) ;;;
              (match header_get (headers r) constants.HEADER_ADDED_PREPARE with
               | Some v =>
                   modify (on_request (fun q =>
                     with_http_session_headers
                       (ci_set (http_session_headers q)
                          constants.HEADER_PREPARED_STATEMENT (Some v)) q))
               | None => ret tt
               end) ;;;
              modify (on_request (with_next_uri (field_get (j_nextUri response)))) ;;;
              i <- lift (field_item "id" (j_id response)) ;;
              s <- lift (field_item "stats" (j_stats response)) ;;
              u <- lift (field_item "infoUri" (j_infoUri response)) ;;
              ret {| id := i;
                     stats := s;
                     warnings := field_get_default (j_warnings response) [];
                     info_uri := u;
                     next_uri := field_get (j_nextUri response);
                     rows := field_get_default (j_data response) [];
                     columns := field_get (j_columns response) |}
          end
      end
end.

(** ** The libraries the client calls

  [decimal], [datetime], [pytz] and the credential provider are not
  code of the client: the development is parametric in what their calls
  return.  [timezone n] is [timezone(timedelta(minutes=n))]; the two
  constants name the header of the refreshed token. *)

Class Platform : Type := {
  pyobj : Type;
  Decimal : json -> res pyobj;
  strptime : json -> string -> res pyobj;
  date_of : pyobj -> pyobj;
  time_of : pyobj -> pyobj;
  replace_tzinfo : pyobj -> pyobj -> pyobj;
  pytz_timezone : string -> res pyobj;
  timezone : Z -> res pyobj;
  refresh : Credentials -> res Credentials;
  PRESTO_EXTRA_CREDENTIAL : string;
  GCS_CREDENTIALS_OAUTH_TOKEN_KEY : string
}.

(** The names bound at the top level of [prestodb/client.py]: its
  imports, its assignments, its functions and its classes. *)
Definition module_globals : list string :=
[ "absolute_import"; "division"; "print_function"; "logging"; "os";
  "Any"; "Dict"; "List"; "Optional"; "Text"; "Tuple"; "Union";
  "datetime"; "timedelta"; "timezone"; "Decimal"; "pytz"; "prestodb";
  "requests"; "parse"; "constants"; "exceptions"; "NO_TRANSACTION";
  "__all__"; "logger"; "MAX_ATTEMPTS"; "SOCKS_PROXY"; "PROXIES";
  "ClientSession"; "get_header_values"; "get_session_property_values";
  "PrestoStatus"; "PrestoRequest"; "PrestoResult"; "PrestoQuery" ].

(** Evaluating a global name that is no builtin. *)
Definition global_name (n : string) : res unit :=
if existsb (String.eqb n) module_globals then Ok tt else Raise (NameError n).

(** [j[i]] for an index [i]. *)
Definition getindex (j : json) (i : nat) : res json :=
match j with
| JArr l =>
    match nth_error l i with
    | Some v => Ok v
    | None => Raise IndexError
    end
| JStr s =>
    match String.get i s with
    | Some c => Ok (JStr (String c EmptyString))
    | None => Raise IndexError
    end
| JObj _ => Raise (KeyError (Py.str_of_int (Z.of_nat i)))
| _ => Raise (TypeError "subscript")
end.

(** ["literal" in x] for a JSON value [x]. *)
Definition contains_str (sub : string) (j : json) : res bool :=
match j with
| JStr s => Ok (Py.contains sub s)
| JArr l => Ok (existsb (fun x => json_is_str x sub) l)
| JObj o => Ok (dict_mem o sub)
| _ => Raise (TypeError "argument is not iterable")
end.

Definition two_digits (a b : ascii) : Z :=
Z.of_nat ((nat_of_ascii a - 48) * 10 + (nat_of_ascii b - 48)).

Definition newline : ascii := ascii_of_nat 10.

(** [re.match] of the time-with-zone pattern on [s] (any text, a sign,
  two digits, a colon, two digits, the end): the four groups, the sign
  as a flag for minus and the digit groups as numbers.  The end is also
  matched before a final newline, and the dot matches no newline. *)
Definition match_time_tz (s : string) : option (string * bool * Z * Z) :=
let r := rev (list_ascii_of_string s) in
let r := match r with
         | c :: r' => if Ascii.eqb c newline then r' else r
         | [] => r
         end in
match r with
| m2 :: m1 :: colon :: h2 :: h1 :: sign :: g1 =>
    if Py.is_digit m2 && Py.is_digit m1 && Ascii.eqb colon ":"%char &&
       Py.is_digit h2 && Py.is_digit h1 &&
       (Ascii.eqb sign "+"%char || Ascii.eqb sign "-"%char) &&
       negb (existsb (Ascii.eqb newline) g1)
    then Some (string_of_list_ascii (rev g1), Ascii.eqb sign "-"%char,
               two_digits h1 h2, two_digits m1 m2)
    else None
| _ => None
end.

Section WithPlatform.
Context {P : Platform}.

(** What the typed mapper returns: the cell as it came, an object of
  a library, or a list of such. *)
Inductive pyval : Type :=
| PJson (j : json)
| PObj (o : pyobj)
| PList (l : list pyval).

(** The [except ValueError] clause of the mapper: it formats the
  message and evaluates [prestodb/client.py (error_str)], that is
  [prestodb / client.py(error_str)]; [client] is bound nowhere, so
  the call after it is never made. *)
Definition on_value_error (r : res pyval) : res pyval :=
match r with
| Raise (ValueError _) =>
    let? _ := global_name "prestodb" in
    let? _ := global_name "client" in
    Raise (AttributeError "py")
| _ => r
end.

(** The [try] body of the mapper for a cell that is not a list. *)
Definition convert_scalar (value raw_type : json) : res pyval :=
let? is_decimal := contains_str "decimal" raw_type in
if is_decimal then
  let? d := Decimal value in Ok (PObj d)
else if json_is_str raw_type "date" then
  let? d := strptime value "%Y-%m-%d" in Ok (PObj (date_of d))
else if json_is_str raw_type "timestamp with time zone" then
  match value with
  | JStr s =>
      match Py.rsplit1 " "%char s with
      | [dt; tz] =>
          if Py.startswith tz "+" || Py.startswith tz "-" then
            let? d := strptime value "%Y-%m-%d %H:%M:%S.%f %z" in Ok (PObj d)
          else
            let? d := strptime (JStr dt) "%Y-%m-%d %H:%M:%S.%f" in
            let? z := pytz_timezone tz in
            Ok (PObj (replace_tzinfo d z))
      | _ => Raise (ValueError "not enough values to unpack")
      end
  | _ => Raise (AttributeError "rsplit")
  end
else
  let? is_timestamp := contains_str "timestamp" raw_type in
  if is_timestamp then
    let? d := strptime value "%Y-%m-%d %H:%M:%S.%f" in Ok (PObj d)
  else
    let? is_time_tz := contains_str "time with time zone" raw_type in
    if is_time_tz then
      let? _ := global_name "re" in
      match value with
      | JStr s =>
          match match_time_tz s with
          | None => Raise AssertionError
          | Some (g1, minus, hours, minutes) =>
              let tz := if minus then (- (hours * 60 + minutes))%Z
                        else (hours * 60 + minutes)%Z in
              let? d := strptime (JStr g1) "%H:%M:%S.%f" in
              let? z := timezone tz in
              Ok (PObj (replace_tzinfo (time_of d) z))
          end
      | _ => Raise (TypeError "expected string or bytes-like object")
      end
    else
      let? is_time := contains_str "time" raw_type in
      if is_time then
        let? d := strptime value "%H:%M:%S.%f" in Ok (PObj (time_of d))
      else Ok (PJson value).

(** [PrestoResult._map_to_python_type] (lines 495-536) on the pair
  [(value, data_type)]. *)
Fixpoint _map_to_python_type (value data_type : json) {struct value}
  : res pyval :=
match value with
| JNull => Ok (PJson JNull)
| JArr items =>
    let? signature := getitem data_type "typeSignature" in
    let? raw_type := getitem signature "rawType" in
    on_value_error
      (let? arguments := getitem signature "arguments" in
       let? argument := getindex arguments 0 in
       let? element := getitem argument "value" in
       let element_type := JObj [("typeSignature", element)] in
       let? l :=
         (fix map_items (l : list json) : res (list pyval) :=
            match l with
            | [] => Ok []
            | array_item :: r =>
                let? x := _map_to_python_type array_item element_type in
                let? xs := map_items r in
                Ok (x :: xs)
            end) items in
       Ok (PList l))
| _ =>
    let? signature := getitem data_type "typeSignature" in
    let? raw_type := getitem signature "rawType" in
    on_value_error (convert_scalar value raw_type)
end.

Fixpoint map_cells (cells : list (json * json)) : res (list pyval) :=
match cells with
| [] => Ok []
| (value, data_type) :: r =>
    let? x := _map_to_python_type value data_type in
    let? xs := map_cells r in
    Ok (x :: xs)
end.

(** [list(map(self._map_to_python_type, zip(row, columns)))] *)
Definition _map_to_python_types (row : list json) (cols : option (list json))
  : res (list pyval) :=
match cols with
| None => Raise (TypeError "'NoneType' object is not iterable")
| Some cs => map_cells (combine row cs)
end.

(** ** PrestoQuery *)

Definition is_finished : M bool := gets (fun h => _finished (query h)).

Definition update_stats (s : option (list (string * json))) : M unit :=
match s with
| Some d => modify (on_query (fun q => with_stats (dict_update (_stats q) d) q))
| None => raise (TypeError "'NoneType' object is not iterable")
end.

(** [PrestoQuery.fetch] (lines 612-625): it returns [status.rows],
  [None] when the response has a null [data]. *)
Definition fetch : M (option (list (list json))) :=
r <- gets request ;;
match _next_uri r with
| None =>
    modify (on_query (with_finished true)) ;;;
    ret (Some [])
| Some uri =>
    response <- get uri ;;
    status <- process response ;;
    (match columns status with
     | Some (c :: cs) => modify (on_query (with_columns (Some (c :: cs))))
     | _ => ret tt
     end) ;;;
    update_stats (stats status) ;;;
    (match next_uri status with
     | None => modify (on_query (with_finished true))
     | Some _ => ret tt
     end) ;;;
    ret (rows status)
end.

Definition get_oauth_token : M (list (string * option string)) :=
c <- gets credentials ;;
match c with
| None => raise (AttributeError "refresh")
| Some c =>
    c' <- lift (refresh c) ;;
    modify (on_credentials (Some c')) ;;;
    ret [(PRESTO_EXTRA_CREDENTIAL,
          Some (GCS_CREDENTIALS_OAUTH_TOKEN_KEY ++ " = " ++ token c')%string)]
end.

(** [self._result._rows += self.fetch()], until the query is finished
  or cancelled. *)
Fixpoint fetch_all (fuel : nat) : M unit :=
q <- gets query ;;
if negb (_finished q) && negb (_cancelled q) then
  match fuel with
  | O => diverge
  | S fuel' =>
      rs <- gets result ;;
      more <- fetch ;;
      match _rows rs, more with
      | Some l, Some l' => modify (on_result (with_rows (Some (l ++ l'))))
      | Some _, None => raise (TypeError "'NoneType' object is not iterable")
      | None, _ => raise (TypeError "unsupported operand type(s) for +=")
      end ;;;
      fetch_all fuel'
  end
else ret tt.

(** [rows or []], as [PrestoResult.__init__] stores its rows. *)
Definition rows_or_empty (l : option (list (list json))) : list (list json) :=
match l with
| Some rows => rows
| None => []
end.

Definition json_of_id (i : option string) : json :=
match i with
| Some s => JStr s
| None => JNull
end.

(** [execute], first step: an expired token is refreshed and put in
  the headers of the HTTP session. *)
Definition refresh_credentials : M unit :=
c <- gets credentials ;;
match c with
| Some c =>
    if negb (valid c) then
      hs <- get_oauth_token ;;
      modify (on_request (fun r =>
        with_http_session_headers (ci_update (http_session_headers r) hs) r))
    else ret tt
| None => ret tt
end.

(** [execute], from the POST on, for the query object [q] as it was on
  entry: the statement is posted, the answer processed and recorded, a
  new result is built on its rows, and the query is polled to its
  end. *)
Definition submit (q : PrestoQuery) : M unit :=
response <- post (_sql q) ;;
status <- process response ;;
modify (on_query (with_query_id (id status))) ;;;
modify (on_query (fun q =>
  with_stats (dict_update (_stats q) [("queryId", json_of_id (id status))]) q)) ;;;
update_stats (stats status) ;;;
modify (on_query (with_warnings (warnings status))) ;;;
(match next_uri status with
 | None => modify (on_query (with_finished true))
 | Some _ => ret tt
 end) ;;;
modify (on_result (fun _ =>
  {| _rows := Some (rows_or_empty (rows status));
     _rownumber := 0;
     typed := _experimental_python_types q |})) ;;;
fuel <- gets steps ;;
fetch_all fuel.

(** [PrestoQuery.execute] (lines 582-610); the result it returns is
  the result of the heap. *)
Definition execute : M unit :=
q <- gets query ;;
if _cancelled q then
  raise (PrestoUserError (JStr "Query has been cancelled") (query_id q))
else
  refresh_credentials ;;;
  submit q.

(** [PrestoQuery.cancel] (lines 627-641). *)
Definition cancel : M unit :=
q <- gets query ;;
match query_id q with
| None => ret tt
| Some i =>
    if _finished q then ret tt
    else
      modify (on_query (with_cancelled true)) ;;;
      r <- gets request ;;
      response <- delete (get_url r ("/v1/query/" ++ i)) ;;
      match response with
      | None => raise (AttributeError "status_code")
      | Some resp =>
          if (status_code resp =? 204)%Z then ret tt
          else raise (raise_response_error resp)
      end
end.

(** ** PrestoResult *)

Inductive yielded : Type :=
| Raw (row : list json)
| Typed (row : list pyval).

Section Iteration.
Context {Obs : Type}.

(** The generator hands each row to its consumer: [consume] is what
  the consumer does with a row before it asks for the next one. *)
Variable consume : yielded -> M Obs.

Definition yield_row (row : list json) : M Obs :=
modify (on_result (fun r => with_rownumber (_rownumber r + 1) r)) ;;;
rs <- gets result ;;
if negb (typed rs) then consume (Raw row)
else
  cols <- gets (fun h => _columns (query h)) ;;
  mapped <- lift (_map_to_python_types row cols) ;;
  consume (Typed mapped).

Fixpoint yield_rows (l : list (list json)) : M (list Obs) :=
match l with
| [] => ret []
| row :: r =>
    o <- yield_row row ;;
    os <- yield_rows r ;;
    ret (o :: os)
end.

(** The second loop of [__iter__]: fetch and yield until finished. *)
Fixpoint yield_fetched (fuel : nat) : M (list Obs) :=
finished <- is_finished ;;
if finished then ret []
else
  match fuel with
  | O => diverge
  | S fuel' =>
      more <- fetch ;;
      match more with
      | None => raise (TypeError "'NoneType' object is not iterable")
      | Some l =>
          os <- yield_rows l ;;
          rest <- yield_fetched fuel' ;;
          ret (os ++ rest)
      end
  end.

(** [PrestoResult.__iter__] (lines 475-493), run to its end. *)
Definition __iter__ : M (list Obs) :=
rs <- gets result ;;
match _rows rs with
| None => raise (TypeError "'NoneType' object is not iterable")
| Some l =>
    os <- yield_rows l ;;
    modify (on_result (with_rows None)) ;;;
    fuel <- gets steps ;;
    rest <- yield_fetched fuel ;;
    ret (os ++ rest)
end.

End Iteration.

(** A consumer that reads [rownumber] at each row. *)
Definition with_rownumbers (y : yielded) : M (yielded * nat) :=
n <- gets (fun h => _rownumber (result h)) ;;
ret (y, n).

End WithPlatform.

(** ** What a run received

  The rows a response carries for the driver: [len(data)] of a response
  that [process] accepts, none otherwise. *)
Definition data_len (r : http_response) : nat :=
if ok r then
  match json_body r with
  | Some response =>
      match j_data response with
      | Val l => length l
      | _ => 0
      end
  | None => 0
  end
else 0.

(** The rows of one exchange of the log.  A redirect that [post]
  follows (a handler is installed) is no response to the query. *)
Definition page_rows (r : PrestoRequest) (x : http_request * outcome) : nat :=
match snd x with
| Raises _ => 0
| Responds resp =>
    match method (fst x), _redirect_handler r with
    | POST, Some _ => if is_redirect resp then 0 else data_len resp
    | _, _ => data_len resp
    end
end.

Definition received_rows (r : PrestoRequest)
  (l : list (http_request * outcome)) : nat :=
list_sum (map (page_rows r) l).

(** The rows of the answer a verb returns to the driver. *)
Definition answer_rows (a : option http_response) : nat :=
match a with
| Some r => data_len r
| None => 0
end.

(** The rows of an answer inside [post] with a redirect handler: a
  redirect is followed, not returned. *)
Definition post_rows (a : option http_response) : nat :=
match a with
| Some r => if is_redirect r then 0 else data_len r
| None => 0
end.

(** From [h] to [h'] the exchanges [l] took place, and the redirect
  handler of the request stayed. *)
Definition ran (l : list (http_request * outcome)) (h h' : heap) : Prop :=
log (net h') = log (net h) ++ l /\
_redirect_handler (request h') = _redirect_handler (request h).

(** An ASCII character that is no white space, no comma and no equals
  sign. *)
Definition plain (c : ascii) : bool :=
Py.is_ascii c &&
negb (Py.is_space c || Ascii.eqb c ","%char || Ascii.eqb c "="%char).

(** An ASCII character that is no white space. *)
Definition solid (c : ascii) : bool :=
Py.is_ascii c && negb (Py.is_space c).

(** A property name the server can send as it is. *)
Definition plain_name (k : string) : bool := Py.all plain k.

(** The names a response clears and the pairs it assigns: what
  [process] reads from its Clear-Session and Set-Session headers. *)
Definition cleared (r : http_response) : list string :=
match get_header_values (headers r) constants.HEADER_CLEAR_SESSION with
| Ok l => l
| _ => []
end.

Definition assigned (r : http_response) : list (string * string) :=
match get_session_property_values (headers r) constants.HEADER_SET_SESSION with
| Ok l => l
| _ => []
end.

(** The call [rq] passes [v] as its session header to the transport;
  and [v] is the session header that travels with [rq], once the
  transport has merged the headers of the HTTP session of [r]. *)
Definition passes_session (v : string) (rq : http_request) : Prop :=
exists hs,
  req_headers rq = Some hs /\
  dict_get hs constants.HEADER_SESSION = Some (Some v).

Definition sends_session (r : PrestoRequest) (v : string) (rq : http_request)
  : Prop :=
ci_get (sent_headers r rq) constants.HEADER_SESSION = Some v.

(** No custom header of the session is the session header in another
  letter case. *)
Definition no_session_variant (r : PrestoRequest) : Prop :=
forall key, In key (dict_keys (_headers (_client_session r))) ->
            ci_eqb key constants.HEADER_SESSION = false.

(** The six reserved request headers of the session that are in the
  header set before the custom headers are merged. *)
Definition set_before_merge (r : PrestoRequest) (key : string) : bool :=
String.eqb key constants.HEADER_CATALOG ||
String.eqb key constants.HEADER_SCHEMA ||
String.eqb key constants.HEADER_SOURCE ||
String.eqb key constants.HEADER_USER ||
String.eqb key constants.HEADER_SESSION ||
(String.eqb key constants.HEADER_PREPARED_STATEMENT &&
 (0 <? length (prepared_statements r))).

(** The reserved request headers of the protocol. *)
Definition reserved_request_headers : list string :=
[ constants.HEADER_USER; constants.HEADER_SOURCE; constants.HEADER_CATALOG;
  constants.HEADER_SCHEMA; constants.HEADER_SESSION;
  constants.HEADER_TRANSACTION; constants.HEADER_PREPARED_STATEMENT ].

(** The headers [http_headers] has set when it merges the custom ones. *)
Definition headers_before_merge (r : PrestoRequest)
  : list (string * option string) :=
let cs := _client_session r in
let hs := [] in
let hs := dict_set hs constants.HEADER_CATALOG (catalog cs) in
let hs := dict_set hs constants.HEADER_SCHEMA (schema cs) in
let hs := dict_set hs constants.HEADER_SOURCE (source cs) in
let hs := dict_set hs constants.HEADER_USER (Some (user cs)) in
let hs :=
  if 0 <? length (prepared_statements r)
  then dict_set hs constants.HEADER_PREPARED_STATEMENT
         (Some (Py.join "," (prepared_statements r)))
  else hs in
dict_set hs constants.HEADER_SESSION
  (Some (Py.join "," (session_entries (_properties cs)))).

(** The answer the coordinator gives to the next request. *)
Definition next_outcome (h : heap) : outcome :=
match pending (net h) with
| [] => Raises ConnectionError
| o :: _ => o
end.

(** What a call of the transport returns on an outcome. *)
Definition returned (o : outcome) : res http_response :=
match o with
| Raises e => Raise e
| Responds r => Ok r
end.

(** What a wired verb returns when [o] is the outcome of its last
  attempt. *)
Definition wrapped (o : outcome) : res (option http_response) :=
match o with
| Raises e => Raise e
| Responds r => Ok (Some r)
end.

(** The heap once the exchanges [l] have taken place. *)
Definition after (l : list (http_request * outcome)) (h : heap) : heap :=
on_net (fun w => {| pending := skipn (length l) (pending w);
                    log := log w ++ l |}) h.

(** The outcomes of [k] requests in a row on the script [p]. *)
Fixpoint answers (k : nat) (p : list outcome) : list outcome :=
match k with
| O => []
| S k' =>
    match p with
    | [] => Raises ConnectionError :: answers k' []
    | o :: p' => o :: answers k' p'
    end
end.

(** The outcomes the wrapper of request [r] retries. *)
Definition retried (r : PrestoRequest) (o : outcome) : bool :=
match o with
| Raises e => _exceptions r e
| Responds resp => (status_code resp =? 503)%Z
end.

(** ** Sample objects: a coordinator session used by the examples *)

Module Sample.

(** A platform whose library objects are the terms of the calls that
  build them. *)
Inductive term : Type :=
| TDecimal (s : string)
| TStrptime (s format : string)
| TDate (t : term)
| TTime (t : term)
| TReplace (t zone : term)
| TZone (name : string)
| TOffset (minutes : Z).

Definition of_str (f : string -> term) (j : json) : res term :=
match j with
| JStr s => Ok (f s)
| _ => Raise (TypeError "expected a string")
end.

Definition platform : Platform := {|
  pyobj := term;
  Decimal := of_str TDecimal;
  strptime := fun j format => of_str (fun s => TStrptime s format) j;
  date_of := TDate;
  time_of := TTime;
  replace_tzinfo := TReplace;
  pytz_timezone := fun name => Ok (TZone name);
  timezone := fun minutes => Ok (TOffset minutes);
  refresh := fun c => Ok {| valid := true; token := token c |};
  PRESTO_EXTRA_CREDENTIAL := "X-Presto-Extra-Credential";
  GCS_CREDENTIALS_OAUTH_TOKEN_KEY := "hive.gcs.oauth"
|}.

Definition session (extra : list (string * string)) : ClientSession := {|
  catalog := Some "hive";
  schema := Some "default";
  source := Some "presto-python-client";
  user := "test";
  _properties := [];
  _headers := extra;
  transaction_id := Some "NONE"
|}.

Definition request_of (extra : list (string * string)) (attempts : Z)
  : PrestoRequest := {|
  _client_session := session extra;
  _host := "coordinator";
  _port := 8080;
  _next_uri := None;
  http_session_headers := [];
  prepared_statements := [];
  auth_exceptions := [];
  _redirect_handler := Some (fun location => Ok location);
  _max_attempts := attempts;
  _http_scheme := "http"
|}.

Definition new_query : PrestoQuery := {|
  query_id := None;
  _stats := [];
  _warnings := Some [];
  _columns := None;
  _finished := false;
  _cancelled := false;
  _sql := "SELECT x FROM t";
  _experimental_python_types := false
|}.

(** A client that has not yet sent anything, facing a script. *)
Definition client (attempts : Z) (script : list outcome) : heap := {|
  request := request_of [] attempts;
  credentials := None;
  query := new_query;
  result := {| _rows := Some []; _rownumber := 0; typed := false |};
  net := {| pending := script; log := [] |}
|}.

Definition page (next : field string) (cols : field (list json))
  (rows : field (list (list json))) : response_json := {|
  j_error := None;
  j_id := Val "q1";
  j_infoUri := Val "/ui/q1";
  j_nextUri := next;
  j_stats := Val [("state", JStr "RUNNING")];
  j_warnings := Absent;
  j_data := rows;
  j_columns := cols
|}.

Definition answer (code : Z) (hs : list (string * string))
  (body : option response_json) : http_response := {|
  status_code := code; headers := hs; content := ""; json_body := body
|}.

Definition column_x : json :=
JObj [("name", JStr "x"); ("type", JStr "bigint");
      ("typeSignature",
       JObj [("rawType", JStr "bigint"); ("arguments", JArr [])])].

(** Scenario S1 after one refused attempt: a 503, the answer to the
  POST, then two polls. *)
Definition script : list outcome :=
[ Responds (answer 503 [] None);
  Responds (answer 200 [] (Some (page (Val "/v1/statement/q1/1") Null Null)));
  Responds (answer 200 []
              (Some (page (Val "/v1/statement/q1/2") (Val [column_x])
                       (Val [[JNum 1]; [JNum 2]]))));
  Responds (answer 200 [] (Some (page Absent Absent (Val [[JNum 3]])))) ].

(** A running query: the POST has been answered, a poll is due. *)
Definition running (attempts : Z) (script : list outcome) : heap := {|
  request := with_next_uri (Some "/v1/statement/q1/1") (request_of [] attempts);
  credentials := None;
  query := with_query_id (Some "q1") new_query;
  result := {| _rows := Some []; _rownumber := 0; typed := false |};
  net := {| pending := script; log := [] |}
|}.

Definition column_of (raw_type : string) : json :=
JObj [("typeSignature",
       JObj [("rawType", JStr raw_type); ("arguments", JArr [])])].

(** The last poll of scenario S1: rows, no [columns], no [nextUri]. *)
Definition last_page : http_response :=
answer 200 [] (Some (page Absent Absent (Val [[JNum 3]]))).

(** A running query that has seen the columns of scenario S1. *)
Definition latched (script : list outcome) : heap :=
on_query (with_columns (Some [column_x])) (running 3 script).

End Sample.

(** ** Further notions used by the properties of the request layer *)

(** The Set-Session header of a response, if there is one, unpacks
  into pairs. *)
Definition set_session_parses (r : http_response) : bool :=
match header_get (headers r) constants.HEADER_SET_SESSION with
| None => true
| Some _ =>
    match get_session_property_values (headers r)
            constants.HEADER_SET_SESSION with
    | Ok _ => true
    | _ => false
    end
end.

(** An ASCII character that is no white space and no comma: the text
  of one value of a comma-separated header. *)
Definition bare (c : ascii) : bool :=
Py.is_ascii c && negb (Py.is_space c || Ascii.eqb c ","%char).

(** A text without a comma. *)
Definition comma_free (s : string) : bool :=
Py.all (fun c => negb (Ascii.eqb c ","%char)) s.

(** The rows a response carries for the driver: the [data] of a
  response that [process] accepts, none otherwise. *)
Definition data_rows (r : http_response) : list (list json) :=
if ok r then
  match json_body r with
  | Some response =>
      match j_data response with
      | Val l => l
      | _ => []
      end
  | None => []
  end
else [].

(** The rows of one exchange of the log; a redirect that [post]
  follows is no response to the query. *)
Definition page_data (r : PrestoRequest) (x : http_request * outcome)
  : list (list json) :=
match snd x with
| Raises _ => []
| Responds resp =>
    match method (fst x), _redirect_handler r with
    | POST, Some _ => if is_redirect resp then [] else data_rows resp
    | _, _ => data_rows resp
    end
end.

(** The rows of the exchanges of a log, in the order of the log. *)
Definition received_data (r : PrestoRequest)
  (l : list (http_request * outcome)) : list (list json) :=
flat_map (page_data r) l.

Definition answer_data (a : option http_response) : list (list json) :=
match a with
| Some r => data_rows r
| None => []
end.

Definition post_data (a : option http_response) : list (list json) :=
match a with
| Some r => if is_redirect r then [] else data_rows r
| None => []
end.

(** [PrestoResult.__init__] (lines 464-468). *)
Definition PrestoResult_init (rows : option (list (list json)))
  (experimental_python_types : bool) : PrestoResult :=
{| _rows := Some (rows_or_empty rows);
   _rownumber := 0;
   typed := experimental_python_types |}.

(** [PrestoQuery.__init__] (lines 545-564): the query and the result
  it starts with.  The request and its credentials are shared, not
  copied. *)
Definition PrestoQuery_init (sql : string) (experimental_python_types : bool)
  : PrestoQuery * PrestoResult :=
({| query_id := None;
    _stats := [];
    _warnings := Some [];
    _columns := None;
    _finished := false;
    _cancelled := false;
    _sql := sql;
    _experimental_python_types := experimental_python_types |},
 PrestoResult_init None experimental_python_types).

(** The heap once a query has been made for a request. *)
Definition new_query_on (rq : PrestoRequest) (c : option Credentials)
  (sql : string) (experimental_python_types : bool) (w : world) : heap :=
{| request := rq;
   credentials := c;
   query := fst (PrestoQuery_init sql experimental_python_types);
   result := snd (PrestoQuery_init sql experimental_python_types);
   net := w |}.



(** An authenticator, as the request uses it: the exception classes it
  declares.  What [set_http_session] installs on the transport is state
  of the transport. *)
Record Authentication : Type := {
  get_exceptions : list string
}.

(** Modelled from the spec: [constants.HTTP] is not among the sources;
  section 4 names the two schemes, [http] being the plaintext one. *)
Definition HTTP : string := "http".

(** [PrestoRequest.__init__] (lines 205-259).  [http_session] stands
  for the headers of the HTTP session that is passed, or of the new one
  the transport makes; [service_account] for the credentials the
  service account file yields.  The result is the request with the
  credentials it holds. *)
Definition PrestoRequest__init__ {P : Platform} (host : string) (port : Z)
  (client_session : ClientSession)
  (http_session : list (string * option string))
  (http_scheme : string) (auth : option Authentication)
  (redirect_handler : option (string -> res string)) (max_attempts : Z)
  (service_account : option Credentials)
  : res (PrestoRequest * option Credentials) :=
let? (session_headers, creds) :=
  match service_account with
  | Some c =>
      let? c' := refresh c in
      Ok (ci_update http_session
            [(PRESTO_EXTRA_CREDENTIAL,
              Some (GCS_CREDENTIALS_OAUTH_TOKEN_KEY ++ " = " ++ token c')%string)],
          Some c')
  | None => Ok (http_session, None)
  end in
let self :=
  {| _client_session := client_session;
     _host := host;
     _port := port;
     _next_uri := None;
     http_session_headers := session_headers;
     prepared_statements := [];
     auth_exceptions := [];
     _redirect_handler := redirect_handler;
     _max_attempts := max_attempts;
     _http_scheme := http_scheme |} in
let? hs := http_headers self in
let self := with_http_session_headers (ci_update session_headers hs) self in
let? exceptions :=
  match auth with
  | Some a =>
      if String.eqb http_scheme HTTP
      then Raise (ValueError "cannot use authentication with HTTP")
      else Ok (get_exceptions a)
  | None => Ok []
  end in
Ok ({| _client_session := _client_session self;
       _host := _host self;
       _port := _port self;
       _next_uri := _next_uri self;
       http_session_headers := http_session_headers self;
       prepared_statements := prepared_statements self;
       auth_exceptions := exceptions;
       _redirect_handler := _redirect_handler self;
       _max_attempts := _max_attempts self;
       _http_scheme := _http_scheme self |}, creds).

(** A rawType the mapper has no conversion for: it names no decimal,
  is not [date] and names no time. *)
Definition passes_through (raw_type : string) : bool :=
negb (Py.contains "decimal" raw_type) &&
negb (String.eqb raw_type "date") &&
negb (Py.contains "time" raw_type).

(** A chain of redirects: [hops] lists, for each further POST, the URL
  it goes to and the response it gets.  Every response but the last is
  a redirect whose [Location] the handler resolves to the URL of the
  next hop; the last one, [prev] itself when there is no hop, is no
  redirect. *)
Fixpoint follows (handle : string -> res string) (prev : http_response)
  (hops : list (string * http_response)) : bool :=
match hops with
| [] => negb (is_redirect prev)
| (u, c) :: hops' =>
    is_redirect prev &&
    match header_get (headers prev) "Location" with
    | Some location =>
        match handle location with
        | Ok u' => String.eqb u' u
        | _ => false
        end
    | None => false
    end &&
    follows handle c hops'
end.

(** * Properties *)

(** ** Basic facts *)

Lemma json_is_str_true (j : json) (s : string) :
  json_is_str j s = true <-> j = JStr s.
Proof.
  destruct j; simpl; split; intro E; try discriminate.
  - apply String.eqb_eq in E. now subst.
  - injection E as ->. apply String.eqb_refl.
Qed.

Lemma json_is_str_false (j : json) (s : string) :
  j <> JStr s -> json_is_str j s = false.
Proof.
  intro N. destruct (json_is_str j s) eqn:E; [|reflexivity].
  apply json_is_str_true in E. contradiction.
Qed.

Lemma success_status_ok (r : http_response) :
  (200 <= status_code r < 300)%Z -> ok r = true.
Proof.
  intro R. unfold ok.
  destruct (Z.leb_spec 400 (status_code r)); [lia|reflexivity].
Qed.

(** Processing a response whose body has an [error] key leaves the
  heap as it was and raises what [_process_error] returns or raises. *)
Lemma process_error_body (r : http_response) (response : response_json)
  (error : json) (h : heap) :
  ok r = true ->
  json_body r = Some response ->
  j_error response = Some error ->
  process (Some r) h =
    (match _process_error error (field_get (j_id response)) with
     | Ok e => Raise e
     | Raise e => Raise e
     | Diverge => Diverge
     end, h).
Proof.
  intros K B E. unfold process. rewrite K, B, E. simpl.
  destruct (_process_error error (field_get (j_id response))); reflexivity.
Qed.

Lemma _process_error_total (error : json) (i : option string) :
  _process_error error i <> Diverge.
Proof.
  unfold _process_error, res_bind.
  destruct (getitem error "errorType") as [t| |] eqn:G; try discriminate.
  - destruct (json_is_str t "EXTERNAL"); [discriminate|].
    destruct (json_is_str t "USER_ERROR"); discriminate.
  - unfold getitem in G. destruct error; try discriminate.
    destruct (dict_get o "errorType"); discriminate.
Qed.

(** ** C3: error responses *)

(** C3. Processing a 2xx response whose JSON body has an [error] field
  never returns a status: it raises, and the heap (session properties,
  prepared statement header, next URI) is left as it was.  With
  [errorType] USER_ERROR the exception is a [PrestoUserError] that
  [_process_error] returns, with EXTERNAL a [PrestoExternalError] that
  [_process_error] itself raises, with any other [errorType] a
  [PrestoQueryError]; each carries the error structure and the [id]
  of the body when it has one. *)
Theorem error_response_never_yields_status (r : http_response)
  (response : response_json) (error : json) (h : heap) :
  (200 <= status_code r < 300)%Z ->
  json_body r = Some response ->
  j_error response = Some error ->
  let i := field_get (j_id response) in
  (exists e, process (Some r) h = (Raise e, h)) /\
  (getitem error "errorType" = Ok (JStr "USER_ERROR") ->
   _process_error error i = Ok (PrestoUserError error i) /\
   process (Some r) h = (Raise (PrestoUserError error i), h)) /\
  (getitem error "errorType" = Ok (JStr "EXTERNAL") ->
   _process_error error i = Raise (PrestoExternalError error i) /\
   process (Some r) h = (Raise (PrestoExternalError error i), h)) /\
  (forall t, getitem error "errorType" = Ok t ->
   t <> JStr "USER_ERROR" -> t <> JStr "EXTERNAL" ->
   _process_error error i = Ok (PrestoQueryError error i) /\
   process (Some r) h = (Raise (PrestoQueryError error i), h)).
Proof.
  intros R B E i.
  pose proof (process_error_body r response error h
                (success_status_ok r R) B E) as Pr.
  fold i in Pr.
  repeat split.
  - destruct (_process_error error i) as [e|e|] eqn:D.
    + now exists e.
    + now exists e.
    + now apply _process_error_total in D.
  - unfold _process_error. rewrite H. reflexivity.
  - rewrite Pr. unfold _process_error. rewrite H. reflexivity.
  - unfold _process_error. rewrite H. reflexivity.
  - rewrite Pr. unfold _process_error. rewrite H. reflexivity.
  - unfold _process_error. rewrite H. simpl.
    now rewrite (json_is_str_false t "EXTERNAL"), (json_is_str_false t "USER_ERROR").
  - rewrite Pr. unfold _process_error. rewrite H. simpl.
    now rewrite (json_is_str_false t "EXTERNAL"), (json_is_str_false t "USER_ERROR").
Qed.

(** Scenario S3: a 200 answer whose body reports a user error. *)
Lemma error_response_never_yields_status_witness :
  let error := JObj [("errorType", JStr "USER_ERROR"); ("message", JStr "syntax")] in
  let response := {| j_error := Some error; j_id := Val "q2";
                     j_infoUri := Absent; j_nextUri := Absent;
                     j_stats := Absent; j_warnings := Absent;
                     j_data := Absent; j_columns := Absent |} in
  let r := Sample.answer 200 [("X-Presto-Set-Session", "a=1")] (Some response) in
  let h := Sample.client 3 [] in
  process (Some r) h = (Raise (PrestoUserError error (Some "q2")), h).
Proof.
  intros error response r h.
  refine (proj2 (proj1 (proj2
    (error_response_never_yields_status r response error h _ _ _)) _)).
  - simpl. lia.
  - reflexivity.
  - reflexivity.
  - reflexivity.
Defined.

(** ** C7: custom headers and reserved headers *)

Lemma dict_get_set_same {V : Type} (d : list (string * V)) (k : string) (v : V) :
  dict_get (dict_set d k v) k = Some v.
Proof.
  induction d as [|[k' v'] d IH]; simpl.
  - now rewrite String.eqb_refl.
  - destruct (String.eqb k' k) eqn:E; simpl; rewrite E; [reflexivity|exact IH].
Qed.

Lemma http_headers_unfold (r : PrestoRequest) :
  http_headers r =
  let cs := _client_session r in
  let? _ := check_custom_headers (headers_before_merge r) (dict_keys (_headers cs)) in
  Ok (dict_set
        (dict_update (headers_before_merge r)
           (map (fun kv => (fst kv, Some (snd kv))) (_headers cs)))
        constants.HEADER_TRANSACTION (transaction_id cs)).
Proof. reflexivity. Qed.

Lemma dict_get_set {V : Type} (d : list (string * V)) (k key : string) (v : V) :
  dict_get (dict_set d k v) key
  = if String.eqb k key then Some v else dict_get d key.
Proof.
  induction d as [|[k' v'] d IH]; cbn [dict_set dict_get]; [reflexivity|].
  destruct (String.eqb k' k) eqn:E; cbn [dict_get].
  - apply String.eqb_eq in E. subst k'.
    destruct (String.eqb k key); reflexivity.
  - rewrite IH. destruct (String.eqb k' key) eqn:E'; [|reflexivity].
    apply String.eqb_eq in E'. subst key. rewrite String.eqb_sym, E.
    reflexivity.
Qed.

Lemma dict_mem_set {V : Type} (d : list (string * V)) (k key : string) (v : V) :
  dict_mem (dict_set d k v) key = String.eqb k key || dict_mem d key.
Proof.
  unfold dict_mem. rewrite dict_get_set.
  destruct (String.eqb k key); reflexivity.
Qed.

Lemma headers_before_merge_mem (r : PrestoRequest) (key : string) :
  dict_mem (headers_before_merge r) key = set_before_merge r key.
Proof.
  unfold headers_before_merge, set_before_merge.
  rewrite !(String.eqb_sym key).
  destruct (0 <? length (prepared_statements r));
    rewrite !dict_mem_set; cbn [dict_mem dict_get];
    repeat match goal with
           | |- context [String.eqb ?a key] => destruct (String.eqb a key)
           end; reflexivity.
Qed.

Lemma check_custom_headers_refuses (hs : list (string * option string))
  (keys : list string) (key : string) :
  In key keys -> dict_mem hs key = true ->
  exists k, In k keys /\ dict_mem hs k = true /\
    check_custom_headers hs keys =
      Raise (ValueError ("cannot override reserved HTTP header " ++ k)).
Proof.
  induction keys as [|k0 keys IH]; intros I Mm; [contradiction|].
  simpl. destruct (dict_mem hs k0) eqn:E.
  - exists k0. split; [now left|]. split; [exact E|reflexivity].
  - destruct I as [->|I]; [congruence|].
    destruct (IH I Mm) as (k & Ik & Mk & C).
    exists k. split; [now right|]. split; [exact Mk|exact C].
Qed.

(** The transaction header is written after the merge: it always
  carries the transaction id of the session. *)
Lemma transaction_header_from_session (r : PrestoRequest)
  (hs : list (string * option string)) :
  http_headers r = Ok hs ->
  dict_get hs constants.HEADER_TRANSACTION
  = Some (transaction_id (_client_session r)).
Proof.
  intro E. rewrite http_headers_unfold in E. cbv zeta in E.
  destruct (check_custom_headers _ _); cbn [res_bind] in E; try discriminate.
  injection E as <-. apply dict_get_set_same.
Qed.

(** C7, as the code has it.  Building the request headers fails with a
  [ValueError] naming a custom header as soon as [extra_headers] has a
  key among X-Presto-Catalog, -Schema, -Source, -User and -Session, or
  the key X-Presto-Prepared-Statement while a prepared statement is
  recorded: the headers the session has set when the custom ones are
  merged. *)
Theorem reserved_custom_header_refused (r : PrestoRequest) (key : string) :
  In key (dict_keys (_headers (_client_session r))) ->
  set_before_merge r key = true ->
  exists k,
    In k (dict_keys (_headers (_client_session r))) /\
    set_before_merge r k = true /\
    http_headers r =
      Raise (ValueError ("cannot override reserved HTTP header " ++ k)).
Proof.
  intros I S.
  rewrite <- headers_before_merge_mem in S.
  destruct (check_custom_headers_refuses _ _ _ I S) as (k & Ik & Mk & C).
  exists k. rewrite headers_before_merge_mem in Mk.
  repeat split; auto.
  rewrite http_headers_unfold. cbv zeta. now rewrite C.
Qed.

Lemma reserved_custom_header_refused_witness :
  let r := Sample.request_of [("X-Trace", "1"); ("X-Presto-User", "root")] 3 in
  exists k,
    In k (dict_keys (_headers (_client_session r))) /\
    set_before_merge r k = true /\
    http_headers r =
      Raise (ValueError ("cannot override reserved HTTP header " ++ k)).
Proof.
  intro r.
  apply (reserved_custom_header_refused r "X-Presto-User").
  - simpl. auto.
  - reflexivity.
Defined.

(** C7 as stated fails: a custom X-Presto-Transaction-Id is a key equal
  to a reserved header, and the headers are built. *)
Lemma custom_transaction_header_not_refused :
  ~ (forall r key,
       In key reserved_request_headers ->
       In key (dict_keys (_headers (_client_session r))) ->
       exists e, http_headers r = Raise e).
Proof.
  intro C.
  destruct (C (Sample.request_of [("X-Presto-Transaction-Id", "abc")] 3)
              "X-Presto-Transaction-Id") as (e & E).
  - simpl. auto 10.
  - simpl. auto.
  - vm_compute in E. discriminate.
Qed.

(** ** C8 and C9: the typed mapper *)

Section Mapper.
Context {P : Platform}.

(** Whatever conversion raises a [ValueError], the handler of the
  mapper ends in the [NameError] of the unbound name [client]. *)
Lemma on_value_error_name_error (m : string) :
  on_value_error (Raise (ValueError m)) = Raise (NameError "client").
Proof. reflexivity. Qed.

Lemma scalar_value_error_name_error (value data_type signature raw_type : json)
  (m : string) :
  (forall l, value <> JArr l) -> value <> JNull ->
  getitem data_type "typeSignature" = Ok signature ->
  getitem signature "rawType" = Ok raw_type ->
  convert_scalar value raw_type = Raise (ValueError m) ->
  _map_to_python_type value data_type = Raise (NameError "client").
Proof.
  intros NL NN S R C.
  destruct value; try congruence;
    try (now exfalso; eapply NL);
    cbn [_map_to_python_type]; rewrite S; cbn [res_bind]; rewrite R;
    cbn [res_bind]; rewrite C; reflexivity.
Qed.

(** A text cell of a column that reaches the time-with-time-zone
  branch: the name [re] is looked up first, and is not bound. *)
Lemma time_tz_branch_name_error (s : string) (raw_type : string) :
  Py.contains "decimal" raw_type = false ->
  raw_type <> "date" ->
  raw_type <> "timestamp with time zone" ->
  Py.contains "timestamp" raw_type = false ->
  Py.contains "time with time zone" raw_type = true ->
  _map_to_python_type (JStr s) (Sample.column_of raw_type)
  = Raise (NameError "re").
Proof.
  intros D N1 N2 T Z.
  assert (S : getitem (Sample.column_of raw_type) "typeSignature"
              = Ok (JObj [("rawType", JStr raw_type); ("arguments", JArr [])]))
    by reflexivity.
  assert (R : getitem (JObj [("rawType", JStr raw_type); ("arguments", JArr [])])
                "rawType" = Ok (JStr raw_type)) by reflexivity.
  cbn [_map_to_python_type]. rewrite S. cbn [res_bind]. rewrite R.
  cbn [res_bind]. unfold convert_scalar.
  cbn [contains_str res_bind]. rewrite D.
  rewrite (json_is_str_false (JStr raw_type) "date") by congruence.
  rewrite (json_is_str_false (JStr raw_type) "timestamp with time zone")
    by congruence.
  rewrite T, Z. reflexivity.
Qed.

End Mapper.

(** C8, on the code.  A timestamp-with-time-zone cell without the
  space that separates the zone does not unpack: the conversion raises
  a [ValueError], and the mapper answers with the [NameError] of the
  unbound name [client], which carries neither the value nor the
  rawType. *)
Theorem conversion_failure_raises_name_error (P : Platform) :
  convert_scalar (JStr "2023-06-01T10:00:00Z") (JStr "timestamp with time zone")
  = Raise (ValueError "not enough values to unpack") /\
  _map_to_python_type (JStr "2023-06-01T10:00:00Z")
    (Sample.column_of "timestamp with time zone")
  = Raise (NameError "client").
Proof. split; reflexivity. Qed.

(** C9, on the code.  The cell of scenario S5 matches the pattern, yet
  the mapper raises the [NameError] of the unbound name [re] before
  any matching is done. *)
Theorem time_with_time_zone_raises_name_error (P : Platform) :
  match_time_tz "12:34:56.789000+02:00" = Some ("12:34:56.789000", false, 2, 0)%Z /\
  _map_to_python_type (JStr "12:34:56.789000+02:00")
    (Sample.column_of "time with time zone")
  = Raise (NameError "re").
Proof. split; reflexivity. Qed.

(** ** The transport and the retry wrapper *)

Lemma after_nil (h : heap) : after [] h = h.
Proof.
  destruct h as [r c q rs [p lg]]. unfold after, on_net. simpl.
  now rewrite app_nil_r.
Qed.

Lemma after_app (l1 l2 : list (http_request * outcome)) (h : heap) :
  after l2 (after l1 h) = after (l1 ++ l2) h.
Proof.
  destruct h as [r c q rs [p lg]]. unfold after, on_net. simpl.
  rewrite skipn_skipn, length_app, app_assoc, (Nat.add_comm (length l2)).
  reflexivity.
Qed.

Lemma http_send_eq (rq : http_request) (h : heap) :
  http_send rq h = (returned (next_outcome h), after [(rq, next_outcome h)] h).
Proof.
  destruct h as [r c q rs [p lg]].
  unfold http_send, after, on_net, next_outcome. simpl.
  destruct p; reflexivity.
Qed.

Lemma answers_S (k : nat) (p : list outcome) :
  answers (S k) p
  = match p with [] => Raises ConnectionError | o :: _ => o end
    :: answers k (tl p).
Proof. destruct p; reflexivity. Qed.

Lemma pending_after (l : list (http_request * outcome)) (h : heap) :
  pending (net (after l h)) = skipn (length l) (pending (net h)).
Proof. reflexivity. Qed.

Lemma log_after (l : list (http_request * outcome)) (h : heap) :
  log (net (after l h)) = log (net h) ++ l.
Proof. reflexivity. Qed.

Section Retry.
Variable exceptions : exn -> bool.
Variable conditions : http_response -> bool.
Variable rq : http_request.

Let again (o : outcome) : bool :=
  match o with
  | Raises e => exceptions e
  | Responds resp => conditions resp
  end.

(** What the retry loop sends and returns: the same request, answered
  by the script in order; every outcome but the last is one the loop
  retries, and the last is returned, retried only when the attempts
  are used up. *)
Lemma retry_with_spec (n : nat) :
  forall (last : res (option http_response)) (h h' : heap)
         (r : res (option http_response)),
  retry_with exceptions conditions n (http_send rq) last h = (r, h') ->
  exists l,
    h' = after l h /\ length l <= n /\
    Forall (fun x => fst x = rq) l /\
    map snd l = answers (length l) (pending (net h)) /\
    ((l = [] /\ r = last /\ n = 0) \/
     exists l0 o,
       l = l0 ++ [(rq, o)] /\
       Forall (fun x => again (snd x) = true) l0 /\
       r = wrapped o /\
       (again o = true -> length l = n)).
Proof.
  induction n as [|n IH]; intros last h h' r E.
  - simpl in E. injection E as <- <-.
    exists []. rewrite after_nil. repeat split; auto.
  - cbn [retry_with] in E. rewrite http_send_eq in E.
    set (o := next_outcome h) in *.
    set (h1 := after [(rq, o)] h) in *.
    assert (Step : forall l', h' = after l' h1 -> length l' <= n ->
              Forall (fun x => fst x = rq) l' ->
              map snd l' = answers (length l') (pending (net h1)) ->
              h' = after ((rq, o) :: l') h /\
              length ((rq, o) :: l') <= S n /\
              Forall (fun x => fst x = rq) ((rq, o) :: l') /\
              map snd ((rq, o) :: l')
                = answers (length ((rq, o) :: l')) (pending (net h))).
    { intros l' -> Ln F A. repeat split.
      - unfold h1. now rewrite after_app.
      - simpl. lia.
      - constructor; auto.
      - cbn [map snd length]. rewrite answers_S. f_equal.
        rewrite A. unfold h1. rewrite pending_after. simpl.
        destruct (pending (net h)); reflexivity. }
    destruct o as [e|resp] eqn:O; cbn [returned] in E.
    + destruct (exceptions e) eqn:X.
      * apply IH in E. destruct E as (l' & Hh & Ln & F & A & D).
        destruct (Step l' Hh Ln F A) as (S1 & S2 & S3 & S4).
        exists ((rq, Raises e) :: l'). repeat split; auto. right.
        destruct D as [(-> & -> & ->)|(l0 & o' & -> & F0 & -> & Full)].
        -- exists [], (Raises e). repeat split; auto.
        -- exists ((rq, Raises e) :: l0), o'. repeat split; auto.
           intro G. simpl. f_equal. now apply Full.
      * injection E as <- <-.
        exists [(rq, Raises e)]. repeat split; auto.
        -- simpl. lia.
        -- simpl. unfold o in O. unfold next_outcome in O.
           destruct (pending (net h)); now rewrite O.
        -- right. exists [], (Raises e). repeat split; auto.
           simpl. congruence.
    + destruct (conditions resp) eqn:X.
      * apply IH in E. destruct E as (l' & Hh & Ln & F & A & D).
        destruct (Step l' Hh Ln F A) as (S1 & S2 & S3 & S4).
        exists ((rq, Responds resp) :: l'). repeat split; auto. right.
        destruct D as [(-> & -> & ->)|(l0 & o' & -> & F0 & -> & Full)].
        -- exists [], (Responds resp). repeat split; auto.
        -- exists ((rq, Responds resp) :: l0), o'. repeat split; auto.
           intro G. simpl. f_equal. now apply Full.
      * injection E as <- <-.
        exists [(rq, Responds resp)]. repeat split; auto.
        -- simpl. lia.
        -- simpl. unfold o in O. unfold next_outcome in O.
           destruct (pending (net h)); now rewrite O.
        -- right. exists [], (Responds resp). repeat split; auto.
           simpl. congruence.
Qed.

End Retry.

(** A wired verb. *)
Lemma with_retry_spec (r0 : PrestoRequest) (rq : http_request)
  (h h' : heap) (r : res (option http_response)) :
  with_retry r0 (http_send rq) h = (r, h') ->
  exists l,
    h' = after l h /\
    (Z.of_nat (length l) <= Z.max 1 (_max_attempts r0))%Z /\
    Forall (fun x => fst x = rq) l /\
    map snd l = answers (length l) (pending (net h)) /\
    ((l = [] /\ r = Ok None /\ (_max_attempts r0 <= 0)%Z) \/
     exists l0 o,
       l = l0 ++ [(rq, o)] /\
       Forall (fun x => retried r0 (snd x) = true) l0 /\
       r = wrapped o /\
       (retried r0 o = true -> Z.of_nat (length l) = Z.max 1 (_max_attempts r0))).
Proof.
  unfold with_retry. destruct (_max_attempts r0 =? 1)%Z eqn:One.
  - apply Z.eqb_eq in One. unfold bind, ret. rewrite http_send_eq.
    intro E. exists [(rq, next_outcome h)].
    assert (h' = after [(rq, next_outcome h)] h /\ r = wrapped (next_outcome h))
      as (-> & ->).
    { destruct (next_outcome h); simpl in E; injection E as <- <-; auto. }
    repeat split; auto.
    + simpl. lia.
    + simpl. unfold next_outcome. destruct (pending (net h)); reflexivity.
    + right. exists [], (next_outcome h). repeat split; auto.
      intros _. simpl. lia.
  - apply Z.eqb_neq in One. intro E.
    apply retry_with_spec in E. destruct E as (l & Hh & Ln & F & A & D).
    exists l. repeat split; auto; [lia|].
    destruct D as [(-> & -> & N0)|(l0 & o & -> & F0 & -> & Full)].
    + left. repeat split; auto. lia.
    + right. exists l0, o.
      split; [reflexivity|]. split; [exact F0|]. split; [reflexivity|].
      intro G. assert (L : length (l0 ++ [(rq, o)]) = Z.to_nat (_max_attempts r0))
        by (destruct o; apply Full; exact G).
      rewrite L. rewrite length_app in L. simpl in L. lia.
Qed.

(** An answer that the wrapper does not retry, or a request without
  wrapper, is the only exchange of the call. *)
Lemma with_retry_once (r0 : PrestoRequest) (rq : http_request) (h : heap) :
  (1 <= _max_attempts r0)%Z ->
  retried r0 (next_outcome h) = false \/ _max_attempts r0 = 1%Z ->
  with_retry r0 (http_send rq) h
  = (wrapped (next_outcome h), after [(rq, next_outcome h)] h).
Proof.
  intros Pos Once.
  destruct (with_retry r0 (http_send rq) h) as [r h'] eqn:E.
  destruct (with_retry_spec _ _ _ _ _ E) as (l & -> & Ln & F & A & D).
  destruct D as [(-> & -> & N0)|(l0 & o & -> & F0 & -> & Full)]; [lia|].
  assert (l0 = []) as ->.
  { destruct l0 as [|x l0]; [reflexivity|exfalso].
    destruct Once as [Once|Once].
    - inversion F0 as [|? ? Rx _]; subst.
      cbn [app map length] in A. rewrite answers_S in A.
      injection A as A _. fold (next_outcome h) in A. congruence.
    - rewrite Once in Ln. simpl in Ln. rewrite length_app in Ln. simpl in Ln. lia. }
  cbn [app map length] in A. rewrite answers_S in A.
  injection A as A. fold (next_outcome h) in A. cbn [snd] in A. subst o.
  reflexivity.
Qed.

Lemma delete_eq (u : string) (h : heap) :
  delete u h = with_retry (request h) (http_send (delete_request u)) h.
Proof. reflexivity. Qed.

Lemma _get_eq (u : string) (hs : list (string * option string)) (h : heap) :
  _get u hs h = with_retry (request h) (http_send (get_request u hs)) h.
Proof. reflexivity. Qed.

Lemma _post_eq (u body : string) (hs : list (string * option string))
  (b : bool) (h : heap) :
  _post u body hs b h
  = with_retry (request h) (http_send (post_request u body hs b)) h.
Proof. reflexivity. Qed.

(** What [cancel] makes of the answer to its DELETE. *)
Lemma cancel_running (h : heap) (i : string) :
  query_id (query h) = Some i ->
  _finished (query h) = false ->
  cancel h =
    let flagged := on_query (with_cancelled true) h in
    let u := get_url (request h) ("/v1/query/" ++ i) in
    (match fst (delete u flagged) with
     | Ok (Some resp) =>
         if (status_code resp =? 204)%Z then Ok tt
         else Raise (raise_response_error resp)
     | Ok None => Raise (AttributeError "status_code")
     | Raise e => Raise e
     | Diverge => Diverge
     end, snd (delete u flagged)).
Proof.
  intros I F. unfold cancel, bind, gets, modify. rewrite I, F. cbn [fst snd].
  change (request (on_query (with_cancelled true) h)) with (request h).
  destruct (delete _ _) as [[[resp|]|e|] h1]; cbn [fst snd]; try reflexivity.
  destruct (status_code resp =? 204)%Z; reflexivity.
Qed.

(** ** C6 and C10: cancel *)

(** C6. [cancel] on a query without [query_id], or on a finished one,
  returns with the heap as it was: nothing is sent.  On a running query
  with a known id it makes one [delete] call on /v1/query/{query_id}:
  every request it sends is that DELETE, one of them when the answer
  is not one the retry wrapper sends again (a 503 or a transport
  failure), never more than [max_attempts].  A 204 answer returns
  silently, any other status raises what [raise_response_error]
  builds. *)
Theorem cancel_noop_or_one_delete (h : heap) :
  (query_id (query h) = None \/ _finished (query h) = true ->
   cancel h = (Ok tt, h)) /\
  (forall i,
     query_id (query h) = Some i -> _finished (query h) = false ->
     let flagged := on_query (with_cancelled true) h in
     let u := get_url (request h) ("/v1/query/" ++ i) in
     (exists l,
        snd (cancel h) = after l flagged /\
        Forall (fun x => fst x = delete_request u) l /\
        (Z.of_nat (length l) <= Z.max 1 (_max_attempts (request h)))%Z) /\
     ((1 <= _max_attempts (request h))%Z ->
      retried (request h) (next_outcome h) = false \/
        _max_attempts (request h) = 1%Z ->
      cancel h =
        (match next_outcome h with
         | Responds resp =>
             if (status_code resp =? 204)%Z then Ok tt
             else Raise (raise_response_error resp)
         | Raises e => Raise e
         end, after [(delete_request u, next_outcome h)] flagged)) /\
     (forall resp,
        fst (delete u flagged) = Ok (Some resp) ->
        fst (cancel h) =
          if (status_code resp =? 204)%Z then Ok tt
          else Raise (raise_response_error resp))).
Proof.
  split.
  - intros [N|F]; unfold cancel, bind, gets; rewrite ?N; [reflexivity|].
    destruct (query_id (query h)); [|reflexivity]. now rewrite F.
  - intros i I F flagged u.
    pose proof (cancel_running h i I F) as C. cbv zeta in C.
    fold flagged u in C.
    split; [|split].
    + rewrite C. cbn [snd].
      destruct (delete u flagged) as [r h1] eqn:D. rewrite delete_eq in D.
      destruct (with_retry_spec _ _ _ _ _ D) as (l & -> & Ln & Fl & _).
      exists l. repeat split; auto.
    + intros Pos Once. rewrite C. rewrite delete_eq.
      change (request flagged) with (request h).
      assert (N : next_outcome flagged = next_outcome h) by reflexivity.
      rewrite (with_retry_once (request h) (delete_request u) flagged Pos)
        by (now rewrite N).
      rewrite N. cbn [fst snd]. destruct (next_outcome h); reflexivity.
    + intros resp D. rewrite C. cbn [fst]. now rewrite D.
Qed.

(** Scenario S6 with a 500 answer: one DELETE, an [HttpError]. *)
Lemma cancel_noop_or_one_delete_witness :
  let h := Sample.running 3 [Responds (Sample.answer 500 [] None)] in
  cancel h =
    (Raise (HttpError 500 ""),
     after [(delete_request "http://coordinator:8080/v1/query/q1",
             Responds (Sample.answer 500 [] None))]
       (on_query (with_cancelled true) h)).
Proof.
  intro h.
  refine (proj1 (proj2 (proj2 (cancel_noop_or_one_delete h) "q1" _ _)) _ _).
  - reflexivity.
  - reflexivity.
  - simpl. lia.
  - left. reflexivity.
Defined.

(** C6 as stated fails where the DELETE is answered 503 and
  [max_attempts] is above one: the retry wrapper sends the DELETE
  again.  With the answers 503 and 204, [cancel] returns silently after
  two requests, not one. *)
Lemma cancel_resends_delete_after_503 :
  ~ (forall (h : heap) (i : string),
       query_id (query h) = Some i -> _finished (query h) = false ->
       exists x, log (net (snd (cancel h))) = log (net h) ++ [x]).
Proof.
  intro C.
  destruct (C (Sample.running 3 [Responds (Sample.answer 503 [] None);
                                 Responds (Sample.answer 204 [] None)])
              "q1" eq_refl eq_refl) as (x & X).
  vm_compute in X. discriminate X.
Qed.

(** C10. On a running query with a known id the DELETE leaves from a
  heap whose [_cancelled] flag is already set, and nothing the call
  does afterwards resets it: whatever the outcome of the DELETE (a
  transport failure, a status other than 204), the query is cancelled
  when [cancel] is over, and [execute] on a query in that state raises
  the [PrestoUserError] "Query has been cancelled" and sends
  nothing. *)
Theorem cancel_sets_cancelled_first (P : Platform) (h : heap) (i : string) :
  query_id (query h) = Some i ->
  _finished (query h) = false ->
  let flagged := on_query (with_cancelled true) h in
  let u := get_url (request h) ("/v1/query/" ++ i) in
  snd (cancel h) = snd (delete u flagged) /\
  query (snd (cancel h)) = with_cancelled true (query h) /\
  (forall h', query h' = query (snd (cancel h)) ->
     execute h' =
       (Raise (PrestoUserError (JStr "Query has been cancelled") (Some i)), h')).
Proof.
  intros I F flagged u.
  pose proof (cancel_running h i I F) as C. cbv zeta in C. fold flagged u in C.
  assert (Q : query (snd (cancel h)) = with_cancelled true (query h)).
  { rewrite C. cbn [snd].
    destruct (delete u flagged) as [r h1] eqn:D. rewrite delete_eq in D.
    destruct (with_retry_spec _ _ _ _ _ D) as (l & -> & _). reflexivity. }
  split; [now rewrite C|]. split; [exact Q|].
  intros h' E. rewrite Q in E.
  unfold execute, bind, gets. rewrite E. cbn. now rewrite I.
Qed.

(** The DELETE fails with a transport error: the query stays
  cancelled and cannot be executed. *)
Lemma cancel_sets_cancelled_first_witness :
  let h := Sample.running 1 [Raises Timeout] in
  fst (cancel h) = Raise Timeout /\
  _cancelled (query (snd (cancel h))) = true /\
  @execute Sample.platform (snd (cancel h)) =
    (Raise (PrestoUserError (JStr "Query has been cancelled") (Some "q1")),
     snd (cancel h)).
Proof.
  intro h.
  pose proof (cancel_sets_cancelled_first Sample.platform h "q1" eq_refl eq_refl)
    as (_ & Q & X).
  split; [reflexivity|]. split; [now rewrite Q|].
  apply X. reflexivity.
Defined.

(** ** What [get] and [process] leave alone *)

Ltac break_match :=
  match goal with
  | |- context [match ?x with _ => _ end] => destruct x eqn:?
  | H : context [match ?x with _ => _ end] |- _ => destruct x eqn:?
  end.

Lemma check_custom_headers_total (hs : list (string * option string))
  (keys : list string) :
  check_custom_headers hs keys <> Diverge.
Proof.
  induction keys as [|k keys IH]; simpl; [discriminate|].
  destruct (dict_mem hs k); [discriminate|exact IH].
Qed.

Lemma http_headers_total (r : PrestoRequest) : http_headers r <> Diverge.
Proof.
  rewrite http_headers_unfold. cbv zeta.
  pose proof (check_custom_headers_total (headers_before_merge r)
                (dict_keys (_headers (_client_session r)))) as T.
  destruct (check_custom_headers _ _); cbn [res_bind]; congruence.
Qed.

Ltac inject_pairs :=
  repeat match goal with
         | H : (_, _) = (_, _) |- _ => inversion H; subst; clear H
         end.

Lemma get_spec (u : string) (h h1 : heap) (r : res (option http_response)) :
  get u h = (r, h1) ->
  (exists e, http_headers (request h) = Raise e /\ r = Raise e /\ h1 = h) \/
  (exists hs l,
     http_headers (request h) = Ok hs /\
     h1 = after l h /\
     (Z.of_nat (length l) <= Z.max 1 (_max_attempts (request h)))%Z /\
     Forall (fun x => fst x = get_request u hs) l /\
     map snd l = answers (length l) (pending (net h)) /\
     ((l = [] /\ r = Ok None /\ (_max_attempts (request h) <= 0)%Z) \/
      exists l0 o,
        l = l0 ++ [(get_request u hs, o)] /\
        Forall (fun x => retried (request h) (snd x) = true) l0 /\
        r = wrapped o /\
        (retried (request h) o = true ->
         Z.of_nat (length l) = Z.max 1 (_max_attempts (request h))))).
Proof.
  unfold get, bind, gets, lift.
  destruct (http_headers (request h)) as [hs|e|] eqn:H.
  - rewrite _get_eq. intro E. right.
    destruct (with_retry_spec _ _ _ _ _ E) as (l & Hh & Ln & F & A & D).
    exists hs, l. auto 10.
  - intro E. cbn in E. injection E as <- <-. left. exists e. auto.
  - exfalso. now apply http_headers_total in H.
Qed.

Lemma get_frame (u : string) (h h1 : heap) (r : res (option http_response)) :
  get u h = (r, h1) ->
  request h1 = request h /\ credentials h1 = credentials h /\
  query h1 = query h /\ result h1 = result h.
Proof.
  intro E. apply get_spec in E.
  destruct E as [(e & _ & _ & ->)|(hs & l & _ & -> & _)]; auto.
Qed.

(** [process] only writes to the request object. *)
Lemma process_frame (a : option http_response) (h h1 : heap)
  (r : res PrestoStatus) :
  process a h = (r, h1) ->
  credentials h1 = credentials h /\ query h1 = query h /\
  result h1 = result h /\ net h1 = net h /\
  _redirect_handler (request h1) = _redirect_handler (request h) /\
  _max_attempts (request h1) = _max_attempts (request h).
Proof.
  unfold process, raise_result, set_properties, bind, ret, raise, lift,
    modify, gets, diverge.
  intro E.
  repeat break_match; inject_pairs; try discriminate; auto 10.
Qed.

(** A status comes from an accepted response and copies its body. *)
Lemma process_ok (a : option http_response) (h h1 : heap)
  (status : PrestoStatus) :
  process a h = (Ok status, h1) ->
  exists r response,
    a = Some r /\ ok r = true /\ json_body r = Some response /\
    j_error response = None /\
    columns status = field_get (j_columns response) /\
    rows status = field_get_default (j_data response) [] /\
    next_uri status = field_get (j_nextUri response) /\
    _next_uri (request h1) = next_uri status.
Proof.
  unfold process, raise_result, set_properties, bind, ret, raise, lift,
    modify, gets, diverge.
  intro E.
  destruct a as [r|]; [|discriminate].
  destruct (ok r) eqn:K; [|discriminate]. cbn [negb] in E.
  destruct (json_body r) as [response|] eqn:B; [|discriminate].
  destruct (j_error response) eqn:Er.
  { destruct (_process_error _ _); discriminate. }
  exists r, response.
  repeat break_match; inject_pairs; try discriminate; cbn; auto 10.
Qed.

(** ** C5: sticky columns *)

(** The query after a [fetch] whose poll was answered and accepted. *)
Lemma fetch_columns_after (h h1 h2 : heap) (uri : string)
  (a : option http_response) (status : PrestoStatus) :
  _next_uri (request h) = Some uri ->
  get uri h = (Ok a, h1) ->
  process a h1 = (Ok status, h2) ->
  _columns (query (snd (fetch h)))
  = match columns status with
    | Some (c :: cs) => Some (c :: cs)
    | _ => _columns (query h)
    end.
Proof.
  intros U G Pr.
  destruct (get_frame _ _ _ _ G) as (_ & _ & Q1 & _).
  destruct (process_frame _ _ _ _ Pr) as (_ & Q2 & _).
  unfold fetch, bind, gets. rewrite U, G, Pr.
  unfold update_stats, modify, raise, ret.
  destruct (columns status) as [[|c cs]|];
    destruct (stats status); destruct (next_uri status);
    cbn; congruence.
Qed.

(** C5. Whatever columns the query holds, a fetch whose response has
  no [columns] key, a null one or an empty list leaves them as they
  are, and a fetch whose response has a non-empty list stores that
  list.  No fetch at all, answered or failed, clears columns the query
  holds. *)
Theorem fetch_keeps_columns (h : heap) :
  (forall h1 h2 uri r response status,
     _next_uri (request h) = Some uri ->
     get uri h = (Ok (Some r), h1) ->
     json_body r = Some response ->
     process (Some r) h1 = (Ok status, h2) ->
     (j_columns response = Absent \/ j_columns response = Null \/
      j_columns response = Val [] ->
      _columns (query (snd (fetch h))) = _columns (query h)) /\
     (forall c cs,
        j_columns response = Val (c :: cs) ->
        _columns (query (snd (fetch h))) = Some (c :: cs))) /\
  (_columns (query (snd (fetch h))) = _columns (query h) \/
   exists c cs, _columns (query (snd (fetch h))) = Some (c :: cs)).
Proof.
  split.
  - intros h1 h2 uri r response status U G B Pr.
    rewrite (fetch_columns_after h h1 h2 uri (Some r) status U G Pr).
    destruct (process_ok _ _ _ _ Pr)
      as (r' & response' & Er & _ & B' & _ & C & _).
    injection Er as <-. rewrite B in B'. injection B' as <-.
    rewrite C. split.
    + intros [E|[E|E]]; rewrite E; reflexivity.
    + intros c cs E. rewrite E. reflexivity.
  - destruct (_next_uri (request h)) as [uri|] eqn:U.
    + destruct (get uri h) as [[a| |] h1] eqn:G.
      * destruct (process a h1) as [[status| |] h2] eqn:Pr.
        -- rewrite (fetch_columns_after h h1 h2 uri a status U G Pr).
           destruct (columns status) as [[|c cs]|]; eauto.
        -- left. destruct (get_frame _ _ _ _ G) as (_ & _ & Q1 & _).
           destruct (process_frame _ _ _ _ Pr) as (_ & Q2 & _).
           unfold fetch, bind, gets. rewrite U, G, Pr. cbn. congruence.
        -- left. destruct (get_frame _ _ _ _ G) as (_ & _ & Q1 & _).
           destruct (process_frame _ _ _ _ Pr) as (_ & Q2 & _).
           unfold fetch, bind, gets. rewrite U, G, Pr. cbn. congruence.
      * left. destruct (get_frame _ _ _ _ G) as (_ & _ & Q1 & _).
        unfold fetch, bind, gets. rewrite U, G. cbn. congruence.
      * left. destruct (get_frame _ _ _ _ G) as (_ & _ & Q1 & _).
        unfold fetch, bind, gets. rewrite U, G. cbn. congruence.
    + left. unfold fetch, bind, gets. rewrite U. reflexivity.
Qed.

(** Scenario S1, last poll: the columns of the poll before stay. *)
Lemma fetch_keeps_columns_witness :
  let h := Sample.latched [Responds Sample.last_page] in
  _columns (query (snd (fetch h))) = Some [Sample.column_x].
Proof.
  intro h.
  refine (proj1 (proj1 (fetch_keeps_columns h)
                   (snd (get "/v1/statement/q1/1" h))
                   (snd (process (Some Sample.last_page)
                           (snd (get "/v1/statement/q1/1" h))))
                   "/v1/statement/q1/1" Sample.last_page
                   (Sample.page Absent Absent (Val [[JNum 3]]))
                   {| id := Some "q1";
                      stats := Some [("state", JStr "RUNNING")];
                      warnings := Some [];
                      info_uri := Some "/ui/q1";
                      next_uri := None;
                      rows := Some [[JNum 3]];
                      columns := None |}
                   _ _ _ _) _).
  - reflexivity.
  - vm_compute. reflexivity.
  - reflexivity.
  - vm_compute. reflexivity.
  - left. reflexivity.
Defined.

(** ** C4: the attempts of a verb *)

Lemma retry_with_succeeds (exceptions : exn -> bool) (rq : http_request)
  (r : http_response) (rest : list outcome) (busy : list http_response) :
  forall (n : nat) (last : res (option http_response)) (h : heap),
  length busy < n ->
  Forall (fun b => status_code b = 503%Z) busy ->
  status_code r <> 503%Z ->
  pending (net h) = map Responds busy ++ Responds r :: rest ->
  retry_with exceptions (fun response => (status_code response =? 503)%Z) n
    (http_send rq) last h
  = (Ok (Some r),
     after (map (fun b => (rq, Responds b)) busy ++ [(rq, Responds r)]) h).
Proof.
  induction busy as [|b busy IH]; intros n last h Ln B R Pe;
    (destruct n as [|n]; [simpl in Ln; lia|]);
    cbn [retry_with]; rewrite http_send_eq; unfold next_outcome; rewrite Pe;
    cbn [map app returned].
  - apply Z.eqb_neq in R. rewrite R. reflexivity.
  - inversion B as [|? ? Sb B']; subst. rewrite Sb. cbn [Z.eqb Pos.eqb].
    rewrite (IH n _ (after [(rq, Responds b)] h)); auto.
    + now rewrite after_app.
    + simpl in Ln. lia.
    + rewrite pending_after, Pe. reflexivity.
Qed.

Lemma with_retry_succeeds (r0 : PrestoRequest) (rq : http_request)
  (r : http_response) (rest : list outcome) (busy : list http_response)
  (h : heap) :
  _max_attempts r0 = Z.of_nat (S (length busy)) ->
  Forall (fun b => status_code b = 503%Z) busy ->
  status_code r <> 503%Z ->
  pending (net h) = map Responds busy ++ Responds r :: rest ->
  with_retry r0 (http_send rq) h
  = (Ok (Some r),
     after (map (fun b => (rq, Responds b)) busy ++ [(rq, Responds r)]) h).
Proof.
  intros Mx B R Pe. unfold with_retry.
  destruct (_max_attempts r0 =? 1)%Z eqn:One.
  - apply Z.eqb_eq in One. assert (busy = []) as ->.
    { destruct busy; [reflexivity|]. rewrite Mx in One. simpl length in One. lia. }
    unfold bind, ret. rewrite http_send_eq. unfold next_outcome. rewrite Pe.
    reflexivity.
  - apply retry_with_succeeds with (rest := rest); auto.
    rewrite Mx, Nat2Z.id. lia.
Qed.

(** [post] returns what its first wired call returns unless that is a
  redirect to follow. *)
Lemma post_without_redirect (sql : string) (h h1 : heap)
  (hs : list (string * option string)) (r : http_response) :
  http_headers (request h) = Ok hs ->
  _post (statement_url (request h)) sql hs
    (match _redirect_handler (request h) with None => true | Some _ => false end)
    h = (Ok (Some r), h1) ->
  is_redirect r = false ->
  post sql h = (Ok (Some r), h1).
Proof.
  intros H Po NR. unfold post, bind, gets, lift. rewrite H, Po.
  destruct (_redirect_handler (request h)); [|reflexivity].
  unfold steps. cbn [follow_redirects]. rewrite NR. reflexivity.
Qed.

Lemma not_redirect_status (r : http_response) :
  (status_code r = 200 \/ 400 <= status_code r)%Z -> is_redirect r = false.
Proof.
  intro S. unfold is_redirect. apply andb_false_intro2. cbn [existsb].
  repeat match goal with
         | |- context [(status_code r =? ?k)%Z] =>
             destruct (Z.eqb_spec (status_code r) k); [lia|]
         end.
  reflexivity.
Qed.

(** C4.  With [max_attempts = N] and a coordinator that answers 503 to
  the first N-1 attempts and 200 to the next, one [get] call and one
  [post] call return that 200 response after exactly N requests.  A
  call of [get] or [delete], and each wired [_post], never sends more
  than [max_attempts] requests.  A 4xx or 5xx answer other than 503 is
  returned to the caller after one request. *)
Theorem retries_on_503_only (h : heap) :
  (forall busy r rest hs u sql,
     _max_attempts (request h) = Z.of_nat (S (length busy)) ->
     Forall (fun b => status_code b = 503%Z) busy ->
     status_code r = 200%Z ->
     pending (net h) = map Responds busy ++ Responds r :: rest ->
     http_headers (request h) = Ok hs ->
     let attempts rq := map (fun b => (rq, Responds b)) busy ++ [(rq, Responds r)] in
     let rp := post_request (statement_url (request h)) sql hs
                 (match _redirect_handler (request h) with
                  | None => true | Some _ => false end) in
     get u h = (Ok (Some r), after (attempts (get_request u hs)) h) /\
     post sql h = (Ok (Some r), after (attempts rp) h) /\
     length (attempts rp) = S (length busy)) /\
  ((1 <= _max_attempts (request h))%Z ->
   forall u,
     (exists l, snd (get u h) = after l h /\
        (Z.of_nat (length l) <= _max_attempts (request h))%Z) /\
     (exists l, snd (delete u h) = after l h /\
        (Z.of_nat (length l) <= _max_attempts (request h))%Z) /\
     (forall body hs b, exists l, snd (_post u body hs b h) = after l h /\
        (Z.of_nat (length l) <= _max_attempts (request h))%Z)) /\
  (forall r rest hs u sql,
     (1 <= _max_attempts (request h))%Z ->
     (400 <= status_code r < 600)%Z -> status_code r <> 503%Z ->
     pending (net h) = Responds r :: rest ->
     http_headers (request h) = Ok hs ->
     get u h = (Ok (Some r), after [(get_request u hs, Responds r)] h) /\
     post sql h
     = (Ok (Some r),
        after [(post_request (statement_url (request h)) sql hs
                  (match _redirect_handler (request h) with
                   | None => true | Some _ => false end), Responds r)] h)).
Proof.
  split; [|split].
  - intros busy r rest hs u sql Mx B R Pe H attempts rp.
    assert (R' : status_code r <> 503%Z) by lia.
    split; [|split].
    + unfold get, bind, gets, lift. rewrite H, _get_eq.
      now apply with_retry_succeeds with (rest := rest).
    + apply (post_without_redirect sql h _ hs r H).
      * rewrite _post_eq. now apply with_retry_succeeds with (rest := rest).
      * apply not_redirect_status. now left.
    + unfold attempts. rewrite length_app, length_map. simpl. lia.
  - intros Pos u. split; [|split].
    + destruct (get u h) as [r h1] eqn:G. cbn [snd].
      destruct (get_spec _ _ _ _ G) as [(e & _ & _ & ->)|(hs & l & _ & -> & Ln & _)].
      * exists []. rewrite after_nil. split; [reflexivity|simpl; lia].
      * exists l. split; [reflexivity|lia].
    + destruct (delete u h) as [r h1] eqn:D. cbn [snd]. rewrite delete_eq in D.
      destruct (with_retry_spec _ _ _ _ _ D) as (l & -> & Ln & _).
      exists l. split; [reflexivity|lia].
    + intros body hs b.
      destruct (_post u body hs b h) as [r h1] eqn:D. cbn [snd].
      rewrite _post_eq in D.
      destruct (with_retry_spec _ _ _ _ _ D) as (l & -> & Ln & _).
      exists l. split; [reflexivity|lia].
  - intros r rest hs u sql Pos S4 S5 Pe H.
    assert (N : next_outcome h = Responds r)
      by (unfold next_outcome; now rewrite Pe).
    assert (Rt : retried (request h) (next_outcome h) = false).
    { rewrite N. simpl. now apply Z.eqb_neq. }
    split.
    + unfold get, bind, gets, lift. rewrite H, _get_eq.
      rewrite with_retry_once by auto. now rewrite N.
    + apply (post_without_redirect sql h _ hs r H).
      * rewrite _post_eq. rewrite with_retry_once by auto. now rewrite N.
      * apply not_redirect_status. right. lia.
Qed.

(** Scenario S2: two 503 answers, then the answer to the POST; three
  attempts are configured and three requests are sent. *)
Lemma retries_on_503_only_witness :
  let busy := [Sample.answer 503 [] None; Sample.answer 503 [] None] in
  let r := Sample.answer 200 []
             (Some (Sample.page (Val "/v1/statement/q1/1") Null Null)) in
  let h := Sample.client 3 (map Responds busy ++ [Responds r]) in
  exists l,
    post "SELECT x FROM t" h = (Ok (Some r), after l h) /\ length l = 3.
Proof.
  intros busy r h.
  destruct (proj1 (retries_on_503_only h) busy r []
              [("X-Presto-Catalog", Some "hive");
               ("X-Presto-Schema", Some "default");
               ("X-Presto-Source", Some "presto-python-client");
               ("X-Presto-User", Some "test");
               ("X-Presto-Session", Some "");
               ("X-Presto-Transaction-Id", Some "NONE")]
              "/unused" "SELECT x FROM t")
    as (_ & Po & Ln).
  - reflexivity.
  - repeat constructor.
  - reflexivity.
  - reflexivity.
  - reflexivity.
  - eexists. split; [exact Po|exact Ln].
Defined.

(** ** Percent-encoding and header text *)

Lemma safe_plain (c : ascii) :
  Urllib.safe c = true ->
  plain c = true /\ Ascii.eqb c Urllib.percent = false.
Proof.
  destruct c as [[] [] [] [] [] [] [] []]; vm_compute;
    intuition discriminate.
Qed.

Lemma hex_digits_decode (c : ascii) :
  let n := nat_of_ascii c in
  Urllib.hex_value (Urllib.hex_digit (n / 16)) = Some (n / 16) /\
  Urllib.hex_value (Urllib.hex_digit (n mod 16)) = Some (n mod 16) /\
  ascii_of_nat (16 * (n / 16) + n mod 16) = c /\
  plain (Urllib.hex_digit (n / 16)) = true /\
  plain (Urllib.hex_digit (n mod 16)) = true.
Proof.
  destruct c as [[] [] [] [] [] [] [] []]; vm_compute; repeat split.
Qed.

Lemma quote_cons (c : ascii) (r : string) :
  Urllib.quote (String c r)
  = if Urllib.safe c then String c (Urllib.quote r)
    else String Urllib.percent
           (String (Urllib.hex_digit (nat_of_ascii c / 16))
              (String (Urllib.hex_digit (nat_of_ascii c mod 16))
                 (Urllib.quote r))).
Proof. reflexivity. Qed.

Lemma unquote_escape (a b : ascii) (r : string) :
  Urllib.unquote_to_bytes (String Urllib.percent (String a (String b r)))
  = match Urllib.hex_value a, Urllib.hex_value b with
    | Some h, Some l =>
        String (ascii_of_nat (16 * h + l)) (Urllib.unquote_to_bytes r)
    | _, _ =>
        String Urllib.percent (Urllib.unquote_to_bytes (String a (String b r)))
    end.
Proof. reflexivity. Qed.

Lemma unquote_literal (c : ascii) (r : string) :
  Ascii.eqb c Urllib.percent = false ->
  Urllib.unquote_to_bytes (String c r) = String c (Urllib.unquote_to_bytes r).
Proof. intro E. cbn [Urllib.unquote_to_bytes]. now rewrite E. Qed.

(** Unquoting to bytes what [quote] wrote gives the bytes back. *)
Lemma unquote_to_bytes_quote (s : string) :
  Urllib.unquote_to_bytes (Urllib.quote s) = s.
Proof.
  induction s as [|c s IH]; [reflexivity|].
  rewrite quote_cons. destruct (Urllib.safe c) eqn:S.
  - destruct (safe_plain c S) as (_ & NP).
    rewrite unquote_literal by exact NP. now rewrite IH.
  - destruct (hex_digits_decode c) as (H1 & H2 & H3 & _).
    rewrite unquote_escape, H1, H2, H3, IH. reflexivity.
Qed.

(** [quote] writes ASCII, with no white space, no comma and no equals
  sign. *)
Lemma quote_plain (s : string) : Py.all plain (Urllib.quote s) = true.
Proof.
  induction s as [|c s IH]; [reflexivity|].
  rewrite quote_cons. destruct (Urllib.safe c) eqn:S.
  - destruct (safe_plain c S) as (Pc & _). cbn [Py.all]. now rewrite Pc, IH.
  - destruct (hex_digits_decode c) as (_ & _ & _ & P1 & P2).
    cbn [Py.all]. now rewrite P1, P2, IH.
Qed.

Lemma all_append (p : ascii -> bool) (a b : string) :
  Py.all p (a ++ b) = Py.all p a && Py.all p b.
Proof.
  induction a as [|c a IH]; [reflexivity|].
  cbn [append Py.all]. rewrite IH. now rewrite andb_assoc.
Qed.

Lemma all_weaken (p q : ascii -> bool) (s : string) :
  (forall c, p c = true -> q c = true) ->
  Py.all p s = true -> Py.all q s = true.
Proof.
  intro W. induction s as [|c s IH]; [reflexivity|].
  cbn [Py.all]. intro A. apply andb_prop in A as (Pc & A).
  now rewrite (W c Pc), IH.
Qed.

Lemma append_empty (s : string) : (s ++ "")%string = s.
Proof. induction s as [|c s IH]; [reflexivity|]. cbn. now rewrite IH. Qed.

Lemma append_assoc (a b c : string) :
  ((a ++ b) ++ c)%string = (a ++ b ++ c)%string.
Proof. induction a as [|x a IH]; [reflexivity|]. cbn. now rewrite IH. Qed.

Lemma string_of_list_app (l1 l2 : list ascii) :
  string_of_list_ascii (l1 ++ l2)
  = (string_of_list_ascii l1 ++ string_of_list_ascii l2)%string.
Proof. induction l1 as [|x l1 IH]; [reflexivity|]. cbn. now rewrite IH. Qed.

(** On a text of ASCII characters [unquote] has one run to decode. *)
Lemma unquote_runs_ascii (s : string) :
  forall run : list ascii,
  Py.all Py.is_ascii s = true ->
  Urllib.unquote_runs run s
  = Urllib.decode_replace
      (Urllib.unquote_to_bytes (string_of_list_ascii (rev run) ++ s)).
Proof.
  induction s as [|c s IH]; intros run A.
  - cbn [Urllib.unquote_runs]. unfold Urllib.unquote_run.
    now rewrite append_empty.
  - cbn [Py.all] in A. apply andb_prop in A as (Ac & A).
    cbn [Urllib.unquote_runs]. rewrite Ac, (IH _ A).
    cbn [rev]. rewrite string_of_list_app, append_assoc. reflexivity.
Qed.

Lemma plain_ascii (c : ascii) : plain c = true -> Py.is_ascii c = true.
Proof. unfold plain. intro E. now apply andb_prop in E as (E & _). Qed.

(** Decoding what [quote] wrote of a text gives the text back. *)
Lemma unquote_quote (s : string) :
  Urllib.well_formed s = true -> Urllib.unquote (Urllib.quote s) = s.
Proof.
  intro W. unfold Urllib.unquote.
  rewrite unquote_runs_ascii
    by exact (all_weaken _ _ _ plain_ascii (quote_plain s)).
  cbn [rev string_of_list_ascii append].
  rewrite unquote_to_bytes_quote. now apply String.eqb_eq.
Qed.

(** An ASCII character that is no white space belongs to no white
  space character, be it of one, two or three bytes. *)
Lemma solid_first (a : ascii) :
  solid a = true ->
  Py.is_space a = false /\
  (forall b, Py.is_space2 a b = false) /\
  (forall b c, Py.is_space3 a b c = false).
Proof.
  unfold solid, Py.is_ascii. intro E. apply andb_prop in E as (A & S).
  apply negb_true_iff in S. apply Nat.ltb_lt in A.
  split; [exact S|]. split.
  - intro b. unfold Py.is_space2.
    now rewrite (proj2 (Nat.eqb_neq (nat_of_ascii a) 194)) by lia.
  - intros b c. unfold Py.is_space3. cbv zeta.
    rewrite (proj2 (Nat.eqb_neq (nat_of_ascii a) 225)) by lia.
    rewrite (proj2 (Nat.eqb_neq (nat_of_ascii a) 226)) by lia.
    rewrite (proj2 (Nat.eqb_neq (nat_of_ascii a) 227)) by lia.
    reflexivity.
Qed.

Lemma solid_last (a : ascii) :
  solid a = true ->
  Py.is_space a = false /\
  (forall b, Py.is_space2 b a = false) /\
  (forall b c, Py.is_space3 c b a = false).
Proof.
  unfold solid, Py.is_ascii. intro E. apply andb_prop in E as (A & S).
  apply negb_true_iff in S. apply Nat.ltb_lt in A.
  split; [exact S|]. split.
  - intro b. unfold Py.is_space2.
    rewrite (proj2 (Nat.eqb_neq (nat_of_ascii a) 133)) by lia.
    rewrite (proj2 (Nat.eqb_neq (nat_of_ascii a) 160)) by lia.
    apply andb_false_r.
  - intros b c. unfold Py.is_space3. cbv zeta.
    rewrite (proj2 (Nat.eqb_neq (nat_of_ascii a) 128)) by lia.
    rewrite (proj2 (Nat.eqb_neq (nat_of_ascii a) 168)) by lia.
    rewrite (proj2 (Nat.eqb_neq (nat_of_ascii a) 169)) by lia.
    rewrite (proj2 (Nat.eqb_neq (nat_of_ascii a) 175)) by lia.
    rewrite (proj2 (Nat.eqb_neq (nat_of_ascii a) 159)) by lia.
    rewrite (proj2 (Nat.leb_gt 128 (nat_of_ascii a))) by lia.
    cbn [andb orb]. rewrite !andb_false_r. reflexivity.
Qed.

Lemma all_last (p : ascii -> bool) (s : string) :
  Py.all p s = true ->
  match rev (list_ascii_of_string s) with
  | a :: _ => p a = true
  | [] => True
  end.
Proof.
  intro A.
  assert (F : Forall (fun c => p c = true) (rev (list_ascii_of_string s))).
  { apply Forall_rev. induction s as [|c s IH]; [constructor|].
    cbn [Py.all] in A. apply andb_prop in A as (Pc & A).
    cbn [list_ascii_of_string]. constructor; auto. }
  destruct (rev (list_ascii_of_string s)); [exact I|].
  now inversion F.
Qed.

Lemma rstrip_no_space (s : string) :
  Py.all solid s = true -> Py.rstrip s = s.
Proof.
  intro A. unfold Py.rstrip.
  assert (R : Py.rstrip_rev (rev (list_ascii_of_string s))
              = rev (list_ascii_of_string s)).
  { pose proof (all_last solid s A) as L.
    destruct (rev (list_ascii_of_string s)) as [|a [|b [|c r]]];
      [reflexivity|..];
      destruct (solid_last a L) as (S1 & S2 & S3);
      cbn [Py.rstrip_rev]; rewrite S1, ?S2, ?S3; reflexivity. }
  rewrite R, rev_involutive. apply string_of_list_ascii_of_string.
Qed.

Lemma lstrip_no_space (s : string) :
  Py.all solid s = true -> Py.lstrip s = s.
Proof.
  destruct s as [|a r]; [reflexivity|]. cbn [Py.all]. intro A.
  apply andb_prop in A as (Sa & _).
  destruct (solid_first a Sa) as (S1 & S2 & S3).
  destruct r as [|b [|c r]]; cbn [Py.lstrip]; rewrite S1, ?S2, ?S3;
    reflexivity.
Qed.

Lemma strip_no_space (s : string) :
  Py.all solid s = true -> Py.strip s = s.
Proof.
  intro A. unfold Py.strip. rewrite (lstrip_no_space s A).
  now apply rstrip_no_space.
Qed.

Lemma split_no_separator (sep : ascii) (s : string) :
  Py.all (fun c => negb (Ascii.eqb c sep)) s = true -> Py.split sep s = [s].
Proof.
  induction s as [|c s IH]; [reflexivity|].
  cbn [Py.all Py.split]. intro A. apply andb_prop in A as (Pc & A).
  apply negb_true_iff in Pc. now rewrite Pc, (IH A).
Qed.

Lemma partition_first (sep : ascii) (k q : string) :
  Py.all (fun c => negb (Ascii.eqb c sep)) k = true ->
  Py.partition sep (k ++ String sep q) = Some (k, q).
Proof.
  induction k as [|c k IH]; cbn [append Py.partition Py.all].
  - intros _. now rewrite Ascii.eqb_refl.
  - intro A. apply andb_prop in A as (Pc & A).
    apply negb_true_iff in Pc. now rewrite Pc, (IH A).
Qed.

Lemma plain_no_space (c : ascii) : plain c = true -> solid c = true.
Proof.
  unfold plain, solid. intro E. apply andb_prop in E as (A & E).
  rewrite A. apply negb_true_iff in E.
  apply orb_false_elim in E as (E & _). apply orb_false_elim in E as (E & _).
  now rewrite E.
Qed.

Lemma plain_no_comma (c : ascii) :
  plain c = true -> negb (Ascii.eqb c ","%char) = true.
Proof.
  unfold plain. intro E. apply andb_prop in E as (_ & E).
  apply negb_true_iff in E.
  apply orb_false_elim in E as (E & _). apply orb_false_elim in E as (_ & E).
  now rewrite E.
Qed.

Lemma plain_no_equals (c : ascii) :
  plain c = true -> negb (Ascii.eqb c "="%char) = true.
Proof.
  unfold plain. intro E. apply andb_prop in E as (_ & E).
  apply negb_true_iff in E.
  apply orb_false_elim in E as (_ & E). now rewrite E.
Qed.

(** A Set-Session header with the one entry [k=quote(s)] is read back
  as the pair [(k, s)]. *)
Lemma session_entry_read_back (hs : list (string * string)) (k s : string) :
  plain_name k = true ->
  Urllib.well_formed s = true ->
  header_get hs constants.HEADER_SET_SESSION
    = Some (k ++ "=" ++ Urllib.quote s)%string ->
  get_session_property_values hs constants.HEADER_SET_SESSION = Ok [(k, s)].
Proof.
  intros Pk W H. unfold get_session_property_values, get_header_values.
  rewrite H. cbn [res_bind].
  pose proof (quote_plain s) as Pq.
  pose proof (unquote_quote s W) as U.
  set (q := Urllib.quote s) in *.
  assert (Sp : Py.all solid (k ++ "=" ++ q) = true).
  { rewrite !all_append.
    rewrite (all_weaken _ _ k plain_no_space Pk).
    now rewrite (all_weaken _ _ q plain_no_space Pq). }
  assert (Cm : Py.all (fun c => negb (Ascii.eqb c ","%char)) (k ++ "=" ++ q) = true).
  { rewrite !all_append.
    rewrite (all_weaken _ _ k plain_no_comma Pk).
    now rewrite (all_weaken _ _ q plain_no_comma Pq). }
  rewrite (split_no_separator _ _ Cm). cbn [map].
  rewrite (strip_no_space _ Sp). cbn [session_pairs]. unfold Py.split1.
  change (k ++ "=" ++ q)%string with (k ++ String "="%char q)%string.
  rewrite (partition_first "="%char k q)
    by exact (all_weaken _ _ k plain_no_equals Pk).
  cbn [res_bind].
  rewrite (strip_no_space k (all_weaken _ _ k plain_no_space Pk)).
  rewrite (strip_no_space q (all_weaken _ _ q plain_no_space Pq)).
  now rewrite U.
Qed.

(** ** Dictionaries *)

Lemma dict_get_app {V : Type} (a b : list (string * V)) (k : string) :
  dict_get (a ++ b) k
  = match dict_get a k with Some v => Some v | None => dict_get b k end.
Proof.
  induction a as [|[k' v'] a IH]; [reflexivity|].
  cbn [app dict_get]. destruct (String.eqb k' k); [reflexivity|exact IH].
Qed.

Lemma dict_get_fold_set {V : Type} (kvs d : list (string * V)) (k : string) :
  dict_get (fold_left (fun d kv => dict_set d (fst kv) (snd kv)) kvs d) k
  = match dict_get (rev kvs) k with
    | Some v => Some v
    | None => dict_get d k
    end.
Proof.
  revert d. induction kvs as [|[k' v'] kvs IH]; intro d; [reflexivity|].
  cbn [fold_left rev fst snd]. rewrite IH, dict_get_app, dict_get_set.
  cbn [dict_get]. destruct (dict_get (rev kvs) k); [reflexivity|].
  destruct (String.eqb k' k); reflexivity.
Qed.

Lemma dict_get_pop {V : Type} (d : list (string * V)) (k' k : string) :
  dict_get (dict_pop d k') k
  = if String.eqb k' k then None else dict_get d k.
Proof.
  unfold dict_pop. induction d as [|[k0 v0] d IH].
  - cbn. now destruct (String.eqb k' k).
  - cbn [filter fst]. destruct (String.eqb k0 k') eqn:E0; cbn [negb].
    + rewrite IH. apply String.eqb_eq in E0. subst k0.
      cbn [dict_get]. destruct (String.eqb k' k); reflexivity.
    + cbn [dict_get]. rewrite IH.
      destruct (String.eqb k0 k) eqn:E1; [|reflexivity].
      apply String.eqb_eq in E1. subst k0.
      rewrite String.eqb_sym, E0. reflexivity.
Qed.

Lemma dict_get_fold_pop {V : Type} (ks : list string) (d : list (string * V))
  (k : string) :
  dict_get (fold_left dict_pop ks d) k
  = if existsb (fun k' => String.eqb k' k) ks then None else dict_get d k.
Proof.
  revert d. induction ks as [|k' ks IH]; intro d; [reflexivity|].
  cbn [fold_left existsb]. rewrite IH, dict_get_pop.
  destruct (String.eqb k' k); cbn [orb];
    destruct (existsb _ ks); reflexivity.
Qed.

Lemma dict_get_none {V : Type} (d : list (string * V)) (k : string) :
  dict_get d k = None <-> ~ In k (dict_keys d).
Proof.
  induction d as [|[k' v'] d IH]; cbn [dict_get dict_keys map fst In].
  - tauto.
  - destruct (String.eqb_spec k' k); split; intro H.
    + discriminate.
    + exfalso. apply H. now left.
    + intros [E|I]; [contradiction|]. now apply IH in H.
    + apply IH. intro I. apply H. now right.
Qed.

Lemma dict_get_in {V : Type} (d : list (string * V)) (k : string) (v : V) :
  dict_get d k = Some v -> In (k, v) d.
Proof.
  induction d as [|[k' v'] d IH]; cbn [dict_get In]; [discriminate|].
  destruct (String.eqb_spec k' k).
  - intro E. injection E as <-. subst. now left.
  - intro E. right. now apply IH.
Qed.

(** ** C2: session mutations *)

(** What [process] leaves in the session properties. *)
Lemma process_properties (r : http_response) (h h1 : heap)
  (status : PrestoStatus) :
  process (Some r) h = (Ok status, h1) ->
  _properties (_client_session (request h1))
  = fold_left (fun d kv => dict_set d (fst kv) (snd kv)) (assigned r)
      (fold_left dict_pop (cleared r)
         (_properties (_client_session (request h)))).
Proof.
  unfold process, raise_result, set_properties, bind, ret, raise, lift,
    modify, gets, diverge, cleared, assigned, header_mem,
    get_session_property_values, get_header_values.
  intro E.
  destruct (header_get (headers r) constants.HEADER_CLEAR_SESSION);
    destruct (header_get (headers r) constants.HEADER_SET_SESSION);
    cbn [res_bind] in *;
    repeat break_match; inject_pairs; try discriminate; reflexivity.
Qed.

Lemma check_custom_headers_ok (hs : list (string * option string))
  (keys : list string) :
  check_custom_headers hs keys = Ok tt ->
  forall key, In key keys -> dict_mem hs key = false.
Proof.
  induction keys as [|k keys IH]; cbn [check_custom_headers In]; [tauto|].
  destruct (dict_mem hs k) eqn:E; [discriminate|].
  intros C key [<-|I]; auto.
Qed.

(** The session header of a request is the join of the entries of the
  session properties, whatever the custom headers are. *)
Lemma http_headers_session (r : PrestoRequest)
  (hs : list (string * option string)) :
  http_headers r = Ok hs ->
  dict_get hs constants.HEADER_SESSION
  = Some (Some (Py.join "," (session_entries (_properties (_client_session r))))).
Proof.
  rewrite http_headers_unfold. cbv zeta.
  destruct (check_custom_headers _ _) as [[]| |] eqn:C; cbn [res_bind];
    try discriminate.
  intro E. injection E as <-.
  rewrite dict_get_set.
  change (String.eqb constants.HEADER_TRANSACTION constants.HEADER_SESSION)
    with false. cbv iota.
  unfold dict_update. rewrite dict_get_fold_set.
  assert (N : dict_get
                (rev (map (fun kv => (fst kv, Some (snd kv)))
                        (_headers (_client_session r))))
                constants.HEADER_SESSION = None).
  { apply dict_get_none. intro I. unfold dict_keys in I.
    rewrite map_rev, map_map in I. apply in_rev in I. cbn [fst] in I.
    apply (check_custom_headers_ok _ _ C) in I.
    rewrite headers_before_merge_mem in I. discriminate I. }
  rewrite N. unfold headers_before_merge. apply dict_get_set_same.
Qed.

Lemma dict_set_keys_in {V : Type} (d : list (string * V)) (k x : string)
  (v : V) :
  In x (dict_keys (dict_set d k v)) -> x = k \/ In x (dict_keys d).
Proof.
  induction d as [|[k' v'] d IH]; cbn [dict_set dict_keys map fst In].
  - intros [<-|[]]. now left.
  - destruct (String.eqb k' k); cbn [map fst In]; [tauto|].
    intros [<-|I]; [tauto|]. destruct (IH I); tauto.
Qed.

Lemma dict_set_nodup {V : Type} (d : list (string * V)) (k : string) (v : V) :
  NoDup (dict_keys d) -> NoDup (dict_keys (dict_set d k v)).
Proof.
  induction d as [|[k' v'] d IH]; cbn [dict_set dict_keys map fst].
  - intros _. constructor; [tauto|constructor].
  - intro N. inversion N as [|? ? Ni Nd]; subst.
    destruct (String.eqb k' k) eqn:E; cbn [map fst]; [exact N|].
    constructor; [|now apply IH].
    intro I. apply dict_set_keys_in in I as [->|I]; [|contradiction].
    now rewrite String.eqb_refl in E.
Qed.

Lemma dict_update_nodup {V : Type} (e d : list (string * V)) :
  NoDup (dict_keys d) -> NoDup (dict_keys (dict_update d e)).
Proof.
  unfold dict_update. revert d.
  induction e as [|[k v] e IH]; intros d N; [exact N|].
  cbn [fold_left fst snd]. apply IH. now apply dict_set_nodup.
Qed.

Lemma dict_get_rev_nodup {V : Type} (d : list (string * V)) (k : string) :
  NoDup (dict_keys d) -> dict_get (rev d) k = dict_get d k.
Proof.
  induction d as [|[k' v'] d IH]; [reflexivity|].
  cbn [dict_keys map fst rev dict_get]. intro N.
  inversion N as [|? ? Ni Nd]; subst.
  rewrite dict_get_app, (IH Nd). cbn [dict_get].
  destruct (String.eqb k' k) eqn:E.
  - apply String.eqb_eq in E. subst k'.
    apply dict_get_none in Ni. now rewrite Ni.
  - now destruct (dict_get d k).
Qed.

Lemma http_headers_nodup (r : PrestoRequest)
  (hs : list (string * option string)) :
  http_headers r = Ok hs -> NoDup (dict_keys hs).
Proof.
  rewrite http_headers_unfold. cbv zeta.
  destruct (check_custom_headers _ _) as [[]| |]; cbn [res_bind];
    try discriminate.
  intro E. injection E as <-.
  apply dict_set_nodup, dict_update_nodup.
  unfold headers_before_merge.
  destruct (0 <? length (prepared_statements r));
    repeat apply dict_set_nodup; constructor.
Qed.

(** Names compared without their letter case. *)

Lemma ci_eqb_refl (a : string) : ci_eqb a a = true.
Proof. apply String.eqb_refl. Qed.

Lemma ci_eqb_trans (a b c : string) :
  ci_eqb a b = true -> ci_eqb b c = true -> ci_eqb a c = true.
Proof.
  unfold ci_eqb. intros E1 E2. apply String.eqb_eq in E1, E2.
  apply String.eqb_eq. congruence.
Qed.

Lemma ci_eqb_sym (a b : string) : ci_eqb a b = ci_eqb b a.
Proof. unfold ci_eqb. apply String.eqb_sym. Qed.

(** Two names that match the same name match each other. *)
Lemma ci_eqb_same (a b c : string) :
  ci_eqb a c = true -> ci_eqb b c = ci_eqb b a.
Proof.
  unfold ci_eqb. intro E. apply String.eqb_eq in E. now rewrite E.
Qed.

Lemma eqb_ci_eqb (a b : string) : String.eqb a b = true -> ci_eqb a b = true.
Proof. intro E. apply String.eqb_eq in E. subst. apply ci_eqb_refl. Qed.

Lemma ci_get_set {V : Type} (d : list (string * V)) (k key : string) (v : V) :
  ci_get (ci_set d k v) key = if ci_eqb k key then Some v else ci_get d key.
Proof.
  induction d as [|[k' v'] d IH]; cbn [ci_set ci_get].
  - now destruct (ci_eqb k key).
  - destruct (ci_eqb k' k) eqn:E; cbn [ci_get].
    + destruct (ci_eqb k key) eqn:E2; [reflexivity|].
      destruct (ci_eqb k' key) eqn:E1; [|reflexivity].
      rewrite ci_eqb_sym in E.
      now rewrite (ci_eqb_trans _ _ _ E E1) in E2.
    + rewrite IH. destruct (ci_eqb k' key) eqn:E1; [|reflexivity].
      destruct (ci_eqb k key) eqn:E2; [|reflexivity].
      rewrite ci_eqb_sym in E2.
      now rewrite (ci_eqb_trans _ _ _ E1 E2) in E.
Qed.

Lemma dict_get_ci_set_same {V : Type} (d : list (string * V)) (k : string)
  (v : V) :
  dict_get (ci_set d k v) k = Some v.
Proof.
  induction d as [|[k' v'] d IH]; cbn [ci_set dict_get].
  - now rewrite String.eqb_refl.
  - destruct (ci_eqb k' k) eqn:E; cbn [dict_get].
    + now rewrite String.eqb_refl.
    + destruct (String.eqb k' k) eqn:X; [|exact IH].
      now rewrite (eqb_ci_eqb _ _ X) in E.
Qed.

Lemma ci_get_app {V : Type} (a b : list (string * V)) (k : string) :
  ci_get (a ++ b) k
  = match ci_get a k with Some v => Some v | None => ci_get b k end.
Proof.
  induction a as [|[k' v'] a IH]; [reflexivity|].
  cbn [app ci_get]. destruct (ci_eqb k' k); [reflexivity|exact IH].
Qed.

Lemma ci_get_update {V : Type} (e d : list (string * V)) (k : string) :
  ci_get (ci_update d e) k
  = match ci_get (rev e) k with
    | Some v => Some v
    | None => ci_get d k
    end.
Proof.
  unfold ci_update. revert d.
  induction e as [|[k' v'] e IH]; intro d; [reflexivity|].
  cbn [fold_left rev fst snd]. rewrite IH, ci_get_app, ci_get_set.
  cbn [ci_get]. destruct (ci_get (rev e) k); [reflexivity|].
  destruct (ci_eqb k' k); reflexivity.
Qed.

(** The names of a dictionary, without their letter case. *)
Lemma ci_get_none {V : Type} (d : list (string * V)) (k : string) :
  ci_get d k = None <-> ~ In (Py.lower k) (map (fun kv => Py.lower (fst kv)) d).
Proof.
  induction d as [|[k' v'] d IH]; cbn [ci_get map fst In]; [tauto|].
  unfold ci_eqb at 1. destruct (String.eqb_spec (Py.lower k') (Py.lower k));
    split; intro H.
  - discriminate.
  - exfalso. apply H. now left.
  - intros [E|I]; [contradiction|]. now apply IH in H.
  - apply IH. intro I. apply H. now right.
Qed.

Lemma ci_get_in {V : Type} (d : list (string * V)) (k : string) (v : V) :
  ci_get d k = Some v -> exists k', In (k', v) d /\ ci_eqb k' k = true.
Proof.
  induction d as [|[k' v'] d IH]; [discriminate|].
  cbn [ci_get]. destruct (ci_eqb k' k) eqn:E.
  - intro X. injection X as ->. exists k'. split; [now left|exact E].
  - intro X. destruct (IH X) as (k0 & I & E0).
    exists k0. split; [now right|exact E0].
Qed.

Lemma nodup_map_in {A B : Type} (f : A -> B) (l : list A) (x y : A) :
  NoDup (map f l) -> In x l -> In y l -> f x = f y -> x = y.
Proof.
  induction l as [|a l IH]; [contradiction|].
  cbn [map]. intro N. inversion N as [|? ? Ni Nd]; subst.
  intros [->|Ix] [->|Iy] E; auto.
  - exfalso. apply Ni. rewrite E. now apply in_map.
  - exfalso. apply Ni. rewrite <- E. now apply in_map.
Qed.

(** Where no two names differ in letter case only, a name is found
  without its letter case as it is found with it. *)
Lemma ci_get_rev_nodup {V : Type} (d : list (string * V)) (k : string)
  (v : V) :
  NoDup (map Py.lower (dict_keys d)) ->
  dict_get d k = Some v -> ci_get (rev d) k = Some v.
Proof.
  intros N G. apply dict_get_in in G.
  destruct (ci_get (rev d) k) as [v'|] eqn:C.
  - apply ci_get_in in C as (k' & I & E).
    apply in_rev in I. unfold ci_eqb in E. apply String.eqb_eq in E.
    unfold dict_keys in N. rewrite map_map in N.
    pose proof (nodup_map_in _ d (k', v') (k, v) N I G E) as X.
    now injection X as _ ->.
  - exfalso. apply ci_get_none in C. apply C.
    rewrite map_rev. apply in_rev. rewrite rev_involutive.
    exact (in_map (fun kv => Py.lower (fst kv)) d (k, v) G).
Qed.

Lemma ci_set_keys_in {V : Type} (d : list (string * V)) (k x : string)
  (v : V) :
  In x (map (fun kv => Py.lower (fst kv)) (ci_set d k v)) ->
  x = Py.lower k \/ In x (map (fun kv => Py.lower (fst kv)) d).
Proof.
  induction d as [|[k' v'] d IH]; cbn [ci_set map fst In].
  - intros [<-|[]]. now left.
  - destruct (ci_eqb k' k) eqn:E; cbn [map fst In].
    + intros [<-|I]; [now left|tauto].
    + intros [<-|I]; [tauto|]. destruct (IH I); tauto.
Qed.

Lemma ci_set_nodup {V : Type} (d : list (string * V)) (k : string) (v : V) :
  NoDup (map (fun kv => Py.lower (fst kv)) d) ->
  NoDup (map (fun kv => Py.lower (fst kv)) (ci_set d k v)).
Proof.
  induction d as [|[k' v'] d IH]; cbn [ci_set map fst].
  - intros _. constructor; [tauto|constructor].
  - intro N. inversion N as [|? ? Ni Nd]; subst.
    destruct (ci_eqb k' k) eqn:E; cbn [map fst].
    + unfold ci_eqb in E. apply String.eqb_eq in E. rewrite <- E.
      now constructor.
    + constructor; [|now apply IH].
      intro I. apply ci_set_keys_in in I as [X|I]; [|contradiction].
      unfold ci_eqb in E. rewrite X, String.eqb_refl in E. discriminate.
Qed.

Lemma ci_update_nodup {V : Type} (e d : list (string * V)) :
  NoDup (map (fun kv => Py.lower (fst kv)) d) ->
  NoDup (map (fun kv => Py.lower (fst kv)) (ci_update d e)).
Proof.
  unfold ci_update. revert d.
  induction e as [|[k v] e IH]; intros d N; [exact N|].
  cbn [fold_left fst snd]. apply IH. now apply ci_set_nodup.
Qed.

(** Where every name has one spelling, dropping the names set to
  [None] leaves the others to be found. *)
Lemma ci_get_drop_none (d : list (string * option string)) (k : string) :
  NoDup (map (fun kv => Py.lower (fst kv)) d) ->
  ci_get (flat_map (fun kv => match snd kv with
                              | Some v => [(fst kv, v)]
                              | None => []
                              end) d) k
  = match ci_get d k with
    | Some (Some v) => Some v
    | _ => None
    end.
Proof.
  induction d as [|[k' v'] d IH]; [reflexivity|].
  cbn [map fst flat_map snd ci_get]. intro N.
  inversion N as [|? ? Ni Nd]; subst.
  destruct (ci_eqb k' k) eqn:E.
  - assert (M : ci_get d k = None).
    { apply ci_get_none. unfold ci_eqb in E. apply String.eqb_eq in E.
      now rewrite <- E. }
    destruct v' as [v|]; cbn [app ci_get].
    + now rewrite E.
    + rewrite (IH Nd), M. reflexivity.
  - destruct v' as [v|]; cbn [app ci_get]; [rewrite E|]; exact (IH Nd).
Qed.

(** What travels under a name: the value the call gives it, else the
  value the HTTP session holds, unless that value is [None]. *)
Lemma merge_setting_get (hs session : list (string * option string))
  (k : string) :
  ci_get (merge_setting (Some hs) session) k
  = match ci_get (rev hs) k with
    | Some v => v
    | None =>
        match ci_get (rev session) k with
        | Some v => v
        | None => None
        end
    end.
Proof.
  unfold merge_setting. rewrite ci_get_drop_none.
  - rewrite !ci_get_update. cbn [ci_get].
    destruct (ci_get (rev hs) k) as [[v|]|]; try reflexivity.
    destruct (ci_get (rev session) k) as [[v|]|]; reflexivity.
  - apply ci_update_nodup, ci_update_nodup. constructor.
Qed.

(** Where a name has no other spelling among the names of a
  dictionary, it is found as it is spelt. *)
Lemma ci_get_exact {V : Type} (d : list (string * V)) (k : string) :
  (forall k', In k' (dict_keys d) -> ci_eqb k' k = true -> k' = k) ->
  ci_get d k = dict_get d k.
Proof.
  induction d as [|[k' v'] d IH]; [reflexivity|].
  cbn [dict_keys map fst In ci_get dict_get]. intro X.
  destruct (ci_eqb k' k) eqn:E.
  - rewrite (X k' (or_introl eq_refl) E). now rewrite String.eqb_refl.
  - destruct (String.eqb k' k) eqn:Q.
    + now rewrite (eqb_ci_eqb _ _ Q) in E.
    + apply IH. intros k0 I. apply X. now right.
Qed.

Lemma dict_update_keys_in {V : Type} (e d : list (string * V)) (x : string) :
  In x (dict_keys (dict_update d e)) ->
  In x (dict_keys d) \/ In x (dict_keys e).
Proof.
  unfold dict_update. revert d.
  induction e as [|[k v] e IH]; intros d I; [now left|].
  cbn [fold_left fst snd] in I. apply IH in I as [I|I].
  - apply dict_set_keys_in in I as [->|I]; [right; now left|now left].
  - right. now right.
Qed.

(** The names of the headers [http_headers] builds: the reserved ones
  and the custom ones. *)
Lemma http_headers_keys (r : PrestoRequest)
  (hs : list (string * option string)) (x : string) :
  http_headers r = Ok hs ->
  In x (dict_keys hs) ->
  In x reserved_request_headers \/
  In x (dict_keys (_headers (_client_session r))).
Proof.
  rewrite http_headers_unfold. cbv zeta.
  destruct (check_custom_headers _ _) as [[]| |]; cbn [res_bind];
    try discriminate.
  intro E. injection E as <-. intro I.
  apply dict_set_keys_in in I as [->|I]; [left; cbn; tauto|].
  apply dict_update_keys_in in I as [I|I].
  - left. unfold headers_before_merge in I.
    destruct (0 <? length (prepared_statements r));
      repeat (apply dict_set_keys_in in I as [->|I]; [cbn; tauto|]);
      destruct I.
  - right. unfold dict_keys in *. rewrite map_map in I. exact I.
Qed.

(** The session header that travels with a call that passes the
  headers [http_headers] builds is the one it builds, unless a custom
  header is the session header in another letter case. *)
Lemma session_header_sent (r : PrestoRequest)
  (hs session : list (string * option string)) :
  http_headers r = Ok hs ->
  no_session_variant r ->
  ci_get (merge_setting (Some hs) session) constants.HEADER_SESSION
  = Some (Py.join "," (session_entries (_properties (_client_session r)))).
Proof.
  intros H NV. rewrite merge_setting_get.
  rewrite ci_get_exact.
  - rewrite (dict_get_rev_nodup hs _ (http_headers_nodup r hs H)).
    now rewrite (http_headers_session r hs H).
  - intros k' I E. unfold dict_keys in I. rewrite map_rev in I.
    apply in_rev in I.
    destruct (http_headers_keys r hs k' H I) as [R|C].
    + cbn in R.
      destruct R as [<-|[<-|[<-|[<-|[<-|[<-|[<-|[]]]]]]]];
        try reflexivity; discriminate E.
    + now rewrite (NV k' C) in E.
Qed.

(** Every request [post] sends passes the headers built at its
  start. *)
Lemma follow_redirects_requests (handle : string -> res string)
  (body : string) (hs : list (string * option string)) (fuel : nat) :
  forall (a0 : option http_response) (h h' : heap)
         (r : res (option http_response)),
  follow_redirects fuel handle body hs a0 h = (r, h') ->
  exists l, h' = after l h /\
            Forall (fun x => req_headers (fst x) = Some hs) l.
Proof.
  assert (Z : forall h : heap,
            exists l, h = after l h /\
                      Forall (fun x => req_headers (fst x) = Some hs) l).
  { intro h. exists []. now rewrite after_nil. }
  induction fuel as [|fuel IH]; intros a0 h h' r E.
  - destruct a0 as [r0|]; cbn in E.
    + destruct (is_redirect r0); unfold diverge, ret in E;
        injection E as <- <-; apply Z.
    + injection E as <- <-. apply Z.
  - destruct a0 as [r0|]; cbn [follow_redirects] in E.
    + destruct (is_redirect r0).
      * unfold bind, lift in E.
        destruct (header_get (headers r0) "Location");
          [|injection E as <- <-; apply Z].
        destruct (handle s) as [u| |]; try (injection E as <- <-; apply Z).
        rewrite _post_eq in E.
        destruct (with_retry _ _ h) as [a1 h1] eqn:W.
        destruct (with_retry_spec _ _ _ _ _ W) as (l1 & -> & _ & F1 & _).
        assert (P1 : Forall (fun x => req_headers (fst x) = Some hs) l1).
        { eapply Forall_impl; [|exact F1]. cbv beta. now intros x ->. }
        destruct a1 as [a1| |];
          try (injection E as <- <-; now exists l1).
        apply IH in E. destruct E as (l2 & -> & P2).
        exists (l1 ++ l2). rewrite after_app. split; [reflexivity|].
        now apply Forall_app.
      * unfold ret in E. injection E as <- <-. apply Z.
    + unfold ret in E. injection E as <- <-. apply Z.
Qed.

Lemma post_requests (sql : string) (h : heap) :
  exists l,
    snd (post sql h) = after l h /\
    Forall (fun x => exists hs, http_headers (request h) = Ok hs /\
                                req_headers (fst x) = Some hs) l.
Proof.
  unfold post, bind, gets, lift.
  destruct (http_headers (request h)) as [hs|e|]; cbv beta iota.
  2,3: exists []; rewrite after_nil; split; [reflexivity|constructor].
  assert (Up : forall l : list (http_request * outcome),
            Forall (fun x => req_headers (fst x) = Some hs) l ->
            Forall (fun x => exists hs0, Ok hs = Ok hs0 /\
                                         req_headers (fst x) = Some hs0) l).
  { intros l F. eapply Forall_impl; [|exact F]. cbv beta.
    intros x X. now exists hs. }
  rewrite _post_eq.
  destruct (with_retry _ _ h) as [a0 h0] eqn:W.
  destruct (with_retry_spec _ _ _ _ _ W) as (l0 & -> & _ & F0 & _).
  assert (P0 : Forall (fun x => req_headers (fst x) = Some hs) l0).
  { eapply Forall_impl; [|exact F0]. cbv beta. now intros x ->. }
  destruct a0 as [a0| |];
    try (exists l0; split; [reflexivity|now apply Up]).
  destruct (_redirect_handler (request h)) as [handle|].
  - destruct (follow_redirects _ _ _ _ _ _) as [r h'] eqn:E.
    apply follow_redirects_requests in E.
    destruct E as (l & -> & Pl). exists (l0 ++ l).
    rewrite after_app. split; [reflexivity|].
    apply Up. now apply Forall_app.
  - exists l0. split; [reflexivity|now apply Up].
Qed.

Lemma get_requests (u : string) (h : heap) :
  exists l,
    snd (get u h) = after l h /\
    Forall (fun x => exists hs, http_headers (request h) = Ok hs /\
                                req_headers (fst x) = Some hs) l.
Proof.
  destruct (get u h) as [r h1] eqn:G. cbn [snd].
  destruct (get_spec _ _ _ _ G)
    as [(e & He & _ & ->)|(hs & l & Hs & -> & _ & F & _)].
  - exists []. rewrite after_nil. split; [reflexivity|constructor].
  - exists l. split; [reflexivity|].
    eapply Forall_impl; [|exact F]. cbv beta. intros x ->.
    now exists hs.
Qed.

(** C2, as the code has it.  After a response is processed, the
  headers the client builds for a call carry, as [X-Presto-Session],
  the join of the entries [name=quote(value)] of the session
  properties: every request the next [get] or [post] makes passes this
  header to the transport, and, unless a custom header is the session
  header in another letter case, it is the session header that
  travels, whatever the HTTP session holds.  Of the pairs the response
  assigns through Set-Session, the last pair of each name is stored,
  its value unquoted, and has its entry [k=quote(v)] in that header; a
  value sent as [k=quote(s)] is stored as [s] and sent back as the same
  text, commas and equals signs included.  Every name the response
  clears through Clear-Session is missing from the properties, and so
  from the header, unless the Set-Session header of the same response
  assigns it: the clearing is applied first. *)
Theorem session_mutations_reach_next_request (h h1 : heap)
  (r : http_response) (status : PrestoStatus) :
  process (Some r) h = (Ok status, h1) ->
  let props := _properties (_client_session (request h1)) in
  let sent := Py.join "," (session_entries props) in
  (forall hs, http_headers (request h1) = Ok hs ->
     dict_get hs constants.HEADER_SESSION = Some (Some sent)) /\
  (forall u, exists l,
     snd (get u h1) = after l h1 /\
     Forall (fun x => passes_session sent (fst x) /\
                      (no_session_variant (request h1) ->
                       sends_session (request h1) sent (fst x))) l) /\
  (forall sql, exists l,
     snd (post sql h1) = after l h1 /\
     Forall (fun x => passes_session sent (fst x) /\
                      (no_session_variant (request h1) ->
                       sends_session (request h1) sent (fst x))) l) /\
  (forall k v, dict_get (rev (assigned r)) k = Some v ->
     dict_get props k = Some v /\
     In (k ++ "=" ++ Urllib.quote v)%string (session_entries props)) /\
  (forall k s, plain_name k = true -> Urllib.well_formed s = true ->
     header_get (headers r) constants.HEADER_SET_SESSION
       = Some (k ++ "=" ++ Urllib.quote s)%string ->
     dict_get props k = Some s /\
     In (k ++ "=" ++ Urllib.quote s)%string (session_entries props)) /\
  (forall k, In k (cleared r) -> ~ In k (dict_keys (assigned r)) ->
     ~ In k (dict_keys props)).
Proof.
  intros Pr props sent.
  pose proof (process_properties r h h1 status Pr) as E. fold props in E.
  assert (Set_ : forall k v, dict_get (rev (assigned r)) k = Some v ->
            dict_get props k = Some v /\
            In (k ++ "=" ++ Urllib.quote v)%string (session_entries props)).
  { intros k v A.
    assert (G : dict_get props k = Some v)
      by (now rewrite E, dict_get_fold_set, A).
    split; [exact G|].
    apply dict_get_in in G. unfold session_entries.
    apply (in_map (fun kv => (fst kv ++ "=" ++ Urllib.quote (snd kv))%string))
      in G. exact G. }
  assert (Sent : forall l : list (http_request * outcome),
            Forall (fun x => exists hs,
                      http_headers (request h1) = Ok hs /\
                      req_headers (fst x) = Some hs) l ->
            Forall (fun x => passes_session sent (fst x) /\
                             (no_session_variant (request h1) ->
                              sends_session (request h1) sent (fst x))) l).
  { intros l F. eapply Forall_impl; [|exact F]. cbv beta.
    intros x (hs & H & X). split.
    - exists hs. split; [exact X|]. now apply http_headers_session.
    - intro NV. unfold sends_session, sent_headers. rewrite X.
      now apply session_header_sent. }
  split; [|split; [|split; [|split; [|split]]]].
  - intros hs H. now apply http_headers_session.
  - intro u. destruct (get_requests u h1) as (l & A & F).
    exists l. split; [exact A|]. now apply Sent.
  - intro sql. destruct (post_requests sql h1) as (l & A & F).
    exists l. split; [exact A|]. now apply Sent.
  - exact Set_.
  - intros k s Pk W H. apply Set_. unfold assigned.
    rewrite (session_entry_read_back _ k s Pk W H). cbn [rev app dict_get].
    now rewrite String.eqb_refl.
  - intros k C NA. apply dict_get_none.
    rewrite E, dict_get_fold_set.
    assert (N : dict_get (rev (assigned r)) k = None).
    { apply dict_get_none. unfold dict_keys. rewrite map_rev.
      intro I. apply in_rev in I. contradiction. }
    rewrite N, dict_get_fold_pop.
    assert (X : existsb (fun k' => String.eqb k' k) (cleared r) = true).
    { apply existsb_exists. exists k. split; [exact C|apply String.eqb_refl]. }
    now rewrite X.
Qed.

(** Scenario S4: the value [hello%2Cworld] is stored as [hello,world]
  and sent back as [a=hello%2Cworld]. *)
Lemma session_mutations_reach_next_request_witness :
  let r := Sample.answer 200 [("X-Presto-Set-Session", "a=hello%2Cworld")]
             (Some (Sample.page (Val "/v1/statement/q1/1") Null Null)) in
  let h1 := snd (process (Some r) (Sample.client 3 [])) in
  let props := _properties (_client_session (request h1)) in
  dict_get props "a" = Some "hello,world" /\
  In "a=hello%2Cworld" (session_entries props).
Proof.
  intros r h1 props.
  refine (proj1 (proj2 (proj2 (proj2 (proj2
    (session_mutations_reach_next_request (Sample.client 3 []) h1 r
       {| id := Some "q1";
          stats := Some [("state", JStr "RUNNING")];
          warnings := Some [];
          info_uri := Some "/ui/q1";
          next_uri := Some "/v1/statement/q1/1";
          rows := None;
          columns := None |} _))))) "a" "hello,world" _ _ _).
  - vm_compute. reflexivity.
  - reflexivity.
  - reflexivity.
  - reflexivity.
Defined.

(** C2 as stated fails for Clear-Session: a response that clears [a]
  and assigns [a] leaves [a] in the session, and the next session
  header has the entry [a=1]. *)
Lemma cleared_name_assigned_again_stays :
  ~ (forall (h h1 : heap) (r : http_response) (status : PrestoStatus)
            (k : string),
       process (Some r) h = (Ok status, h1) ->
       In k (cleared r) ->
       forall v,
         ~ In (k ++ "=" ++ Urllib.quote v)%string
             (session_entries (_properties (_client_session (request h1))))).
Proof.
  intro C.
  set (r := Sample.answer 200
              [("X-Presto-Clear-Session", "a"); ("X-Presto-Set-Session", "a=1")]
              (Some (Sample.page (Val "/v1/statement/q1/1") Null Null))).
  apply (C (Sample.client 3 []) (snd (process (Some r) (Sample.client 3 []))) r
           {| id := Some "q1";
              stats := Some [("state", JStr "RUNNING")];
              warnings := Some [];
              info_uri := Some "/ui/q1";
              next_uri := Some "/v1/statement/q1/1";
              rows := None;
              columns := None |} "a" eq_refl (or_introl eq_refl) "1").
  vm_compute. auto.
Qed.

(** ** C1: rows received and rows yielded *)

Lemma ran_refl (h : heap) : ran [] h h.
Proof. split; [now rewrite app_nil_r|reflexivity]. Qed.

Lemma ran_trans (l1 l2 : list (http_request * outcome)) (h h1 h2 : heap) :
  ran l1 h h1 -> ran l2 h1 h2 -> ran (l1 ++ l2) h h2.
Proof.
  intros (L1 & R1) (L2 & R2). split.
  - now rewrite L2, L1, app_assoc.
  - congruence.
Qed.

Lemma ran_after (l : list (http_request * outcome)) (h : heap) :
  ran l h (after l h).
Proof. split; reflexivity. Qed.

Lemma received_rows_app (r : PrestoRequest)
  (a b : list (http_request * outcome)) :
  received_rows r (a ++ b) = received_rows r a + received_rows r b.
Proof. unfold received_rows. now rewrite map_app, list_sum_app. Qed.

Lemma received_rows_handler (r r' : PrestoRequest)
  (l : list (http_request * outcome)) :
  _redirect_handler r' = _redirect_handler r ->
  received_rows r' l = received_rows r l.
Proof.
  intro E. unfold received_rows. f_equal. apply map_ext.
  intros [rq o]. unfold page_rows. now rewrite E.
Qed.

Lemma data_len_503 (resp : http_response) :
  status_code resp = 503%Z -> data_len resp = 0.
Proof. intro S. unfold data_len, ok. now rewrite S. Qed.

(** An exchange the wrapper retries brings no rows. *)
Lemma retried_no_rows (r : PrestoRequest) (rq : http_request) (o : outcome) :
  retried r o = true -> page_rows r (rq, o) = 0.
Proof.
  destruct o as [e|resp]; [reflexivity|]. cbn [retried]. intro S.
  apply Z.eqb_eq in S. unfold page_rows. cbn [fst snd].
  rewrite (data_len_503 resp S).
  destruct (method rq), (_redirect_handler r); try reflexivity.
  now destruct (is_redirect resp).
Qed.

Lemma retried_all_no_rows (r : PrestoRequest)
  (l : list (http_request * outcome)) :
  Forall (fun x => retried r (snd x) = true) l -> received_rows r l = 0.
Proof.
  induction 1 as [|[rq o] l Rx _ IH]; [reflexivity|].
  change (received_rows r ((rq, o) :: l))
    with (page_rows r (rq, o) + received_rows r l).
  cbn [snd] in Rx. now rewrite (retried_no_rows r rq o Rx), IH.
Qed.

(** The exchanges of a wired verb bring the rows of the answer it
  returns. *)
Lemma with_retry_rows (r0 : PrestoRequest) (rq : http_request)
  (h h' : heap) (a : option http_response) :
  with_retry r0 (http_send rq) h = (Ok a, h') ->
  exists l,
    h' = after l h /\
    received_rows r0 l
    = match a with
      | Some resp => page_rows r0 (rq, Responds resp)
      | None => 0
      end.
Proof.
  intro E. destruct (with_retry_spec _ _ _ _ _ E) as (l & -> & _ & _ & _ & D).
  exists l. split; [reflexivity|].
  destruct D as [(-> & Ea & _)|(l0 & o & -> & F0 & Ea & _)].
  - injection Ea as ->. reflexivity.
  - rewrite received_rows_app, (retried_all_no_rows _ _ F0).
    destruct o as [e|resp]; [discriminate|]. injection Ea as ->.
    unfold received_rows. cbn. lia.
Qed.

Lemma get_rows (u : string) (h h' : heap) (a : option http_response) :
  get u h = (Ok a, h') ->
  exists l, h' = after l h /\ received_rows (request h) l = answer_rows a.
Proof.
  unfold get, bind, gets, lift.
  destruct (http_headers (request h)) as [hs|e|]; cbv beta iota;
    try discriminate.
  rewrite _get_eq. intro E.
  destruct (with_retry_rows _ _ _ _ _ E) as (l & -> & R).
  exists l. split; [reflexivity|]. rewrite R. now destruct a.
Qed.

Lemma follow_redirects_rows (handle : string -> res string) (body : string)
  (hs : list (string * option string)) (fuel : nat) :
  forall (a0 a : option http_response) (h h' : heap),
  _redirect_handler (request h) <> None ->
  follow_redirects fuel handle body hs a0 h = (Ok a, h') ->
  exists l,
    h' = after l h /\
    post_rows a0 + received_rows (request h) l = answer_rows a.
Proof.
  induction fuel as [|fuel IH]; intros a0 a h h' Hd E.
  - destruct a0 as [r|]; cbn in E.
    + destruct (is_redirect r) eqn:X; [discriminate|].
      injection E as <- <-. exists []. rewrite after_nil.
      cbn. rewrite X. split; [reflexivity|]. unfold received_rows. cbn. lia.
    + injection E as <- <-. exists []. rewrite after_nil. now split.
  - destruct a0 as [r|]; cbn [follow_redirects] in E.
    + destruct (is_redirect r) eqn:X.
      * unfold bind, lift in E.
        destruct (header_get (headers r) "Location"); [|discriminate].
        destruct (handle s) as [u| |]; try discriminate.
        rewrite _post_eq in E.
        destruct (with_retry _ _ h) as [[a1| |] h1] eqn:W; try discriminate.
        destruct (with_retry_rows _ _ _ _ _ W) as (l1 & -> & R1).
        apply IH in E; [|exact Hd].
        destruct E as (l2 & -> & R2).
        exists (l1 ++ l2). rewrite after_app. split; [reflexivity|].
        rewrite received_rows_app, R1. cbn [post_rows]. rewrite X.
        change (request (after l1 h)) with (request h) in R2.
        rewrite <- R2. cbn [plus]. f_equal.
        destruct a1 as [r1|]; [|reflexivity].
        unfold page_rows. cbn.
        destruct (_redirect_handler (request h)); [reflexivity|contradiction].
      * cbn in E. injection E as <- <-. exists []. rewrite after_nil.
        cbn. rewrite X. split; [reflexivity|]. unfold received_rows. cbn. lia.
    + cbn in E. injection E as <- <-. exists []. rewrite after_nil. now split.
Qed.

Lemma post_rows_received (sql : string) (h h' : heap)
  (a : option http_response) :
  post sql h = (Ok a, h') ->
  exists l, h' = after l h /\ received_rows (request h) l = answer_rows a.
Proof.
  unfold post, bind, gets, lift.
  destruct (http_headers (request h)) as [hs|e|]; cbv beta iota;
    try discriminate.
  rewrite _post_eq.
  destruct (with_retry _ _ h) as [[a0| |] h0] eqn:W; try discriminate.
  destruct (with_retry_rows _ _ _ _ _ W) as (l0 & -> & R0).
  destruct (_redirect_handler (request h)) as [handle|] eqn:Hd.
  - intro E. apply follow_redirects_rows in E.
    + destruct E as (l & -> & R). exists (l0 ++ l).
      rewrite after_app. split; [reflexivity|].
      change (request (after l0 h)) with (request h) in R.
      rewrite received_rows_app, R0, <- R. f_equal.
      destruct a0 as [r0|]; [|reflexivity].
      unfold page_rows. cbn. now rewrite Hd.
    + change (request (after l0 h)) with (request h). congruence.
  - unfold ret. intro E. injection E as <- <-.
    exists l0. split; [reflexivity|]. rewrite R0.
    destruct a0 as [r0|]; [|reflexivity].
    unfold page_rows. cbn. now rewrite Hd.
Qed.

Lemma process_rows (a : option http_response) (h h1 : heap)
  (status : PrestoStatus) :
  process a h = (Ok status, h1) ->
  length (rows_or_empty (rows status)) = answer_rows a /\
  ran [] h h1 /\ query h1 = query h /\ result h1 = result h.
Proof.
  intro Pr.
  destruct (process_frame _ _ _ _ Pr) as (_ & Q & Rs & N & Hd & _).
  destruct (process_ok _ _ _ _ Pr)
    as (r & response & -> & K & B & _ & _ & Rw & _).
  split; [|split; [|split]]; auto.
  - rewrite Rw. unfold answer_rows, data_len. rewrite K, B.
    now destruct (j_data response).
  - split; [now rewrite N, app_nil_r|exact Hd].
Qed.

Lemma fetch_rows (h h' : heap) (more : option (list (list json))) :
  fetch h = (Ok more, h') ->
  exists l,
    ran l h h' /\
    received_rows (request h) l = length (rows_or_empty more) /\
    result h' = result h /\
    _cancelled (query h') = _cancelled (query h).
Proof.
  unfold fetch, bind, gets.
  destruct (_next_uri (request h)) as [uri|].
  - destruct (get uri h) as [[a| |] h1] eqn:G; try discriminate.
    destruct (process a h1) as [[status| |] h2] eqn:Pr; try discriminate.
    destruct (get_rows _ _ _ _ G) as (l & -> & R).
    destruct (process_rows _ _ _ _ Pr) as (Ln & Rn & Q & Rs).
    intro E. exists l.
    assert (F : ran l h h' /\ result h' = result h /\
                _cancelled (query h') = _cancelled (query h) /\
                more = rows status).
    { pose proof (ran_trans _ _ _ _ _ (ran_after l h) Rn) as Rn'.
      rewrite app_nil_r in Rn'. destruct Rn' as (Lg & Hd).
      unfold update_stats, modify, raise, ret in E.
      destruct (columns status) as [[|c cs]|];
        destruct (stats status); destruct (next_uri status);
        cbn in E; inject_pairs; try discriminate;
        (split; [split; [exact Lg|exact Hd]|]);
        cbn; rewrite ?Q, ?Rs; auto. }
    destruct F as (F1 & F2 & F3 & ->).
    split; [exact F1|]. split; [now rewrite R, Ln|]. split; assumption.
  - unfold modify, ret. intro E. inject_pairs. exists [].
    split; [split; [cbn; now rewrite app_nil_r|reflexivity]|].
    repeat split.
Qed.

Lemma fetch_all_unfold (fuel : nat) (h : heap) :
  fetch_all fuel h =
  if negb (_finished (query h)) && negb (_cancelled (query h)) then
    match fuel with
    | O => (Diverge, h)
    | S fuel' =>
        match fetch h with
        | (Ok more, h1) =>
            match _rows (result h), more with
            | Some l, Some l' =>
                fetch_all fuel' (on_result (with_rows (Some (l ++ l'))) h1)
            | Some _, None =>
                (Raise (TypeError "'NoneType' object is not iterable"), h1)
            | None, _ =>
                (Raise (TypeError "unsupported operand type(s) for +="), h1)
            end
        | (Raise e, h1) => (Raise e, h1)
        | (Diverge, h1) => (Diverge, h1)
        end
    end
  else (Ok tt, h).
Proof.
  destruct fuel; cbn [fetch_all]; unfold bind, gets;
    destruct (negb (_finished (query h)) && negb (_cancelled (query h)));
    try reflexivity.
  destruct (fetch h) as [[more| |] h1]; try reflexivity.
  destruct (_rows (result h)), more; reflexivity.
Qed.

(** The greedy polling of [execute]: the rows it appends are the rows
  the polls received, and it stops on a finished or cancelled query. *)
Lemma fetch_all_rows (fuel : nat) :
  forall (h h' : heap) (rows0 : list (list json)),
  fetch_all fuel h = (Ok tt, h') ->
  _rows (result h) = Some rows0 ->
  exists l extra,
    ran l h h' /\
    _rows (result h') = Some (rows0 ++ extra) /\
    received_rows (request h) l = length extra /\
    _rownumber (result h') = _rownumber (result h) /\
    typed (result h') = typed (result h) /\
    _cancelled (query h') = _cancelled (query h) /\
    (_finished (query h') = true \/ _cancelled (query h') = true).
Proof.
  induction fuel as [|fuel IH]; intros h h' rows0 E R0;
    rewrite fetch_all_unfold in E;
    destruct (negb (_finished (query h)) && negb (_cancelled (query h))) eqn:C;
    try discriminate.
  - injection E as <-. exists [], []. rewrite app_nil_r.
    repeat split; auto using ran_refl.
    + apply ran_refl.
    + apply andb_false_iff in C as [C|C]; apply negb_false_iff in C; auto.
  - destruct (fetch h) as [[more| |] h1] eqn:F; try discriminate.
    rewrite R0 in E. destruct more as [l'|]; [|discriminate].
    destruct (fetch_rows _ _ _ F) as (l1 & Rn1 & Rc1 & Rs1 & Cn1).
    apply (IH _ _ (rows0 ++ l')) in E; [|reflexivity].
    destruct E as (l2 & extra & Rn2 & Rw & Rc2 & Nb & Ty & Cn2 & Fin).
    exists (l1 ++ l2), (l' ++ extra).
    assert (Rn : ran (l1 ++ l2) h h').
    { apply (ran_trans _ _ _ h1); [exact Rn1|].
      destruct Rn2 as (L2 & H2). split; [exact L2|exact H2]. }
    split; [exact Rn|]. split; [now rewrite Rw, app_assoc|].
    split.
    { rewrite received_rows_app, Rc1, length_app. cbn [rows_or_empty]. f_equal.
      rewrite <- Rc2. symmetry. apply received_rows_handler.
      destruct Rn1 as (_ & H1). exact H1. }
    cbn in Nb, Ty, Cn2. rewrite Rs1 in Nb, Ty.
    repeat split; auto. congruence.
  - injection E as <-. exists [], []. rewrite app_nil_r.
    repeat split; auto using ran_refl.
    + apply ran_refl.
    + apply andb_false_iff in C as [C|C]; apply negb_false_iff in C; auto.
Qed.

Section Execute.
Context {P : Platform}.

Lemma execute_unfold (h : heap) :
  execute h =
  if _cancelled (query h) then
    (Raise (PrestoUserError (JStr "Query has been cancelled")
              (query_id (query h))), h)
  else
    match refresh_credentials h with
    | (Ok _, h0) => submit (query h) h0
    | (Raise e, h0) => (Raise e, h0)
    | (Diverge, h0) => (Diverge, h0)
    end.
Proof.
  unfold execute, bind, gets.
  destruct (_cancelled (query h)); reflexivity.
Qed.

(** Refreshing the credentials sends nothing and leaves the query. *)
Lemma refresh_credentials_frame (h h0 : heap) (r : res unit) :
  refresh_credentials h = (r, h0) ->
  net h0 = net h /\ query h0 = query h /\
  _redirect_handler (request h0) = _redirect_handler (request h).
Proof.
  unfold refresh_credentials, get_oauth_token, bind, gets, lift, modify,
    ret, raise.
  intro E. repeat break_match; inject_pairs; try discriminate; auto.
Qed.

Lemma submit_rows (q : PrestoQuery) (h h' : heap) :
  submit q h = (Ok tt, h') ->
  _cancelled (query h) = false ->
  exists l rows,
    ran l h h' /\
    _rows (result h') = Some rows /\
    _rownumber (result h') = 0 /\
    received_rows (request h) l = length rows /\
    _finished (query h') = true.
Proof.
  unfold submit, bind. intros E Cn.
  destruct (post (_sql q) h) as [[a| |] h1] eqn:Po; try discriminate.
  destruct (process a h1) as [[status| |] h2] eqn:Pr; try discriminate.
  destruct (post_rows_received _ _ _ _ Po) as (l1 & -> & R1).
  destruct (process_rows _ _ _ _ Pr) as (Ln & (Lg & Hd) & Q & Rs).
  unfold update_stats, modify, raise, ret, gets in E.
  destruct (stats status) as [st|]; [|discriminate].
  assert (E' : exists h3 fuel,
            fetch_all fuel h3 = (Ok tt, h') /\
            net h3 = net h2 /\ request h3 = request h2 /\
            _cancelled (query h3) = false /\
            _rows (result h3) = Some (rows_or_empty (rows status)) /\
            _rownumber (result h3) = 0).
  { destruct (next_uri status); cbv beta iota in E;
      eexists; eexists; (split; [exact E|]); cbn; rewrite Q; auto. }
  clear E. destruct E' as (h3 & fuel & E & N3 & Rq3 & Cn3 & Rw3 & Nb3).
  destruct (fetch_all_rows _ _ _ _ E Rw3)
    as (l2 & extra & (Lg2 & Hd2) & Rw & Rc2 & Nb & _ & Cn' & Fin).
  exists (l1 ++ l2), (rows_or_empty (rows status) ++ extra).
  split; [split|split; [|split; [|split]]].
  - rewrite Lg2, N3, Lg. cbn. now rewrite app_nil_r, app_assoc.
  - rewrite Hd2, Rq3, Hd. reflexivity.
  - exact Rw.
  - now rewrite Nb.
  - rewrite received_rows_app, R1, length_app, Ln. f_equal.
    rewrite <- Rc2. symmetry. apply received_rows_handler.
    now rewrite Rq3, Hd.
  - destruct Fin as [F|F]; [exact F|congruence].
Qed.

Lemma execute_rows (h h' : heap) :
  execute h = (Ok tt, h') ->
  exists l rows,
    ran l h h' /\
    _rows (result h') = Some rows /\
    _rownumber (result h') = 0 /\
    received_rows (request h) l = length rows /\
    _finished (query h') = true.
Proof.
  rewrite execute_unfold.
  destruct (_cancelled (query h)) eqn:Cn; [discriminate|].
  destruct (refresh_credentials h) as [[[]| |] h0] eqn:Rf; try discriminate.
  destruct (refresh_credentials_frame _ _ _ Rf) as (N0 & Q0 & H0).
  intro E. apply submit_rows in E; [|now rewrite Q0].
  destruct E as (l & rows & (Lg & Hd) & Rw & Nb & Rc & Fin).
  exists l, rows. repeat split; auto.
  - now rewrite Lg, N0.
  - now rewrite Hd.
  - rewrite <- Rc. symmetry. now apply received_rows_handler.
Qed.

End Execute.

Section Iterate.
Context {P : Platform}.

Lemma yield_row_counts (row : list json) (h h' : heap) (o : yielded * nat) :
  yield_row with_rownumbers row h = (Ok o, h') ->
  snd o = S (_rownumber (result h)) /\
  _rownumber (result h') = S (_rownumber (result h)) /\
  net h' = net h /\ query h' = query h.
Proof.
  unfold yield_row, with_rownumbers, bind, gets, modify, lift, ret.
  cbv beta iota.
  change (typed (result (on_result
            (fun r => with_rownumber (_rownumber r + 1) r) h)))
    with (typed (result h)).
  destruct (negb (typed (result h))).
  - intro E. inject_pairs. cbn. rewrite Nat.add_1_r. auto.
  - change (_columns (query (on_result
              (fun r => with_rownumber (_rownumber r + 1) r) h)))
      with (_columns (query h)).
    destruct (_map_to_python_types row (_columns (query h)));
      intro E; inject_pairs; try discriminate.
    cbn. rewrite Nat.add_1_r. auto.
Qed.

Lemma yield_rows_counts (l : list (list json)) :
  forall (h h' : heap) (obs : list (yielded * nat)),
  yield_rows with_rownumbers l h = (Ok obs, h') ->
  length obs = length l /\
  map snd obs = seq (S (_rownumber (result h))) (length l) /\
  _rownumber (result h') = _rownumber (result h) + length l /\
  net h' = net h /\ query h' = query h.
Proof.
  induction l as [|row l IH]; intros h h' obs E.
  - cbn in E. unfold ret in E. inject_pairs. cbn. rewrite Nat.add_0_r. auto.
  - cbn [yield_rows] in E. unfold bind in E.
    destruct (yield_row with_rownumbers row h) as [[o| |] h1] eqn:Y;
      try discriminate.
    destruct (yield_rows with_rownumbers l h1) as [[os| |] h2] eqn:Ys;
      try discriminate.
    unfold ret in E. inject_pairs.
    destruct (yield_row_counts _ _ _ _ Y) as (So & N1 & Ne1 & Q1).
    destruct (IH _ _ _ Ys) as (Ln & Sq & N2 & Ne2 & Q2).
    cbn [length map seq]. rewrite Ln, Sq, So, N1, N2, N1.
    repeat split; try congruence. lia.
Qed.

Lemma yield_fetched_finished {Obs : Type} (consume : yielded -> M Obs)
  (fuel : nat) (h : heap) :
  _finished (query h) = true ->
  yield_fetched consume fuel h = (Ok [], h).
Proof.
  intro F. destruct fuel; cbn [yield_fetched];
    unfold bind, is_finished, gets; rewrite F; reflexivity.
Qed.

(** Iterating the result of a finished query yields its buffered
  rows, one count per row, and sends nothing. *)
Lemma iter_finished (h h' : heap) (obs : list (yielded * nat))
  (buffered : list (list json)) :
  __iter__ with_rownumbers h = (Ok obs, h') ->
  _finished (query h) = true ->
  _rows (result h) = Some buffered ->
  length obs = length buffered /\
  map snd obs = seq (S (_rownumber (result h))) (length buffered) /\
  _rownumber (result h') = _rownumber (result h) + length buffered /\
  net h' = net h.
Proof.
  unfold __iter__, bind, gets. intros E F R. rewrite R in E.
  destruct (yield_rows with_rownumbers buffered h) as [[os| |] h1] eqn:Ys;
    try discriminate.
  destruct (yield_rows_counts _ _ _ _ Ys) as (Ln & Sq & N1 & Ne1 & Q1).
  unfold modify in E. cbv beta iota in E.
  rewrite yield_fetched_finished in E by (cbn; congruence).
  unfold ret in E. inject_pairs. rewrite app_nil_r.
  cbn. auto.
Qed.

End Iterate.

(** C1.  When [execute] returns and the result is then iterated to its
  end without error, the exchanges of the log made meanwhile are those
  of the query: the number of rows yielded is the sum, over them, of
  [len(data)] of the responses the driver was handed (the answer to the
  POST and to every poll; a retried 503 and a followed redirect carry
  none).  [rownumber], read at each row, counts 1, 2, ... and ends at
  that number. *)
Theorem rows_yielded_equal_rows_received (P : Platform) (h h1 h2 : heap)
  (obs : list (yielded * nat)) :
  execute h = (Ok tt, h1) ->
  __iter__ with_rownumbers h1 = (Ok obs, h2) ->
  exists exchanges,
    log (net h2) = log (net h) ++ exchanges /\
    length obs = received_rows (request h) exchanges /\
    _rownumber (result h2) = length obs /\
    map snd obs = seq 1 (length obs).
Proof.
  intros E I.
  destruct (execute_rows _ _ E) as (l & rows & (Lg & _) & Rw & Nb & Rc & Fin).
  destruct (iter_finished _ _ _ _ I Fin Rw) as (Ln & Sq & N2 & Ne).
  exists l. rewrite Ne, Ln, N2, Sq, Nb, Rc. auto.
Qed.

(** Scenario S1 behind one refused attempt: three rows from four
  exchanges. *)
Lemma rows_yielded_equal_rows_received_witness :
  let h := Sample.client 3 Sample.script in
  let h1 := snd (@execute Sample.platform h) in
  let h2 := snd (@__iter__ Sample.platform _ with_rownumbers h1) in
  let obs := [(@Raw Sample.platform [JNum 1], 1);
              (Raw [JNum 2], 2); (Raw [JNum 3], 3)] in
  exists exchanges,
    log (net h2) = log (net h) ++ exchanges /\
    length obs = received_rows (request h) exchanges /\
    _rownumber (result h2) = length obs /\
    map snd obs = seq 1 (length obs).
Proof.
  intros h h1 h2 obs.
  apply (rows_yielded_equal_rows_received Sample.platform h h1 h2 obs).
  - vm_compute. reflexivity.
  - vm_compute. reflexivity.
Defined.

(** ** The loops end

  The driver's loops run on [steps] turns.  That is enough: a turn
  that does not end its loop has consumed an answer of the script. *)

Lemma with_retry_total (r0 : PrestoRequest) (rq : http_request) (h : heap) :
  fst (with_retry r0 (http_send rq) h) <> Diverge.
Proof.
  destruct (with_retry r0 (http_send rq) h) as [r h'] eqn:E. cbn [fst].
  destruct (with_retry_spec _ _ _ _ _ E) as (l & _ & _ & _ & _ & D).
  destruct D as [(_ & -> & _)|(l0 & o & _ & _ & -> & _)]; [discriminate|].
  destruct o; discriminate.
Qed.

Lemma get_total (u : string) (h : heap) : fst (get u h) <> Diverge.
Proof.
  destruct (get u h) as [r h'] eqn:E. cbn [fst].
  destruct (get_spec _ _ _ _ E)
    as [(e & _ & -> & _)|(hs & l & _ & _ & _ & _ & _ & D)]; [discriminate|].
  destruct D as [(_ & -> & _)|(l0 & o & _ & _ & -> & _)]; [discriminate|].
  destruct o; discriminate.
Qed.

Lemma session_pairs_total (kvs : list string) : session_pairs kvs <> Diverge.
Proof.
  induction kvs as [|kv kvs IH]; cbn [session_pairs]; [discriminate|].
  destruct (Py.split1 "="%char kv) as [|k [|v [|]]]; try discriminate.
  destruct (session_pairs kvs); cbn [res_bind]; congruence.
Qed.

Lemma process_total (a : option http_response) (h : heap) :
  fst (process a h) <> Diverge.
Proof.
  unfold process, raise_result, set_properties, bind, ret, raise, lift,
    modify, gets, diverge, get_session_property_values, get_header_values.
  destruct a as [r|]; [|discriminate].
  destruct (negb (ok r)); [discriminate|].
  destruct (json_body r) as [response|]; [|discriminate].
  destruct (j_error response) as [error|].
  { pose proof (_process_error_total error (field_get (j_id response))) as T.
    destruct (_process_error _ _); cbn [fst]; congruence. }
  pose proof session_pairs_total as T.
  repeat break_match; cbn [fst res_bind] in *; try discriminate;
    inject_pairs; try discriminate;
    match goal with
    | H : field_item _ ?f = Diverge |- _ => destruct f; discriminate H
    | H : session_pairs _ = Diverge |- _ => now apply T in H
    end.
Qed.

Lemma answers_exhausted (k : nat) :
  answers k [] = repeat (Raises ConnectionError) k.
Proof. induction k as [|k IH]; [reflexivity|]. cbn. now rewrite IH. Qed.

Lemma answers_length (k : nat) (p : list outcome) : length (answers k p) = k.
Proof.
  revert p. induction k as [|k IH]; intro p; [reflexivity|].
  destruct p; cbn; now rewrite IH.
Qed.

(** A response among the outcomes was in the script. *)
Lemma answers_responds (k : nat) :
  forall (p xs : list outcome) (r : http_response),
  answers k p = xs ++ [Responds r] -> k <= length p.
Proof.
  induction k as [|k IH]; intros p xs r E; [lia|].
  destruct p as [|o p].
  - exfalso. rewrite answers_exhausted in E.
    assert (I : In (Responds r) (repeat (Raises ConnectionError) (S k))).
    { rewrite E. apply in_or_app. right. now left. }
    apply repeat_spec in I. discriminate.
  - cbn [answers] in E. destruct xs as [|x xs].
    + cbn in E. injection E as _ E.
      assert (k = 0) as -> by (now rewrite <- (answers_length k p), E).
      cbn. lia.
    + cbn in E. injection E as _ E. apply IH in E. cbn. lia.
Qed.

Lemma with_retry_progress (r0 : PrestoRequest) (rq : http_request)
  (h h' : heap) (r : http_response) :
  with_retry r0 (http_send rq) h = (Ok (Some r), h') ->
  length (pending (net h')) < length (pending (net h)).
Proof.
  intro E. destruct (with_retry_spec _ _ _ _ _ E) as (l & -> & _ & _ & A & D).
  destruct D as [(_ & X & _)|(l0 & o & -> & _ & X & _)]; [discriminate|].
  destruct o as [e|r']; [discriminate|].
  rewrite map_app in A. cbn [map snd] in A. symmetry in A.
  apply answers_responds in A.
  rewrite pending_after, length_skipn.
  rewrite length_app in *. cbn [length] in *. lia.
Qed.

Lemma get_progress (u : string) (h h' : heap) (r : http_response) :
  get u h = (Ok (Some r), h') ->
  length (pending (net h')) < length (pending (net h)).
Proof.
  unfold get, bind, gets, lift.
  destruct (http_headers (request h)); cbv beta iota; try discriminate.
  rewrite _get_eq. apply with_retry_progress.
Qed.

Lemma follow_redirects_total (handle : string -> res string) (body : string)
  (hs : list (string * option string)) :
  (forall location, handle location <> Diverge) ->
  forall (fuel : nat) (a0 : option http_response) (h : heap),
  (forall r, a0 = Some r -> is_redirect r = true ->
             length (pending (net h)) < fuel) ->
  fst (follow_redirects fuel handle body hs a0 h) <> Diverge.
Proof.
  intro T. induction fuel as [|fuel IH]; intros a0 h B.
  - destruct a0 as [r|]; cbn; [|discriminate].
    destruct (is_redirect r) eqn:X; [|discriminate].
    specialize (B r eq_refl X). lia.
  - destruct a0 as [r|]; cbn [follow_redirects]; [|discriminate].
    destruct (is_redirect r) eqn:X; [|discriminate].
    specialize (B r eq_refl X).
    unfold bind, lift.
    destruct (header_get (headers r) "Location"); [|discriminate].
    pose proof (T s) as Ts. destruct (handle s) as [u| |]; try discriminate;
      [|contradiction].
    rewrite _post_eq.
    pose proof (with_retry_total (request h)
                  (post_request u body hs false) h) as W.
    destruct (with_retry _ _ h) as [[a1| |] h1] eqn:E; cbn [fst] in *;
      try discriminate; [|contradiction].
    apply IH. intros r1 -> _. apply with_retry_progress in E. lia.
Qed.

Lemma post_total (sql : string) (h : heap) :
  (forall handle location,
     _redirect_handler (request h) = Some handle ->
     handle location <> Diverge) ->
  fst (post sql h) <> Diverge.
Proof.
  intro T. unfold post, bind, gets, lift.
  pose proof (http_headers_total (request h)) as Hh.
  destruct (http_headers (request h)) as [hs| |]; cbv beta iota;
    try discriminate; [|contradiction].
  rewrite _post_eq.
  match goal with
  | |- context [with_retry ?r ?f h] =>
      pose proof (with_retry_total r (post_request (statement_url (request h))
                    sql hs (match _redirect_handler (request h) with
                            | None => true | Some _ => false end)) h) as W;
      destruct (with_retry r f h) as [[a0| |] h0] eqn:E
  end; cbn [fst] in *; try discriminate; [|contradiction].
  destruct (_redirect_handler (request h)) as [handle|] eqn:Hd;
    [|discriminate].
  apply follow_redirects_total.
  - intro location. now apply T.
  - intros r _ _. unfold steps. lia.
Qed.

Lemma fetch_total (h : heap) : fst (fetch h) <> Diverge.
Proof.
  unfold fetch, bind, gets.
  destruct (_next_uri (request h)) as [uri|]; [|discriminate].
  pose proof (get_total uri h) as G.
  destruct (get uri h) as [[a| |] h1]; cbn [fst] in *; try discriminate;
    [|contradiction].
  pose proof (process_total a h1) as Pr.
  destruct (process a h1) as [[status| |] h2]; cbn [fst] in *;
    try discriminate; [|contradiction].
  unfold update_stats, modify, raise, ret.
  destruct (columns status) as [[|c cs]|]; destruct (stats status);
    destruct (next_uri status); discriminate.
Qed.

(** A fetch that succeeds finishes the query or consumes an answer. *)
Lemma fetch_progress (h h' : heap) (more : option (list (list json))) :
  fetch h = (Ok more, h') ->
  _finished (query h') = true \/
  length (pending (net h')) < length (pending (net h)).
Proof.
  unfold fetch, bind, gets.
  destruct (_next_uri (request h)) as [uri|].
  - destruct (get uri h) as [[a| |] h1] eqn:G; try discriminate.
    destruct (process a h1) as [[status| |] h2] eqn:Pr; try discriminate.
    destruct (process_ok _ _ _ _ Pr) as (r & _ & -> & _).
    destruct (process_frame _ _ _ _ Pr) as (_ & _ & _ & N & _).
    apply get_progress in G. rewrite <- N in G.
    unfold update_stats, modify, raise, ret. intro E. right.
    destruct (columns status) as [[|c cs]|]; destruct (stats status);
      destruct (next_uri status); cbv beta iota in E; inject_pairs;
      try discriminate; exact G.
  - unfold modify, ret. intro E. inject_pairs. now left.
Qed.

Lemma fetch_all_total (fuel : nat) :
  forall h : heap,
  length (pending (net h)) < fuel -> fst (fetch_all fuel h) <> Diverge.
Proof.
  induction fuel as [|fuel IH]; intros h B; [lia|].
  rewrite fetch_all_unfold.
  destruct (negb (_finished (query h)) && negb (_cancelled (query h)));
    [|discriminate].
  pose proof (fetch_total h) as T.
  destruct (fetch h) as [[more| |] h1] eqn:F; cbn [fst] in *;
    try discriminate; [|contradiction].
  destruct (_rows (result h)) as [l|]; [|discriminate].
  destruct more as [l'|]; [|discriminate].
  destruct (fetch_progress _ _ _ F) as [Fin|Pg].
  - rewrite fetch_all_unfold.
    change (query (on_result (with_rows (Some (l ++ l'))) h1)) with (query h1).
    rewrite Fin. discriminate.
  - apply IH.
    change (net (on_result (with_rows (Some (l ++ l'))) h1)) with (net h1).
    lia.
Qed.

Section Termination.
Context {P : Platform}.

Lemma submit_total (q : PrestoQuery) (h : heap) :
  (forall handle location,
     _redirect_handler (request h) = Some handle ->
     handle location <> Diverge) ->
  fst (submit q h) <> Diverge.
Proof.
  intro T. unfold submit, bind.
  pose proof (post_total (_sql q) h T) as Po.
  destruct (post (_sql q) h) as [[a| |] h1]; cbn [fst] in *;
    try discriminate; [|contradiction].
  pose proof (process_total a h1) as Pr.
  destruct (process a h1) as [[status| |] h2]; cbn [fst] in *;
    try discriminate; [|contradiction].
  unfold update_stats, modify, raise, ret, gets.
  destruct (stats status); [|discriminate].
  destruct (next_uri status); cbv beta iota;
    apply fetch_all_total; unfold steps; lia.
Qed.

Lemma refresh_credentials_total (h : heap) :
  (forall c, refresh c <> Diverge) ->
  fst (refresh_credentials h) <> Diverge.
Proof.
  intro T.
  unfold refresh_credentials, get_oauth_token, bind, gets, lift, modify,
    ret, raise.
  cbv beta iota.
  destruct (credentials h) as [c|] eqn:C; [|discriminate].
  destruct (negb (valid c)); [|discriminate].
  cbv beta iota. rewrite C.
  pose proof (T c) as Tc. destruct (refresh c); cbv beta iota; cbn [fst];
    try discriminate. contradiction.
Qed.

(** [execute] returns or raises. *)
Lemma execute_total (h : heap) :
  (forall c, refresh c <> Diverge) ->
  (forall handle location,
     _redirect_handler (request h) = Some handle ->
     handle location <> Diverge) ->
  fst (execute h) <> Diverge.
Proof.
  intros Tr Th. rewrite execute_unfold.
  destruct (_cancelled (query h)); [discriminate|].
  pose proof (refresh_credentials_total h Tr) as R.
  destruct (refresh_credentials h) as [[[]| |] h0] eqn:E; cbn [fst] in *;
    try discriminate; [|contradiction].
  apply submit_total. intros handle location Hd.
  destruct (refresh_credentials_frame _ _ _ E) as (_ & _ & H0).
  apply Th. congruence.
Qed.

Lemma yield_rows_total (l : list (list json)) :
  (forall row cols, _map_to_python_types row cols <> Diverge) ->
  forall h : heap, fst (yield_rows with_rownumbers l h) <> Diverge.
Proof.
  intro T. induction l as [|row l IH]; intro h; [discriminate|].
  cbn [yield_rows]. unfold bind.
  assert (Y : fst (yield_row with_rownumbers row h) <> Diverge).
  { unfold yield_row, with_rownumbers, bind, gets, modify, lift, ret.
    cbv beta iota.
    match goal with
    | |- context [if ?b then _ else _] => destruct b
    end; [discriminate|].
    match goal with
    | |- context [_map_to_python_types ?r ?c] =>
        pose proof (T r c) as Tm; destruct (_map_to_python_types r c)
    end; cbn [fst]; try discriminate. contradiction. }
  destruct (yield_row with_rownumbers row h) as [[o| |] h1]; cbn [fst] in *;
    try discriminate; [|contradiction].
  specialize (IH h1).
  destruct (yield_rows with_rownumbers l h1) as [[os| |] h2]; cbn [fst] in *;
    try discriminate. contradiction.
Qed.

Lemma yield_fetched_total (fuel : nat) :
  (forall row cols, _map_to_python_types row cols <> Diverge) ->
  forall h : heap,
  length (pending (net h)) < fuel ->
  fst (yield_fetched with_rownumbers fuel h) <> Diverge.
Proof.
  intro T. induction fuel as [|fuel IH]; intros h B; [lia|].
  cbn [yield_fetched]. unfold bind, is_finished, gets.
  destruct (_finished (query h)); [discriminate|].
  pose proof (fetch_total h) as Tf.
  destruct (fetch h) as [[more| |] h1] eqn:F; cbn [fst] in *;
    try discriminate; [|contradiction].
  destruct more as [l|]; [|discriminate].
  pose proof (yield_rows_total l T h1) as Ty.
  destruct (yield_rows with_rownumbers l h1) as [[os| |] h2] eqn:Y;
    cbn [fst] in *; try discriminate; [|contradiction].
  destruct (yield_rows_counts _ _ _ _ Y) as (_ & _ & _ & N & Q).
  assert (R : fst (yield_fetched with_rownumbers fuel h2) <> Diverge).
  { destruct (fetch_progress _ _ _ F) as [Fin|Pg].
    - rewrite yield_fetched_finished by congruence. discriminate.
    - apply IH. rewrite N. lia. }
  destruct (yield_fetched with_rownumbers fuel h2) as [[rest| |] h3];
    cbn [fst] in *; try discriminate. contradiction.
Qed.

(** Iterating a result ends, with its rows or with an exception. *)
Lemma iter_total (h : heap) :
  (forall row cols, _map_to_python_types row cols <> Diverge) ->
  fst (__iter__ with_rownumbers h) <> Diverge.
Proof.
  intro T. unfold __iter__, bind, gets.
  destruct (_rows (result h)) as [l|]; [|discriminate].
  pose proof (yield_rows_total l T h) as Ty.
  destruct (yield_rows with_rownumbers l h) as [[os| |] h1];
    cbn [fst] in *; try discriminate; [|contradiction].
  unfold modify. cbv beta iota.
  match goal with
  | |- context [yield_fetched with_rownumbers ?f ?h2] =>
      assert (R : fst (yield_fetched with_rownumbers f h2) <> Diverge)
        by (apply yield_fetched_total; [exact T|unfold steps; cbn; lia]);
      destruct (yield_fetched with_rownumbers f h2) as [[rest| |] h3]
  end; cbn [fst] in *; try discriminate. contradiction.
Qed.

End Termination.

(** * Further properties of the request layer *)

(** ** [process]: what is rejected, and when *)

(** What [process] does with a response it accepts: the status it
  builds, or the [KeyError] of the first key the body lacks, and the
  request object it leaves. *)
Lemma process_accepted (r : http_response) (response : response_json)
  (h : heap) :
  ok r = true ->
  json_body r = Some response ->
  j_error response = None ->
  (header_mem (headers r) constants.HEADER_SET_SESSION = true ->
   exists kvs,
     get_session_property_values (headers r) constants.HEADER_SET_SESSION
     = Ok kvs) ->
  fst (process (Some r) h)
  = (let? i := field_item "id" (j_id response) in
     let? s := field_item "stats" (j_stats response) in
     let? u := field_item "infoUri" (j_infoUri response) in
     Ok {| id := i;
           stats := s;
           warnings := field_get_default (j_warnings response) [];
           info_uri := u;
           next_uri := field_get (j_nextUri response);
           rows := field_get_default (j_data response) [];
           columns := field_get (j_columns response) |}) /\
  _properties (_client_session (request (snd (process (Some r) h))))
  = fold_left (fun d kv => dict_set d (fst kv) (snd kv)) (assigned r)
      (fold_left dict_pop (cleared r)
         (_properties (_client_session (request h)))) /\
  _next_uri (request (snd (process (Some r) h)))
  = field_get (j_nextUri response) /\
  http_session_headers (request (snd (process (Some r) h)))
  = match header_get (headers r) constants.HEADER_ADDED_PREPARE with
    | Some v => ci_set (http_session_headers (request h))
                  constants.HEADER_PREPARED_STATEMENT (Some v)
    | None => http_session_headers (request h)
    end.
Proof.
  intros K B E W.
  unfold process. rewrite K, B, E. cbn [negb].
  unfold assigned, cleared, header_mem in *.
  unfold get_session_property_values, get_header_values in *.
  unfold set_properties, bind, ret, raise, lift, modify, gets.
  destruct (header_get (headers r) constants.HEADER_CLEAR_SESSION);
    destruct (header_get (headers r) constants.HEADER_SET_SESSION) as [v|];
    cbn [res_bind] in *;
    try (destruct (W eq_refl) as (kvs & ->));
    destruct (header_get (headers r) constants.HEADER_ADDED_PREPARE);
    destruct (j_id response), (j_stats response), (j_infoUri response);
    cbn; auto.
Qed.

(** X1.  A response with a 4xx or 5xx status is refused before its
  body or its headers are read: [process] raises [Http503Error] for a
  503 and [HttpError] with the status and the content for any other,
  and the heap is left as it was, whatever session headers and body
  the response carries. *)
Theorem http_error_status_changes_nothing (r : http_response) (h : heap) :
  (400 <= status_code r < 600)%Z ->
  process (Some r) h
  = (Raise (if (status_code r =? 503)%Z
            then Http503Error "error 503: service unavailable"
            else HttpError (status_code r) (content r)), h).
Proof.
  intros [L U]. unfold process, ok.
  apply Z.leb_le in L. apply Z.ltb_lt in U. rewrite L, U.
  reflexivity.
Qed.

Lemma http_error_status_changes_nothing_witness :
  let r := Sample.answer 500 [("X-Presto-Set-Session", "a=1")]
             (Some (Sample.page (Val "/v1/statement/q1/1") Null Null)) in
  let h := Sample.client 3 [] in
  process (Some r) h = (Raise (HttpError 500 ""), h).
Proof.
  intros r h.
  apply (http_error_status_changes_nothing r h). cbn. lia.
Defined.

(** X2.  [process] reads [id], [stats] and [infoUri] of the body last.
  When an accepted response has [id] and [stats] but no [infoUri], the
  call raises [KeyError('infoUri')], and by then the request object has
  taken the response in: the session properties are those after the
  Clear-Session and Set-Session headers, and [_next_uri] is the
  [nextUri] of the body. *)
Theorem missing_info_uri_raises_after_update (r : http_response)
  (response : response_json) (h : heap) :
  ok r = true ->
  json_body r = Some response ->
  j_error response = None ->
  set_session_parses r = true ->
  j_id response <> Absent ->
  j_stats response <> Absent ->
  j_infoUri response = Absent ->
  fst (process (Some r) h) = Raise (KeyError "infoUri") /\
  _next_uri (request (snd (process (Some r) h)))
  = field_get (j_nextUri response) /\
  _properties (_client_session (request (snd (process (Some r) h))))
  = fold_left (fun d kv => dict_set d (fst kv) (snd kv)) (assigned r)
      (fold_left dict_pop (cleared r)
         (_properties (_client_session (request h)))).
Proof.
  intros K B E W I S U.
  destruct (process_accepted r response h K B E) as (F & Pr & N & _).
  { unfold set_session_parses, header_mem in *.
    destruct (header_get (headers r) constants.HEADER_SET_SESSION);
      [|discriminate].
    destruct (get_session_property_values _ _) as [kvs| |];
      try discriminate. intros _. now exists kvs. }
  split; [|split]; auto.
  rewrite F, U.
  destruct (j_id response); [congruence| |];
    (destruct (j_stats response); [congruence| |]); reflexivity.
Qed.

Lemma missing_info_uri_raises_after_update_witness :
  let response := {| j_error := None; j_id := Val "q1";
                     j_infoUri := Absent;
                     j_nextUri := Val "/v1/statement/q1/1";
                     j_stats := Val [("state", JStr "RUNNING")];
                     j_warnings := Absent; j_data := Null;
                     j_columns := Absent |} in
  let r := Sample.answer 200 [("X-Presto-Set-Session", "a=1")]
             (Some response) in
  let h := Sample.client 3 [] in
  fst (process (Some r) h) = Raise (KeyError "infoUri") /\
  _next_uri (request (snd (process (Some r) h)))
  = Some "/v1/statement/q1/1" /\
  _properties (_client_session (request (snd (process (Some r) h))))
  = [("a", "1")].
Proof.
  intros response r h.
  apply (missing_info_uri_raises_after_update r response h);
    try reflexivity; cbn; discriminate.
Defined.

Lemma session_pairs_malformed (kvs : list string) (kv : string) :
  In kv kvs ->
  Py.partition "="%char kv = None ->
  session_pairs kvs = Raise (ValueError "not enough values to unpack").
Proof.
  induction kvs as [|x kvs IH]; cbn [In session_pairs]; [tauto|].
  intros [->|I] N.
  - unfold Py.split1. rewrite N. reflexivity.
  - unfold Py.split1. destruct (Py.partition "=" x) as [[a b]|]; auto.
    rewrite (IH I N). reflexivity.
Qed.

(** X3.  The Clear-Session header is applied before the Set-Session
  header is read.  When one entry of Set-Session has no [=], [process]
  raises the [ValueError] of the failed unpacking; none of the pairs of
  the header is stored, the names of Clear-Session are already gone
  from the session properties, and [_next_uri] and the headers of the
  HTTP session keep their former values. *)
Theorem malformed_set_session_after_clear (r : http_response)
  (response : response_json) (h : heap) (v entry : string) :
  ok r = true ->
  json_body r = Some response ->
  j_error response = None ->
  header_get (headers r) constants.HEADER_SET_SESSION = Some v ->
  In entry (Py.split ","%char v) ->
  Py.partition "="%char (Py.strip entry) = None ->
  fst (process (Some r) h)
  = Raise (ValueError "not enough values to unpack") /\
  _properties (_client_session (request (snd (process (Some r) h))))
  = fold_left dict_pop (cleared r)
      (_properties (_client_session (request h))) /\
  _next_uri (request (snd (process (Some r) h))) = _next_uri (request h) /\
  http_session_headers (request (snd (process (Some r) h)))
  = http_session_headers (request h).
Proof.
  intros K B E S I N.
  assert (Q : session_pairs (map Py.strip (Py.split ","%char v))
              = Raise (ValueError "not enough values to unpack")).
  { apply session_pairs_malformed with (kv := Py.strip entry); auto.
    now apply in_map. }
  unfold process. rewrite K, B, E. cbn [negb].
  unfold cleared, header_mem, get_session_property_values, get_header_values.
  rewrite S. cbn [res_bind]. rewrite Q.
  unfold set_properties, bind, ret, raise, lift, modify, gets.
  destruct (header_get (headers r) constants.HEADER_CLEAR_SESSION);
    cbn; auto.
Qed.

Lemma malformed_set_session_after_clear_witness :
  let r := Sample.answer 200
             [("X-Presto-Clear-Session", "a");
              ("X-Presto-Set-Session", "b=2, c")]
             (Some (Sample.page (Val "/v1/statement/q1/1") Null Null)) in
  let h := on_request (fun q =>
             with_client_session
               (with_properties [("a", "1")] (_client_session q)) q)
             (Sample.client 3 []) in
  fst (process (Some r) h)
  = Raise (ValueError "not enough values to unpack") /\
  _properties (_client_session (request (snd (process (Some r) h)))) = [] /\
  _next_uri (request (snd (process (Some r) h))) = None /\
  http_session_headers (request (snd (process (Some r) h))) = [].
Proof.
  intros r h.
  apply (malformed_set_session_after_clear r
           (Sample.page (Val "/v1/statement/q1/1") Null Null) h
           "b=2, c" " c"); try reflexivity.
  cbn. auto.
Defined.

Lemma check_custom_headers_ext (hs hs' : list (string * option string))
  (keys : list string) :
  (forall k, dict_mem hs' k = dict_mem hs k) ->
  check_custom_headers hs' keys = check_custom_headers hs keys.
Proof.
  intro E. induction keys as [|k keys IH]; cbn [check_custom_headers]; auto.
  rewrite E, IH. reflexivity.
Qed.

(** What [process] leaves alone in the request object, whatever the
  response. *)
Lemma process_request_frame (a : option http_response) (h : heap) :
  let rq := request h in
  let rq' := request (snd (process a h)) in
  prepared_statements rq' = prepared_statements rq /\
  catalog (_client_session rq') = catalog (_client_session rq) /\
  schema (_client_session rq') = schema (_client_session rq) /\
  source (_client_session rq') = source (_client_session rq) /\
  user (_client_session rq') = user (_client_session rq) /\
  _headers (_client_session rq') = _headers (_client_session rq) /\
  transaction_id (_client_session rq')
  = transaction_id (_client_session rq).
Proof.
  cbv zeta.
  unfold process, raise_result, set_properties, bind, ret, raise, lift,
    modify, gets, diverge.
  repeat break_match; inject_pairs; cbn; auto 10.
Qed.

(** Two requests that differ in the session properties only build the
  same headers, the session header apart. *)
Lemma http_headers_other_properties (r r' : PrestoRequest)
  (hs : list (string * option string)) :
  prepared_statements r' = prepared_statements r ->
  catalog (_client_session r') = catalog (_client_session r) ->
  schema (_client_session r') = schema (_client_session r) ->
  source (_client_session r') = source (_client_session r) ->
  user (_client_session r') = user (_client_session r) ->
  _headers (_client_session r') = _headers (_client_session r) ->
  transaction_id (_client_session r') = transaction_id (_client_session r) ->
  http_headers r = Ok hs ->
  exists hs',
    http_headers r' = Ok hs' /\
    forall k, k <> constants.HEADER_SESSION ->
              dict_get hs' k = dict_get hs k.
Proof.
  intros Ps Ca Sc So Us He Tr.
  rewrite !http_headers_unfold. cbv zeta.
  rewrite He, Tr.
  rewrite (check_custom_headers_ext (headers_before_merge r)
             (headers_before_merge r')).
  2:{ intro k. rewrite !headers_before_merge_mem. unfold set_before_merge.
      rewrite Ps. reflexivity. }
  destruct (check_custom_headers _ _) as [[]| |]; cbn [res_bind];
    try discriminate.
  intro E. injection E as <-.
  eexists. split; [reflexivity|].
  intros k N.
  rewrite !dict_get_set. destruct (String.eqb _ k); auto.
  unfold dict_update. rewrite !dict_get_fold_set.
  destruct (dict_get (rev _) k); auto.
  unfold headers_before_merge. rewrite !dict_get_set.
  destruct (String.eqb constants.HEADER_SESSION k) eqn:Q.
  { apply String.eqb_eq in Q. congruence. }
  rewrite Ps, Ca, Sc, So, Us. reflexivity.
Qed.

(** Two dictionaries with the same names in the same order, and the
  same values but under [X-Presto-Session]. *)
Lemma dict_set_alike (d d' : list (string * option string)) (k : string)
  (v v' : option string) :
  Forall2 (fun x y => fst x = fst y /\
                      (fst x <> constants.HEADER_SESSION -> snd x = snd y))
    d d' ->
  (k <> constants.HEADER_SESSION -> v = v') ->
  Forall2 (fun x y => fst x = fst y /\
                      (fst x <> constants.HEADER_SESSION -> snd x = snd y))
    (dict_set d k v) (dict_set d' k v').
Proof.
  intros F V. induction F as [|[k1 v1] [k2 v2] d d' [K X] F IH];
    cbn [dict_set].
  - constructor; [|constructor]. cbn [fst snd]. auto.
  - cbn [fst snd] in K, X. subst k2.
    destruct (String.eqb k1 k) eqn:E.
    + apply String.eqb_eq in E. subst k1.
      constructor; [|exact F]. cbn [fst snd]. auto.
    + constructor; [|exact IH]. cbn [fst snd]. auto.
Qed.

Lemma dict_update_alike (e d d' : list (string * option string)) :
  Forall2 (fun x y => fst x = fst y /\
                      (fst x <> constants.HEADER_SESSION -> snd x = snd y))
    d d' ->
  Forall2 (fun x y => fst x = fst y /\
                      (fst x <> constants.HEADER_SESSION -> snd x = snd y))
    (dict_update d e) (dict_update d' e).
Proof.
  unfold dict_update. revert d d'.
  induction e as [|[k v] e IH]; intros d d' F; [exact F|].
  cbn [fold_left fst snd]. apply IH. now apply dict_set_alike.
Qed.

Lemma ci_get_rev_alike (d d' : list (string * option string)) (k : string) :
  Forall2 (fun x y => fst x = fst y /\
                      (fst x <> constants.HEADER_SESSION -> snd x = snd y))
    d d' ->
  ci_eqb constants.HEADER_SESSION k = false ->
  ci_get (rev d') k = ci_get (rev d) k.
Proof.
  intros F N. induction F as [|[k1 v1] [k2 v2] d d' [K X] F IH];
    [reflexivity|].
  cbn [fst snd] in K, X. subst k2.
  cbn [rev]. rewrite !ci_get_app, IH. cbn [ci_get].
  destruct (ci_get (rev d) k); [reflexivity|].
  destruct (ci_eqb k1 k) eqn:E; [|reflexivity].
  rewrite X; [reflexivity|]. intros ->. congruence.
Qed.

(** Two requests that differ in the session properties only build
  headers that are found alike, without the letter case of their
  names, the session header apart. *)
Lemma http_headers_alike (r r' : PrestoRequest)
  (hs hs' : list (string * option string)) (k : string) :
  prepared_statements r' = prepared_statements r ->
  catalog (_client_session r') = catalog (_client_session r) ->
  schema (_client_session r') = schema (_client_session r) ->
  source (_client_session r') = source (_client_session r) ->
  user (_client_session r') = user (_client_session r) ->
  _headers (_client_session r') = _headers (_client_session r) ->
  transaction_id (_client_session r') = transaction_id (_client_session r) ->
  http_headers r = Ok hs ->
  http_headers r' = Ok hs' ->
  ci_eqb constants.HEADER_SESSION k = false ->
  ci_get (rev hs') k = ci_get (rev hs) k.
Proof.
  intros Ps Ca Sc So Us He Tr.
  rewrite !http_headers_unfold. cbv zeta.
  rewrite He, Tr.
  destruct (check_custom_headers (headers_before_merge r) _) as [[]| |];
    cbn [res_bind]; try discriminate.
  destruct (check_custom_headers (headers_before_merge r') _) as [[]| |];
    cbn [res_bind]; try discriminate.
  intros E E'. injection E as <-. injection E' as <-.
  apply ci_get_rev_alike.
  apply dict_set_alike; [|reflexivity].
  apply dict_update_alike.
  unfold headers_before_merge. rewrite Ps, Ca, Sc, So, Us.
  apply dict_set_alike; [|congruence].
  destruct (0 <? length (prepared_statements r));
    repeat (apply dict_set_alike; [|reflexivity]); constructor.
Qed.

(** Setting a name leaves what is found under the other names. *)
Lemma ci_get_rev_set_other {V : Type} (d : list (string * V))
  (name k : string) (v : V) :
  ci_eqb name k = false ->
  ci_get (rev (ci_set d name v)) k = ci_get (rev d) k.
Proof.
  intro N. induction d as [|[k' v'] d IH]; cbn [ci_set rev app ci_get].
  - now rewrite N.
  - destruct (ci_eqb k' name) eqn:E; cbn [rev]; rewrite !ci_get_app.
    + cbn [ci_get]. rewrite N.
      destruct (ci_eqb k' k) eqn:E1; [|reflexivity].
      rewrite ci_eqb_sym in E.
      now rewrite (ci_eqb_trans _ _ _ E E1) in N.
    + now rewrite IH.
Qed.

(** In a dictionary that compares names without their letter case, a
  name is found from either end. *)
Lemma ci_get_rev_distinct {V : Type} (d : list (string * V)) (k : string) :
  distinct_names d -> ci_get (rev d) k = ci_get d k.
Proof.
  unfold distinct_names. intro N.
  destruct (ci_get d k) as [v|] eqn:G.
  - destruct (ci_get (rev d) k) as [v'|] eqn:C.
    + apply ci_get_in in G as (k1 & I1 & E1).
      apply ci_get_in in C as (k2 & I2 & E2).
      apply in_rev in I2. unfold ci_eqb in E1, E2.
      apply String.eqb_eq in E1, E2.
      assert (X : (k2, v') = (k1, v)).
      { apply (nodup_map_in (fun kv => Py.lower (fst kv)) d); auto.
        cbn [fst]. congruence. }
      now injection X as _ ->.
    + exfalso. apply ci_get_none in C. apply C.
      rewrite map_rev. apply in_rev. rewrite rev_involutive.
      apply ci_get_in in G as (k1 & I1 & E1).
      unfold ci_eqb in E1. apply String.eqb_eq in E1. rewrite <- E1.
      exact (in_map (fun kv => Py.lower (fst kv)) d (k1, v) I1).
  - apply ci_get_none. apply ci_get_none in G.
    intro I. apply G. rewrite map_rev in I. now apply in_rev in I.
Qed.

(** What [process] does to the headers of the HTTP session. *)
Lemma process_session_headers (a : option http_response) (h : heap) :
  http_session_headers (request (snd (process a h)))
  = http_session_headers (request h) \/
  exists v,
    http_session_headers (request (snd (process a h)))
    = ci_set (http_session_headers (request h))
        constants.HEADER_PREPARED_STATEMENT (Some v).
Proof.
  unfold process, raise_result, set_properties, bind, ret, raise, lift,
    modify, gets, diverge.
  repeat break_match; inject_pairs; cbn; eauto.
Qed.

Lemma process_added_prepare (r : http_response) (h h1 : heap)
  (status : PrestoStatus) (v : string) :
  process (Some r) h = (Ok status, h1) ->
  header_get (headers r) constants.HEADER_ADDED_PREPARE = Some v ->
  http_session_headers (request h1)
  = ci_set (http_session_headers (request h))
      constants.HEADER_PREPARED_STATEMENT (Some v).
Proof.
  unfold process, raise_result, set_properties, bind, ret, raise, lift,
    modify, gets, diverge.
  intros E A. rewrite A in E.
  repeat break_match; inject_pairs; try discriminate; reflexivity.
Qed.

(** X4.  A response changes two headers of the requests that follow,
  and no other.  Whatever [process] is given and however it ends, the
  headers [http_headers] builds afterwards are built as before for
  every name but [X-Presto-Session]: the transaction id is never
  updated from a response, and [prepared_statements], from which the
  call's [X-Presto-Prepared-Statement] is built, is not changed.  The
  headers of the HTTP session, which the transport sends with every
  request, are as before for every name but
  [X-Presto-Prepared-Statement], names being compared without their
  letter case.  So are the headers that travel with a call that passes
  none, a DELETE; and for every name but these two, so are the headers
  that travel with a call that passes the headers built.  A response that is accepted and carries
  [X-Presto-Added-Prepare] leaves the value of this header in the HTTP
  session as [X-Presto-Prepared-Statement], and it travels with the
  requests that follow when the call's headers have none of this
  name. *)
Theorem response_changes_session_header_only (a : option http_response)
  (h : heap) (hs : list (string * option string)) :
  http_headers (request h) = Ok hs ->
  let r := request h in
  let r' := request (snd (process a h)) in
  prepared_statements r' = prepared_statements r /\
  transaction_id (_client_session r') = transaction_id (_client_session r) /\
  (forall k, ci_eqb constants.HEADER_PREPARED_STATEMENT k = false ->
     ci_get (http_session_headers r') k = ci_get (http_session_headers r) k /\
     ci_get (merge_setting None (http_session_headers r')) k
     = ci_get (merge_setting None (http_session_headers r)) k) /\
  exists hs',
    http_headers r' = Ok hs' /\
    (forall k, k <> constants.HEADER_SESSION ->
       dict_get hs' k = dict_get hs k) /\
    (forall k, ci_eqb constants.HEADER_SESSION k = false ->
       ci_eqb constants.HEADER_PREPARED_STATEMENT k = false ->
       ci_get (merge_setting (Some hs') (http_session_headers r')) k
       = ci_get (merge_setting (Some hs) (http_session_headers r)) k) /\
    (forall resp status v,
       a = Some resp ->
       fst (process a h) = Ok status ->
       header_get (headers resp) constants.HEADER_ADDED_PREPARE = Some v ->
       ci_get (http_session_headers r') constants.HEADER_PREPARED_STATEMENT
       = Some (Some v) /\
       (distinct_names (http_session_headers r) ->
        ci_get (rev hs') constants.HEADER_PREPARED_STATEMENT = None ->
        ci_get (merge_setting (Some hs') (http_session_headers r'))
          constants.HEADER_PREPARED_STATEMENT = Some v)).
Proof.
  intros E r r'.
  destruct (process_request_frame a h) as (Ps & Ca & Sc & So & Us & He & Tr).
  fold r r' in Ps, Ca, Sc, So, Us, He, Tr.
  split; [exact Ps|]. split; [exact Tr|]. split.
  { intros k N. unfold r, r'.
    change (merge_setting None) with (merge_setting (Some [])).
    rewrite !merge_setting_get. cbn [rev ci_get].
    destruct (process_session_headers a h) as [->|(v & ->)]; [now split|].
    now rewrite ci_get_set, N, ci_get_rev_set_other. }
  destruct (http_headers_other_properties r r' hs Ps Ca Sc So Us He Tr E)
    as (hs' & E' & Same).
  exists hs'. split; [exact E'|]. split; [exact Same|]. split.
  - intros k N1 N2. rewrite !merge_setting_get.
    rewrite (http_headers_alike r r' hs hs' k Ps Ca Sc So Us He Tr E E' N1).
    destruct (ci_get (rev hs) k); [reflexivity|].
    unfold r, r'.
    destruct (process_session_headers a h) as [->|(v & ->)]; [reflexivity|].
    now rewrite ci_get_rev_set_other.
  - intros resp status v -> Pr A.
    destruct (process (Some resp) h) as [res1 h1] eqn:Q. cbn [fst] in Pr.
    subst res1.
    assert (S1 : http_session_headers r'
                 = ci_set (http_session_headers r)
                     constants.HEADER_PREPARED_STATEMENT (Some v)).
    { unfold r', r. cbn [snd].
      exact (process_added_prepare resp h h1 status v Q A). }
    split.
    + now rewrite S1, ci_get_set, ci_eqb_refl.
    + intros D N. rewrite merge_setting_get, N.
      rewrite ci_get_rev_distinct.
      * now rewrite S1, ci_get_set, ci_eqb_refl.
      * rewrite S1. now apply ci_set_nodup.
Qed.

Lemma response_changes_session_header_only_witness :
  let resp := Sample.answer 200
                [("X-Presto-Added-Prepare", "q=SELECT%201");
                 ("X-Presto-Set-Session", "a=1")]
                (Some (Sample.page (Val "/v1/statement/q1/1") Null Null)) in
  let h := Sample.client 3 [] in
  let r' := request (snd (process (Some resp) h)) in
  prepared_statements r' = [] /\
  transaction_id (_client_session r') = Some "NONE" /\
  ci_get (http_session_headers r') "x-presto-prepared-statement"
  = Some (Some "q=SELECT%201") /\
  ci_get (sent_headers r' (get_request "/v1/statement/q1/1"
                             [("X-Presto-Catalog", Some "hive");
                              ("X-Presto-Schema", Some "default");
                              ("X-Presto-Source", Some "presto-python-client");
                              ("X-Presto-User", Some "test");
                              ("X-Presto-Session", Some "a=1");
                              ("X-Presto-Transaction-Id", Some "NONE")]))
    "X-Presto-Prepared-Statement" = Some "q=SELECT%201".
Proof.
  intros resp h r'.
  destruct (response_changes_session_header_only (Some resp) h
              [("X-Presto-Catalog", Some "hive");
               ("X-Presto-Schema", Some "default");
               ("X-Presto-Source", Some "presto-python-client");
               ("X-Presto-User", Some "test");
               ("X-Presto-Session", Some "");
               ("X-Presto-Transaction-Id", Some "NONE")] eq_refl)
    as (Ps & Tr & _ & hs' & E' & _ & _ & Added).
  split; [exact Ps|]. split; [exact Tr|].
  assert (X : hs' = [("X-Presto-Catalog", Some "hive");
                     ("X-Presto-Schema", Some "default");
                     ("X-Presto-Source", Some "presto-python-client");
                     ("X-Presto-User", Some "test");
                     ("X-Presto-Session", Some "a=1");
                     ("X-Presto-Transaction-Id", Some "NONE")]).
  { vm_compute in E'. now injection E' as <-. }
  destruct (Added resp
              {| id := Some "q1";
                 stats := Some [("state", JStr "RUNNING")];
                 warnings := Some [];
                 info_uri := Some "/ui/q1";
                 next_uri := Some "/v1/statement/q1/1";
                 rows := None;
                 columns := None |} "q=SELECT%201" eq_refl eq_refl eq_refl)
    as (In_session & Travels).
  split; [exact In_session|].
  unfold sent_headers. cbn [get_request req_headers]. rewrite <- X.
  apply Travels.
  - vm_compute. repeat constructor; cbn; intuition discriminate.
  - rewrite X. reflexivity.
Defined.

(** ** Reading comma-separated headers *)

Lemma bare_no_space (c : ascii) : bare c = true -> solid c = true.
Proof.
  unfold bare, solid. intro E. apply andb_prop in E as (A & E).
  apply negb_true_iff in E. apply orb_false_elim in E as (E & _).
  now rewrite A, E.
Qed.

Lemma bare_no_comma (c : ascii) :
  bare c = true -> negb (Ascii.eqb c ","%char) = true.
Proof.
  unfold bare. intro E. apply andb_prop in E as (_ & E).
  apply negb_true_iff in E. apply orb_false_elim in E as (_ & E).
  now rewrite E.
Qed.

Lemma plain_bare (c : ascii) : plain c = true -> bare c = true.
Proof.
  unfold plain, bare. intro E. apply andb_prop in E as (A & E).
  apply negb_true_iff in E. apply orb_false_elim in E as (E & _).
  now rewrite A, E.
Qed.

Lemma split_app_separator (sep : ascii) (x rest : string) :
  Py.all (fun c => negb (Ascii.eqb c sep)) x = true ->
  Py.split sep (x ++ String sep rest) = x :: Py.split sep rest.
Proof.
  induction x as [|c x IH]; cbn [append Py.split Py.all].
  - intros _. now rewrite Ascii.eqb_refl.
  - intro A. apply andb_prop in A as (Pc & A).
    apply negb_true_iff in Pc. now rewrite Pc, (IH A).
Qed.

Lemma split_join (l : list string) :
  l <> [] ->
  Forall (fun s => Py.all (fun c => negb (Ascii.eqb c ","%char)) s = true) l ->
  Py.split ","%char (Py.join "," l) = l.
Proof.
  unfold Py.join.
  induction l as [|x l IH]; [congruence|].
  intros _ F. inversion F as [|? ? Fx Fl]; subst.
  destruct l as [|y l].
  - cbn [String.concat]. now apply split_no_separator.
  - change (String.concat "," (x :: y :: l))
      with (x ++ String ","%char (String.concat "," (y :: l)))%string.
    rewrite (split_app_separator _ _ _ Fx).
    rewrite IH; auto. discriminate.
Qed.

Lemma map_strip_solid (l : list string) :
  Forall (fun s => Py.all solid s = true) l -> map Py.strip l = l.
Proof.
  induction 1 as [|x l Fx _ IH]; [reflexivity|].
  cbn [map]. now rewrite IH, (strip_no_space x Fx).
Qed.

Lemma map_strip_bare (l : list string) :
  Forall (fun s => Py.all bare s = true) l -> map Py.strip l = l.
Proof.
  intro F. apply map_strip_solid.
  eapply Forall_impl; [|exact F]. cbv beta.
  intros s A. exact (all_weaken _ _ s bare_no_space A).
Qed.

Lemma get_header_values_join (hs : list (string * string))
  (header : string) (l : list string) :
  l <> [] ->
  Forall (fun s => comma_free s = true) l ->
  header_get hs header = Some (Py.join "," l) ->
  get_header_values hs header = Ok (map Py.strip l).
Proof.
  intros N F H. unfold get_header_values. rewrite H.
  now rewrite split_join.
Qed.

(** X5.  [get_header_values] reads back a comma-joined list: when the
  value of the header is the join by commas of one or more texts that
  hold no comma, the call returns these texts in order, each without
  the white space around it; a text of ASCII characters that holds no
  white space is returned as it is. *)
Theorem header_values_read_back (hs : list (string * string))
  (header : string) (l : list string) :
  l <> [] ->
  Forall (fun s => comma_free s = true) l ->
  header_get hs header = Some (Py.join "," l) ->
  get_header_values hs header = Ok (map Py.strip l) /\
  (Forall (fun s => Py.all solid s = true) l -> map Py.strip l = l).
Proof.
  intros N F H. split.
  - exact (get_header_values_join hs header l N F H).
  - apply map_strip_solid.
Qed.

Lemma header_values_read_back_witness :
  get_header_values
    [("X-Presto-Clear-Session", "query_max_run_time , a.b,c")]
    "x-presto-clear-session"
  = Ok ["query_max_run_time"; "a.b"; "c"].
Proof.
  apply (header_values_read_back _ _ ["query_max_run_time "; " a.b"; "c"]).
  - discriminate.
  - repeat constructor.
  - reflexivity.
Defined.

Lemma entry_bare (k v : string) :
  plain_name k = true -> Py.all bare v = true ->
  Py.all bare (k ++ "=" ++ v) = true.
Proof.
  intros Pk Pv. rewrite !all_append.
  rewrite (all_weaken _ _ k plain_bare Pk), Pv. reflexivity.
Qed.

Lemma session_pairs_entries (l : list (string * string)) :
  Forall (fun kv => plain_name (fst kv) = true /\ Py.all bare (snd kv) = true)
    l ->
  session_pairs (map (fun kv => (fst kv ++ "=" ++ snd kv)%string) l)
  = Ok (map (fun kv => (fst kv, Urllib.unquote (snd kv))) l).
Proof.
  induction 1 as [|[k v] l [Pk Pv] _ IH]; [reflexivity|].
  cbn [map fst snd session_pairs] in *. unfold Py.split1.
  change (k ++ "=" ++ v)%string with (k ++ String "="%char v)%string.
  rewrite (partition_first "="%char k v)
    by exact (all_weaken _ _ k plain_no_equals Pk).
  rewrite IH. cbn [res_bind].
  rewrite (strip_no_space k (all_weaken _ _ k plain_no_space Pk)).
  rewrite (strip_no_space v (all_weaken _ _ v bare_no_space Pv)).
  reflexivity.
Qed.

Lemma get_session_property_values_join (hs : list (string * string))
  (header : string) (l : list (string * string)) :
  l <> [] ->
  Forall (fun kv => plain_name (fst kv) = true /\ Py.all bare (snd kv) = true)
    l ->
  header_get hs header
  = Some (Py.join "," (map (fun kv => (fst kv ++ "=" ++ snd kv)%string) l)) ->
  get_session_property_values hs header
  = Ok (map (fun kv => (fst kv, Urllib.unquote (snd kv))) l).
Proof.
  intros N F H. unfold get_session_property_values.
  assert (B : Forall (fun s => Py.all bare s = true)
                (map (fun kv => (fst kv ++ "=" ++ snd kv)%string) l)).
  { apply Forall_map. eapply Forall_impl; [|exact F]. cbv beta.
    intros [k v] [Pk Pv]. now apply entry_bare. }
  rewrite (get_header_values_join hs header
             (map (fun kv => (fst kv ++ "=" ++ snd kv)%string) l)); auto.
  - rewrite (map_strip_bare _ B). cbn [res_bind].
    now apply session_pairs_entries.
  - destruct l; [congruence|discriminate].
  - eapply Forall_impl; [|exact B]. cbv beta.
    intros s A. exact (all_weaken _ _ s bare_no_comma A).
Qed.

(** X6.  The pairs of a Set-Session header are split at the first [=]
  only.  For entries [name=value] joined by commas, whose names are
  plain (ASCII characters, no white space, comma or equals sign) and
  whose values are ASCII characters other than white space and the
  comma, [get_session_property_values] returns the pairs of the names
  with the unquoted values, in order: a value may hold further [=]
  signs.  The escapes of a value are decoded as UTF-8, and what is no
  UTF-8 is replaced by U+FFFD. *)
Theorem session_pairs_split_at_first_equals (hs : list (string * string))
  (header : string) (l : list (string * string)) :
  l <> [] ->
  Forall (fun kv => plain_name (fst kv) = true /\ Py.all bare (snd kv) = true)
    l ->
  header_get hs header
  = Some (Py.join "," (map (fun kv => (fst kv ++ "=" ++ snd kv)%string) l)) ->
  get_session_property_values hs header
  = Ok (map (fun kv => (fst kv, Urllib.unquote (snd kv))) l).
Proof.
  exact (get_session_property_values_join hs header l).
Qed.

Lemma session_pairs_split_at_first_equals_witness :
  get_session_property_values
    [("X-Presto-Set-Session", "filter=a=b%20c,limit=10,tag=%FF")]
    "X-Presto-Set-Session"
  = Ok [("filter", "a=b c"); ("limit", "10"); ("tag", Urllib.replacement)].
Proof.
  apply (session_pairs_split_at_first_equals _ _
           [("filter", "a=b%20c"); ("limit", "10"); ("tag", "%FF")]).
  - discriminate.
  - repeat constructor.
  - reflexivity.
Defined.

(** X7.  What [http_headers] sends as [X-Presto-Session] is what
  [get_session_property_values] reads: when the names of the session
  properties are plain (ASCII characters, no white space, comma or
  equals sign) and the values are texts (well-formed UTF-8, whatever
  characters they hold), a header that carries the value of the session
  header built for a request is read back as the session properties,
  names and values, in order.  With no property the session header is
  the empty text, and reading it raises the [ValueError] of the failed
  unpacking. *)
Theorem session_header_read_back (r : PrestoRequest)
  (hs : list (string * option string)) :
  Forall (fun kv => plain_name (fst kv) = true /\
                    Urllib.well_formed (snd kv) = true)
    (_properties (_client_session r)) ->
  http_headers r = Ok hs ->
  exists v,
    dict_get hs constants.HEADER_SESSION = Some (Some v) /\
    forall (answered : list (string * string)) (header : string),
      header_get answered header = Some v ->
      get_session_property_values answered header
      = match _properties (_client_session r) with
        | [] => Raise (ValueError "not enough values to unpack")
        | _ => Ok (_properties (_client_session r))
        end.
Proof.
  intros F E. eexists. split; [exact (http_headers_session r hs E)|].
  intros answered header H.
  destruct (_properties (_client_session r)) as [|p props] eqn:Q.
  { unfold get_session_property_values, get_header_values.
    rewrite H. reflexivity. }
  set (l := map (fun kv => (fst kv, Urllib.quote (snd kv))) (p :: props)).
  assert (L : map (fun kv => (fst kv, Urllib.unquote (snd kv))) l
              = p :: props).
  { unfold l. rewrite map_map. cbn [fst snd].
    rewrite <- (map_id (p :: props)) at 2. apply map_ext_in.
    intros [k v] I. cbn [fst snd].
    rewrite Forall_forall in F. destruct (F _ I) as [_ W].
    now rewrite (unquote_quote v W). }
  rewrite <- L.
  apply get_session_property_values_join.
  - discriminate.
  - unfold l. apply Forall_map. eapply Forall_impl; [|exact F]. cbv beta.
    intros [k v] [Pk _]. cbn [fst snd] in *. split; [exact Pk|].
    exact (all_weaken _ _ _ plain_bare (quote_plain v)).
  - rewrite H. unfold l, session_entries. rewrite map_map. reflexivity.
Qed.

Lemma session_header_read_back_witness :
  let r := with_client_session
             (with_properties [("a", "hello, world"); ("b", "x=1")]
                (Sample.session []))
             (Sample.request_of [] 3) in
  exists v,
    dict_get [("X-Presto-Catalog", Some "hive");
              ("X-Presto-Schema", Some "default");
              ("X-Presto-Source", Some "presto-python-client");
              ("X-Presto-User", Some "test");
              ("X-Presto-Session", Some "a=hello%2C%20world,b=x%3D1");
              ("X-Presto-Transaction-Id", Some "NONE")]
      constants.HEADER_SESSION = Some (Some v) /\
    forall (answered : list (string * string)) (header : string),
      header_get answered header = Some v ->
      get_session_property_values answered header
      = Ok [("a", "hello, world"); ("b", "x=1")].
Proof.
  intro r.
  apply (session_header_read_back r).
  - repeat constructor.
  - reflexivity.
Defined.

(** ** The headers of a request *)

Lemma dict_get_map_some (l : list (string * string)) (k : string) :
  dict_get (map (fun kv => (fst kv, Some (snd kv))) l) k
  = option_map Some (dict_get l k).
Proof.
  induction l as [|[k' v'] l IH]; [reflexivity|].
  cbn [map dict_get fst snd]. destruct (String.eqb k' k); auto.
Qed.

(** A header the loop over the custom headers has let through is not
  among them when it was set before. *)
Lemma custom_headers_miss_reserved (r : PrestoRequest) (k : string) :
  check_custom_headers (headers_before_merge r)
    (dict_keys (_headers (_client_session r))) = Ok tt ->
  set_before_merge r k = true ->
  dict_get (rev (_headers (_client_session r))) k = None.
Proof.
  intros C S. apply dict_get_none. intro I.
  unfold dict_keys in I. rewrite map_rev in I. apply in_rev in I.
  apply (check_custom_headers_ok _ _ C) in I.
  rewrite headers_before_merge_mem in I. congruence.
Qed.

Lemma http_headers_lookup (r : PrestoRequest)
  (hs : list (string * option string)) (k : string) :
  http_headers r = Ok hs ->
  dict_get hs k
  = if String.eqb constants.HEADER_TRANSACTION k
    then Some (transaction_id (_client_session r))
    else match dict_get (rev (_headers (_client_session r))) k with
         | Some v => Some (Some v)
         | None => dict_get (headers_before_merge r) k
         end.
Proof.
  rewrite http_headers_unfold. cbv zeta.
  destruct (check_custom_headers _ _) as [[]| |] eqn:C; cbn [res_bind];
    try discriminate.
  intro E. injection E as <-.
  rewrite dict_get_set. destruct (String.eqb _ k); auto.
  unfold dict_update. rewrite dict_get_fold_set.
  rewrite <- map_rev, dict_get_map_some.
  destruct (dict_get (rev _) k); reflexivity.
Qed.

(** X8.  Whenever [http_headers] returns, the catalog, schema, source,
  user and session headers carry the values of the client session and
  the prepared-statement header the recorded statements: no custom
  header has replaced them.  The transaction header carries the
  transaction id of the session.  Every custom header of another name
  than the transaction header is there with its value. *)
Theorem built_headers_carry_session_values (r : PrestoRequest)
  (hs : list (string * option string)) :
  http_headers r = Ok hs ->
  let cs := _client_session r in
  dict_get hs constants.HEADER_CATALOG = Some (catalog cs) /\
  dict_get hs constants.HEADER_SCHEMA = Some (schema cs) /\
  dict_get hs constants.HEADER_SOURCE = Some (source cs) /\
  dict_get hs constants.HEADER_USER = Some (Some (user cs)) /\
  dict_get hs constants.HEADER_SESSION
  = Some (Some (Py.join "," (session_entries (_properties cs)))) /\
  (prepared_statements r <> [] ->
   dict_get hs constants.HEADER_PREPARED_STATEMENT
   = Some (Some (Py.join "," (prepared_statements r)))) /\
  dict_get hs constants.HEADER_TRANSACTION = Some (transaction_id cs) /\
  (forall k v,
     dict_get (rev (_headers cs)) k = Some v ->
     k <> constants.HEADER_TRANSACTION ->
     dict_get hs k = Some (Some v)).
Proof.
  intros E. cbv zeta.
  pose proof (http_headers_lookup r hs) as L.
  assert (C : check_custom_headers (headers_before_merge r)
                (dict_keys (_headers (_client_session r))) = Ok tt).
  { rewrite http_headers_unfold in E. cbv zeta in E.
    destruct (check_custom_headers _ _) as [[]| |]; cbn [res_bind] in E;
      try discriminate. reflexivity. }
  assert (R : forall k,
            String.eqb constants.HEADER_TRANSACTION k = false ->
            set_before_merge r k = true ->
            dict_get hs k = dict_get (headers_before_merge r) k).
  { intros k T S. rewrite (L k E), T.
    now rewrite (custom_headers_miss_reserved r k C S). }
  repeat split.
  - rewrite R by reflexivity. unfold headers_before_merge.
    destruct (0 <? length (prepared_statements r)); reflexivity.
  - rewrite R by reflexivity. unfold headers_before_merge.
    destruct (0 <? length (prepared_statements r)); reflexivity.
  - rewrite R by reflexivity. unfold headers_before_merge.
    destruct (0 <? length (prepared_statements r)); reflexivity.
  - rewrite R by reflexivity. unfold headers_before_merge.
    destruct (0 <? length (prepared_statements r)); reflexivity.
  - exact (http_headers_session r hs E).
  - intro N.
    assert (Q : (0 <? length (prepared_statements r)) = true).
    { destruct (prepared_statements r); [congruence|reflexivity]. }
    rewrite R; [|reflexivity|].
    + unfold headers_before_merge. rewrite Q. reflexivity.
    + unfold set_before_merge. rewrite Q. reflexivity.
  - rewrite (L _ E). now rewrite String.eqb_refl.
  - intros k v G N. rewrite (L k E), G.
    destruct (String.eqb constants.HEADER_TRANSACTION k) eqn:T; auto.
    apply String.eqb_eq in T. congruence.
Qed.

Lemma built_headers_carry_session_values_witness :
  let r := Sample.request_of [("X-Trace", "1")] 3 in
  let hs := [("X-Presto-Catalog", Some "hive");
             ("X-Presto-Schema", Some "default");
             ("X-Presto-Source", Some "presto-python-client");
             ("X-Presto-User", Some "test");
             ("X-Presto-Session", Some "");
             ("X-Trace", Some "1");
             ("X-Presto-Transaction-Id", Some "NONE")] in
  dict_get hs constants.HEADER_USER = Some (Some "test") /\
  dict_get hs "X-Trace" = Some (Some "1").
Proof.
  intros r hs.
  destruct (built_headers_carry_session_values r hs eq_refl)
    as (_ & _ & _ & U & _ & _ & _ & C).
  split; [exact U|]. apply C; [reflexivity|discriminate].
Defined.

(** ** One attempt, and redirects *)

Lemma get_with_headers (u : string) (h : heap)
  (hs : list (string * option string)) :
  http_headers (request h) = Ok hs ->
  get u h = with_retry (request h) (http_send (get_request u hs)) h.
Proof.
  intro E. unfold get, bind, gets, lift. rewrite E. apply _get_eq.
Qed.

(** X9.  With [max_attempts = 1] the verbs are the bare calls of the
  transport: [get] and [delete] make one request whatever its outcome.
  A 503 response is returned to the caller and an exception of the
  transport, [ConnectionError] and [Timeout] included, is raised, after
  that one request. *)
Theorem one_attempt_never_retries (h : heap) (u v : string)
  (hs : list (string * option string)) :
  _max_attempts (request h) = 1%Z ->
  http_headers (request h) = Ok hs ->
  get u h
  = (wrapped (next_outcome h), after [(get_request u hs, next_outcome h)] h) /\
  delete v h
  = (wrapped (next_outcome h), after [(delete_request v, next_outcome h)] h).
Proof.
  intros A E. split.
  - rewrite (get_with_headers u h hs E).
    apply with_retry_once; [lia|now right].
  - rewrite delete_eq. apply with_retry_once; [lia|now right].
Qed.

Lemma one_attempt_never_retries_witness :
  let busy := Sample.answer 503 [] None in
  let h := Sample.running 1 [Responds busy; Responds Sample.last_page] in
  exists hs,
    get "/v1/statement/q1/1" h
    = (Ok (Some busy),
       after [(get_request "/v1/statement/q1/1" hs, Responds busy)] h) /\
    delete "/v1/query/q1" h
    = (Ok (Some busy),
       after [(delete_request "/v1/query/q1", Responds busy)] h).
Proof.
  intros busy h. eexists.
  apply (one_attempt_never_retries h); reflexivity.
Defined.

Lemma last_cons {A : Type} (a d : A) (l : list A) :
  last (a :: l) d = last l a.
Proof.
  revert a d. induction l as [|b l IH]; intros a d; [reflexivity|].
  change (last (a :: b :: l) d) with (last (b :: l) d).
  rewrite (IH b d), (IH b a). reflexivity.
Qed.

Lemma redirect_not_503 (r : http_response) :
  is_redirect r = true -> status_code r <> 503%Z.
Proof.
  unfold is_redirect. intros E C. rewrite C in E.
  apply andb_prop in E as (_ & E). discriminate E.
Qed.

Lemma follows_not_503 (handle : string -> res string) (c : http_response)
  (hops : list (string * http_response)) :
  follows handle c hops = true ->
  status_code (last (map snd hops) c) <> 503%Z ->
  status_code c <> 503%Z.
Proof.
  destruct hops as [|[u c'] hops]; cbn [follows map last]; auto.
  intros F _. apply andb_prop in F as (F & _).
  apply andb_prop in F as (F & _). now apply redirect_not_503.
Qed.

(** The redirect loop on a chain of redirects. *)
Lemma follow_redirects_chain (handle : string -> res string)
  (sql : string) (hs : list (string * option string))
  (hops : list (string * http_response)) :
  forall (c0 : http_response) (h : heap) (fuel : nat)
         (rest : list outcome),
  (1 <= _max_attempts (request h))%Z ->
  follows handle c0 hops = true ->
  status_code (last (map snd hops) c0) <> 503%Z ->
  pending (net h) = map (fun p => Responds (snd p)) hops ++ rest ->
  length hops < fuel ->
  follow_redirects fuel handle sql hs (Some c0) h
  = (Ok (Some (last (map snd hops) c0)),
     after (map (fun p => (post_request (fst p) sql hs false,
                           Responds (snd p))) hops) h).
Proof.
  induction hops as [|[u c] hops IH]; intros c0 h fuel rest A F N Pe L.
  - cbn [follows] in F. apply negb_true_iff in F.
    destruct fuel; [cbn in L; lia|].
    cbn [follow_redirects map last]. rewrite F, after_nil. reflexivity.
  - cbn [follows] in F.
    apply andb_prop in F as (F & Fc). apply andb_prop in F as (R & T).
    destruct (header_get (headers c0) "Location") as [location|] eqn:Lo;
      [|discriminate].
    destruct (handle location) as [u'| |] eqn:Ha; try discriminate.
    apply String.eqb_eq in T. subst u'.
    destruct fuel as [|fuel]; [cbn in L; lia|].
    cbn [map snd fst] in *. rewrite last_cons in *.
    cbn [follow_redirects]. rewrite R.
    unfold bind at 1, lift at 1. rewrite Lo.
    unfold bind at 1, lift at 1. rewrite Ha.
    unfold bind at 1. rewrite _post_eq.
    assert (O : next_outcome h = Responds c).
    { unfold next_outcome. now rewrite Pe. }
    rewrite with_retry_once; [|exact A|].
    2:{ left. rewrite O. cbn [retried].
        apply Z.eqb_neq. now apply (follows_not_503 handle c hops). }
    rewrite O. cbn [wrapped].
    rewrite (IH c _ fuel rest); auto.
    + now rewrite after_app.
    + rewrite pending_after, Pe. reflexivity.
    + cbn in L. lia.
Qed.

(** X10.  With a redirect handler, [post] follows a chain of redirects
  of any length: the statement is posted to the statement URL, and, as
  long as the response is a redirect, posted again, with the same body
  and the same headers, to the URL the handler makes of its [Location];
  every one of these requests forbids the transport to follow redirects
  itself.  The response returned is the first that is no redirect. *)
Theorem post_follows_redirect_chain (h : heap) (sql : string)
  (hs : list (string * option string)) (handle : string -> res string)
  (c0 : http_response) (hops : list (string * http_response))
  (rest : list outcome) :
  _redirect_handler (request h) = Some handle ->
  http_headers (request h) = Ok hs ->
  (1 <= _max_attempts (request h))%Z ->
  pending (net h)
  = Responds c0 :: map (fun p => Responds (snd p)) hops ++ rest ->
  follows handle c0 hops = true ->
  status_code (last (map snd hops) c0) <> 503%Z ->
  post sql h
  = (Ok (Some (last (map snd hops) c0)),
     after ((post_request (statement_url (request h)) sql hs false,
             Responds c0)
            :: map (fun p => (post_request (fst p) sql hs false,
                              Responds (snd p))) hops) h).
Proof.
  intros Hh E A Pe F N.
  unfold post. unfold bind at 1, gets at 1.
  unfold bind at 1, lift at 1. rewrite E.
  unfold bind at 1. rewrite Hh, _post_eq.
  assert (O : next_outcome h = Responds c0).
  { unfold next_outcome. now rewrite Pe. }
  rewrite with_retry_once; [|exact A|].
  2:{ left. rewrite O. cbn [retried].
      apply Z.eqb_neq. now apply (follows_not_503 handle c0 hops). }
  rewrite O. cbn [wrapped].
  unfold bind at 1, gets at 1.
  rewrite (follow_redirects_chain handle sql hs hops c0 _ _ rest); auto.
  - now rewrite after_app.
  - rewrite pending_after, Pe. reflexivity.
  - unfold steps. rewrite pending_after, Pe. cbn [length skipn].
    rewrite length_app, length_map. lia.
Qed.

Lemma post_follows_redirect_chain_witness :
  let moved := Sample.answer 307 [("Location", "http://gateway:8080/v1/statement")]
                 None in
  let r := Sample.answer 200 []
             (Some (Sample.page (Val "/v1/statement/q1/1") Null Null)) in
  let h := Sample.client 3 [Responds moved; Responds r] in
  exists hs,
    post "SELECT x FROM t" h
    = (Ok (Some r),
       after [(post_request "http://coordinator:8080/v1/statement"
                 "SELECT x FROM t" hs false, Responds moved);
              (post_request "http://gateway:8080/v1/statement"
                 "SELECT x FROM t" hs false, Responds r)] h).
Proof.
  intros moved r h. eexists.
  apply (post_follows_redirect_chain h "SELECT x FROM t" _
           (fun location => Ok location) moved
           [("http://gateway:8080/v1/statement", r)] []);
    try reflexivity; cbn; try lia; discriminate.
Defined.

(** * Further properties of the query driver *)

(** ** The rows, in order *)

Lemma received_data_app (r : PrestoRequest)
  (a b : list (http_request * outcome)) :
  received_data r (a ++ b) = received_data r a ++ received_data r b.
Proof. apply flat_map_app. Qed.

Lemma received_data_handler (r r' : PrestoRequest)
  (l : list (http_request * outcome)) :
  _redirect_handler r' = _redirect_handler r ->
  received_data r' l = received_data r l.
Proof.
  intro E. unfold received_data. apply flat_map_ext.
  intros [rq o]. unfold page_data. now rewrite E.
Qed.

Lemma data_rows_503 (resp : http_response) :
  status_code resp = 503%Z -> data_rows resp = [].
Proof. intro S. unfold data_rows, ok. now rewrite S. Qed.

Lemma retried_no_data (r : PrestoRequest) (rq : http_request) (o : outcome) :
  retried r o = true -> page_data r (rq, o) = [].
Proof.
  destruct o as [e|resp]; [reflexivity|]. cbn [retried]. intro S.
  apply Z.eqb_eq in S. unfold page_data. cbn [fst snd].
  rewrite (data_rows_503 resp S).
  destruct (method rq), (_redirect_handler r); try reflexivity.
  now destruct (is_redirect resp).
Qed.

Lemma retried_all_no_data (r : PrestoRequest)
  (l : list (http_request * outcome)) :
  Forall (fun x => retried r (snd x) = true) l -> received_data r l = [].
Proof.
  induction 1 as [|[rq o] l Rx _ IH]; [reflexivity|].
  change (received_data r ((rq, o) :: l))
    with (page_data r (rq, o) ++ received_data r l).
  cbn [snd] in Rx. now rewrite (retried_no_data r rq o Rx), IH.
Qed.

Lemma with_retry_data (r0 : PrestoRequest) (rq : http_request)
  (h h' : heap) (a : option http_response) :
  with_retry r0 (http_send rq) h = (Ok a, h') ->
  exists l,
    h' = after l h /\
    received_data r0 l
    = match a with
      | Some resp => page_data r0 (rq, Responds resp)
      | None => []
      end.
Proof.
  intro E. destruct (with_retry_spec _ _ _ _ _ E) as (l & -> & _ & _ & _ & D).
  exists l. split; [reflexivity|].
  destruct D as [(-> & Ea & _)|(l0 & o & -> & F0 & Ea & _)].
  - injection Ea as ->. reflexivity.
  - rewrite received_data_app, (retried_all_no_data _ _ F0).
    destruct o as [e|resp]; [discriminate|]. injection Ea as ->.
    unfold received_data. cbn [flat_map app]. now rewrite app_nil_r.
Qed.

Lemma get_data (u : string) (h h' : heap) (a : option http_response) :
  get u h = (Ok a, h') ->
  exists l, h' = after l h /\ received_data (request h) l = answer_data a.
Proof.
  unfold get, bind, gets, lift.
  destruct (http_headers (request h)) as [hs|e|]; cbv beta iota;
    try discriminate.
  rewrite _get_eq. intro E.
  destruct (with_retry_data _ _ _ _ _ E) as (l & -> & R).
  exists l. split; [reflexivity|]. rewrite R. now destruct a.
Qed.

Lemma follow_redirects_data (handle : string -> res string) (body : string)
  (hs : list (string * option string)) (fuel : nat) :
  forall (a0 a : option http_response) (h h' : heap),
  _redirect_handler (request h) <> None ->
  follow_redirects fuel handle body hs a0 h = (Ok a, h') ->
  exists l,
    h' = after l h /\
    post_data a0 ++ received_data (request h) l = answer_data a.
Proof.
  induction fuel as [|fuel IH]; intros a0 a h h' Hd E.
  - destruct a0 as [r|]; cbn in E.
    + destruct (is_redirect r) eqn:X; [discriminate|].
      injection E as <- <-. exists []. rewrite after_nil.
      cbn. rewrite X. split; [reflexivity|]. now rewrite app_nil_r.
    + injection E as <- <-. exists []. rewrite after_nil. now split.
  - destruct a0 as [r|]; cbn [follow_redirects] in E.
    + destruct (is_redirect r) eqn:X.
      * unfold bind, lift in E.
        destruct (header_get (headers r) "Location"); [|discriminate].
        destruct (handle s) as [u| |]; try discriminate.
        rewrite _post_eq in E.
        destruct (with_retry _ _ h) as [[a1| |] h1] eqn:W; try discriminate.
        destruct (with_retry_data _ _ _ _ _ W) as (l1 & -> & R1).
        apply IH in E; [|exact Hd].
        destruct E as (l2 & -> & R2).
        exists (l1 ++ l2). rewrite after_app. split; [reflexivity|].
        rewrite received_data_app, R1. cbn [post_data]. rewrite X.
        change (request (after l1 h)) with (request h) in R2.
        rewrite <- R2. cbn [app]. f_equal.
        destruct a1 as [r1|]; [|reflexivity].
        unfold page_data. cbn.
        destruct (_redirect_handler (request h)); [reflexivity|contradiction].
      * cbn in E. injection E as <- <-. exists []. rewrite after_nil.
        cbn. rewrite X. split; [reflexivity|]. now rewrite app_nil_r.
    + cbn in E. injection E as <- <-. exists []. rewrite after_nil. now split.
Qed.

Lemma post_data_received (sql : string) (h h' : heap)
  (a : option http_response) :
  post sql h = (Ok a, h') ->
  exists l, h' = after l h /\ received_data (request h) l = answer_data a.
Proof.
  unfold post, bind, gets, lift.
  destruct (http_headers (request h)) as [hs|e|]; cbv beta iota;
    try discriminate.
  rewrite _post_eq.
  destruct (with_retry _ _ h) as [[a0| |] h0] eqn:W; try discriminate.
  destruct (with_retry_data _ _ _ _ _ W) as (l0 & -> & R0).
  destruct (_redirect_handler (request h)) as [handle|] eqn:Hd.
  - intro E. apply follow_redirects_data in E.
    + destruct E as (l & -> & R). exists (l0 ++ l).
      rewrite after_app. split; [reflexivity|].
      change (request (after l0 h)) with (request h) in R.
      rewrite received_data_app, R0, <- R. f_equal.
      destruct a0 as [r0|]; [|reflexivity].
      unfold page_data. cbn. now rewrite Hd.
    + change (request (after l0 h)) with (request h). congruence.
  - unfold ret. intro E. injection E as <- <-.
    exists l0. split; [reflexivity|]. rewrite R0.
    destruct a0 as [r0|]; [|reflexivity].
    unfold page_data. cbn. now rewrite Hd.
Qed.

Lemma process_data (a : option http_response) (h h1 : heap)
  (status : PrestoStatus) :
  process a h = (Ok status, h1) ->
  rows_or_empty (rows status) = answer_data a /\
  ran [] h h1 /\ query h1 = query h /\ result h1 = result h.
Proof.
  intro Pr.
  destruct (process_frame _ _ _ _ Pr) as (_ & Q & Rs & N & Hd & _).
  destruct (process_ok _ _ _ _ Pr)
    as (r & response & -> & K & B & _ & _ & Rw & _).
  split; [|split; [|split]]; auto.
  - rewrite Rw. unfold answer_data, data_rows. rewrite K, B.
    now destruct (j_data response).
  - split; [now rewrite N, app_nil_r|exact Hd].
Qed.

Lemma fetch_data (h h' : heap) (more : option (list (list json))) :
  fetch h = (Ok more, h') ->
  exists l,
    ran l h h' /\
    received_data (request h) l = rows_or_empty more /\
    result h' = result h /\
    _cancelled (query h') = _cancelled (query h).
Proof.
  unfold fetch, bind, gets.
  destruct (_next_uri (request h)) as [uri|].
  - destruct (get uri h) as [[a| |] h1] eqn:G; try discriminate.
    destruct (process a h1) as [[status| |] h2] eqn:Pr; try discriminate.
    destruct (get_data _ _ _ _ G) as (l & -> & R).
    destruct (process_data _ _ _ _ Pr) as (Ln & Rn & Q & Rs).
    intro E. exists l.
    assert (F : ran l h h' /\ result h' = result h /\
                _cancelled (query h') = _cancelled (query h) /\
                more = rows status).
    { pose proof (ran_trans _ _ _ _ _ (ran_after l h) Rn) as Rn'.
      rewrite app_nil_r in Rn'. destruct Rn' as (Lg & Hd).
      unfold update_stats, modify, raise, ret in E.
      destruct (columns status) as [[|c cs]|];
        destruct (stats status); destruct (next_uri status);
        cbn in E; inject_pairs; try discriminate;
        (split; [split; [exact Lg|exact Hd]|]);
        cbn; rewrite ?Q, ?Rs; auto. }
    destruct F as (F1 & F2 & F3 & ->).
    split; [exact F1|]. split; [now rewrite R, Ln|]. split; assumption.
  - unfold modify, ret. intro E. inject_pairs. exists [].
    split; [split; [cbn; now rewrite app_nil_r|reflexivity]|].
    repeat split.
Qed.

Lemma fetch_all_data (fuel : nat) :
  forall (h h' : heap) (rows0 : list (list json)),
  fetch_all fuel h = (Ok tt, h') ->
  _rows (result h) = Some rows0 ->
  exists l,
    ran l h h' /\
    _rows (result h') = Some (rows0 ++ received_data (request h) l) /\
    _rownumber (result h') = _rownumber (result h) /\
    typed (result h') = typed (result h) /\
    (_finished (query h') = true \/ _cancelled (query h') = true).
Proof.
  induction fuel as [|fuel IH]; intros h h' rows0 E R0;
    rewrite fetch_all_unfold in E;
    destruct (negb (_finished (query h)) && negb (_cancelled (query h))) eqn:C;
    try discriminate.
  - injection E as <-. exists []. cbn [received_data flat_map].
    rewrite app_nil_r. repeat split; auto.
    + cbn. now rewrite app_nil_r.
    + apply andb_false_iff in C as [C|C]; apply negb_false_iff in C; auto.
  - destruct (fetch h) as [[more| |] h1] eqn:F; try discriminate.
    rewrite R0 in E. destruct more as [l'|]; [|discriminate].
    destruct (fetch_data _ _ _ F) as (l1 & Rn1 & Rc1 & Rs1 & Cn1).
    apply (IH _ _ (rows0 ++ l')) in E; [|reflexivity].
    destruct E as (l2 & Rn2 & Rw & Nb & Ty & Fin).
    exists (l1 ++ l2).
    assert (Rn : ran (l1 ++ l2) h h').
    { apply (ran_trans _ _ _ h1); [exact Rn1|].
      destruct Rn2 as (L2 & H2). split; [exact L2|exact H2]. }
    split; [exact Rn|]. split.
    { assert (Hh : received_data
                     (request (on_result (with_rows (Some (rows0 ++ l'))) h1))
                     l2
                   = received_data (request h) l2).
      { apply received_data_handler. destruct Rn1 as (_ & H1). exact H1. }
      rewrite Rw, Hh, received_data_app, Rc1. cbn [rows_or_empty].
      now rewrite app_assoc. }
    cbn in Nb, Ty. rewrite Rs1 in Nb, Ty.
    repeat split; auto.
  - injection E as <-. exists []. cbn [received_data flat_map].
    rewrite app_nil_r. repeat split; auto.
    + cbn. now rewrite app_nil_r.
    + apply andb_false_iff in C as [C|C]; apply negb_false_iff in C; auto.
Qed.

Section ExecuteData.
Context {P : Platform}.

Lemma submit_data (q : PrestoQuery) (h h' : heap) :
  submit q h = (Ok tt, h') ->
  _cancelled (query h) = false ->
  exists l,
    ran l h h' /\
    result h'
    = {| _rows := Some (received_data (request h) l);
         _rownumber := 0;
         typed := _experimental_python_types q |} /\
    _finished (query h') = true.
Proof.
  unfold submit, bind. intros E Cn.
  destruct (post (_sql q) h) as [[a| |] h1] eqn:Po; try discriminate.
  destruct (process a h1) as [[status| |] h2] eqn:Pr; try discriminate.
  destruct (post_data_received _ _ _ _ Po) as (l1 & -> & R1).
  destruct (process_data _ _ _ _ Pr) as (Ln & (Lg & Hd) & Q & Rs).
  unfold update_stats, modify, raise, ret, gets in E.
  destruct (stats status) as [st|]; [|discriminate].
  assert (E' : exists h3 fuel,
            fetch_all fuel h3 = (Ok tt, h') /\
            net h3 = net h2 /\ request h3 = request h2 /\
            _cancelled (query h3) = false /\
            result h3
            = {| _rows := Some (rows_or_empty (rows status));
                 _rownumber := 0;
                 typed := _experimental_python_types q |}).
  { destruct (next_uri status); cbv beta iota in E;
      eexists; eexists; (split; [exact E|]); cbn; rewrite Q; auto. }
  clear E. destruct E' as (h3 & fuel & E & N3 & Rq3 & Cn3 & Rs3).
  assert (Rw3 : _rows (result h3) = Some (rows_or_empty (rows status))).
  { now rewrite Rs3. }
  destruct (fetch_all_data _ _ _ _ E Rw3)
    as (l2 & (Lg2 & Hd2) & Rw & Nb & Ty & Fin).
  assert (Cn' : _cancelled (query h') = false).
  { destruct (fetch_all_rows _ _ _ _ E Rw3)
      as (? & ? & _ & _ & _ & _ & _ & Cq & _). congruence. }
  exists (l1 ++ l2).
  split; [split|split].
  - rewrite Lg2, N3, Lg. cbn. now rewrite app_nil_r, app_assoc.
  - rewrite Hd2, Rq3, Hd. reflexivity.
  - destruct (result h') as [rw nb ty]. cbn in Rw, Nb, Ty.
    rewrite Rs3 in Nb, Ty. cbn in Nb, Ty. subst.
    f_equal. f_equal. rewrite received_data_app, R1, Ln. f_equal.
    apply received_data_handler. now rewrite Rq3, Hd.
  - destruct Fin as [F|F]; [exact F|congruence].
Qed.

Lemma execute_data (h h' : heap) :
  execute h = (Ok tt, h') ->
  exists l,
    ran l h h' /\
    result h'
    = {| _rows := Some (received_data (request h) l);
         _rownumber := 0;
         typed := _experimental_python_types (query h) |} /\
    _finished (query h') = true.
Proof.
  rewrite execute_unfold.
  destruct (_cancelled (query h)) eqn:Cn; [discriminate|].
  destruct (refresh_credentials h) as [[[]| |] h0] eqn:Rf; try discriminate.
  destruct (refresh_credentials_frame _ _ _ Rf) as (N0 & Q0 & H0).
  intro E. apply submit_data in E; [|now rewrite Q0].
  destruct E as (l & (Lg & Hd) & Rs & Fin).
  exists l. repeat split; auto.
  - now rewrite Lg, N0.
  - now rewrite Hd.
  - rewrite Rs. do 2 f_equal. now apply received_data_handler.
Qed.

End ExecuteData.

Section IterateData.
Context {P : Platform}.

Lemma yield_row_raw (row : list json) (h : heap) :
  typed (result h) = false ->
  yield_row with_rownumbers row h
  = (Ok (Raw row, S (_rownumber (result h))),
     on_result (with_rownumber (S (_rownumber (result h)))) h).
Proof.
  intro T.
  unfold yield_row, with_rownumbers, bind, gets, modify, lift, ret.
  cbv beta iota.
  change (typed (result (on_result
            (fun r => with_rownumber (_rownumber r + 1) r) h)))
    with (typed (result h)).
  rewrite T. cbn [negb]. unfold on_result, with_rownumber.
  now rewrite Nat.add_1_r.
Qed.

(** Yielding buffered rows as they came cannot fail: each row is
  handed over with the next row number. *)
Lemma yield_rows_raw (l : list (list json)) :
  forall h : heap,
  typed (result h) = false ->
  exists obs,
    yield_rows with_rownumbers l h
    = (Ok obs,
       on_result (with_rownumber (_rownumber (result h) + length l)) h) /\
    map fst obs = map Raw l /\
    map snd obs = seq (S (_rownumber (result h))) (length l).
Proof.
  induction l as [|row l IH]; intros h T.
  - exists []. cbn. unfold ret. rewrite Nat.add_0_r.
    destruct h as [rq cr q [rw nb ty] nt]. auto.
  - cbn [yield_rows]. unfold bind. rewrite (yield_row_raw row h T).
    destruct (IH (on_result (with_rownumber (S (_rownumber (result h)))) h) T)
      as (os & E & F & S).
    rewrite E. unfold ret. eexists. split; [|split].
    + cbn. rewrite Nat.add_succ_r. reflexivity.
    + cbn [map fst]. now rewrite F.
    + cbn [map snd length seq]. now rewrite S.
Qed.

Lemma yield_fetched_raw (fuel : nat) :
  forall (h h' : heap) (obs : list (yielded * nat)),
  yield_fetched with_rownumbers fuel h = (Ok obs, h') ->
  typed (result h) = false ->
  exists l,
    ran l h h' /\
    map fst obs = map Raw (received_data (request h) l) /\
    map snd obs = seq (S (_rownumber (result h))) (length obs) /\
    _rownumber (result h') = _rownumber (result h) + length obs /\
    _rows (result h') = _rows (result h) /\
    _finished (query h') = true.
Proof.
  induction fuel as [|fuel IH]; intros h h' obs E T;
    cbn [yield_fetched] in E; unfold bind, is_finished, gets in E;
    cbv beta iota in E;
    destruct (_finished (query h)) eqn:Fi.
  - unfold ret in E. inject_pairs. exists []. cbn. rewrite Nat.add_0_r.
    repeat split; auto. now rewrite app_nil_r.
  - discriminate.
  - unfold ret in E. inject_pairs. exists []. cbn. rewrite Nat.add_0_r.
    repeat split; auto. now rewrite app_nil_r.
  - destruct (fetch h) as [[[rows|]| |] h1] eqn:F; try discriminate.
    destruct (fetch_data _ _ _ F) as (l1 & Rn1 & Rc1 & Rs1 & _).
    cbn [rows_or_empty] in Rc1.
    assert (T1 : typed (result h1) = false) by now rewrite Rs1.
    destruct (yield_rows_raw rows h1 T1) as (os & Y & Fo & So).
    rewrite Y in E.
    destruct (yield_fetched with_rownumbers fuel _) as [[rest| |] h2] eqn:Yf;
      try discriminate.
    unfold ret in E. injection E as <- <-.
    apply IH in Yf; [|exact T1].
    destruct Yf as (l2 & Rn2 & Fr & Sr & Nb & Rw & Fin).
    cbn in Sr, Nb, Rw. rewrite Rs1 in *.
    assert (Lo : length os = length rows).
    { rewrite <- (length_map fst os), Fo. apply length_map. }
    exists (l1 ++ l2). split; [|split; [|split; [|split; [|split]]]].
    + apply (ran_trans _ _ _ h1); [exact Rn1|].
      destruct Rn2 as (L2 & H2). split; [exact L2|exact H2].
    + rewrite map_app, Fo, Fr, received_data_app, Rc1, map_app.
      do 2 f_equal. apply received_data_handler.
      destruct Rn1 as (_ & H1). exact H1.
    + rewrite map_app, So, Sr, length_app, seq_app, Lo. reflexivity.
    + rewrite Nb, length_app, Lo. lia.
    + exact Rw.
    + exact Fin.
Qed.

End IterateData.

(** X11.  [execute] buffers what the coordinator sent, in order.  When
  it returns, the rows of the result are the [data] of the responses
  the driver was handed, the answer to the POST first and then each
  poll, concatenated in the order of the exchanges (a retried 503 and a
  followed redirect carry none); the row number is 0 and the query is
  finished. *)
Theorem execute_buffers_rows_in_order (P : Platform) (h h' : heap) :
  execute h = (Ok tt, h') ->
  exists exchanges,
    log (net h') = log (net h) ++ exchanges /\
    result h'
    = {| _rows := Some (received_data (request h) exchanges);
         _rownumber := 0;
         typed := _experimental_python_types (query h) |} /\
    _finished (query h') = true.
Proof.
  intro E. destruct (execute_data h h' E) as (l & (Lg & _) & Rs & Fin).
  exists l. auto.
Qed.

Lemma execute_buffers_rows_in_order_witness :
  let h := Sample.client 3 Sample.script in
  exists exchanges,
    log (net (snd (@execute Sample.platform h)))
    = log (net h) ++ exchanges /\
    result (snd (@execute Sample.platform h))
    = {| _rows := Some (received_data (request h) exchanges);
         _rownumber := 0;
         typed := false |} /\
    _finished (query (snd (@execute Sample.platform h))) = true.
Proof.
  intro h.
  apply (execute_buffers_rows_in_order Sample.platform h).
  vm_compute. reflexivity.
Defined.

(** X12.  Iterating a result that maps no types yields the rows it
  holds and then, while the query is not finished, the rows of each
  poll it makes, as they came and in the order they came.  The row
  number read at each row counts on from its value at the start; at the
  end the query is finished and the result holds no rows any more. *)
Theorem untyped_iteration_yields_rows_in_order (P : Platform) (h h' : heap)
  (obs : list (yielded * nat)) (buffered : list (list json)) :
  __iter__ with_rownumbers h = (Ok obs, h') ->
  _rows (result h) = Some buffered ->
  typed (result h) = false ->
  exists exchanges,
    log (net h') = log (net h) ++ exchanges /\
    map fst obs
    = map Raw (buffered ++ received_data (request h) exchanges) /\
    map snd obs = seq (S (_rownumber (result h))) (length obs) /\
    _rownumber (result h') = _rownumber (result h) + length obs /\
    _finished (query h') = true /\
    _rows (result h') = None.
Proof.
  unfold __iter__, bind, gets. intros E R T. rewrite R in E.
  destruct (yield_rows_raw buffered h T) as (os & Y & Fo & So).
  rewrite Y in E. unfold modify in E. cbv beta iota in E.
  destruct (yield_fetched with_rownumbers _ _) as [[rest| |] h2] eqn:Yf;
    try discriminate.
  unfold ret in E. inject_pairs.
  apply yield_fetched_raw in Yf; [|exact T].
  destruct Yf as (l & (Lg & _) & Fr & Sr & Nb & Rw & Fin).
  cbn in Lg, Fr, Sr, Nb, Rw.
  assert (Lo : length os = length buffered).
  { rewrite <- (length_map fst os), Fo. apply length_map. }
  exists l. split; [exact Lg|]. split; [|split; [|split; [|split]]].
  - now rewrite !map_app, Fo, Fr.
  - rewrite map_app, So, Sr, length_app, seq_app, Lo. reflexivity.
  - rewrite Nb, length_app, Lo. lia.
  - exact Fin.
  - exact Rw.
Qed.

Lemma untyped_iteration_yields_rows_in_order_witness :
  let h := Sample.running 3
             [Responds (Sample.answer 200 []
                (Some (Sample.page (Val "/v1/statement/q1/2") Absent
                         (Val [[JNum 1]; [JNum 2]]))));
              Responds Sample.last_page] in
  let run := @__iter__ Sample.platform _ with_rownumbers
               (on_result (with_rows (Some [[JNum 0]])) h) in
  exists exchanges,
    log (net (snd run)) = log (net h) ++ exchanges /\
    [@Raw Sample.platform [JNum 0]; Raw [JNum 1]; Raw [JNum 2];
     Raw [JNum 3]]
    = map Raw ([[JNum 0]] ++ received_data (request h) exchanges) /\
    [1; 2; 3; 4] = seq 1 4 /\
    _rownumber (result (snd run)) = 0 + 4 /\
    _finished (query (snd run)) = true /\
    _rows (result (snd run)) = None.
Proof.
  intros h run.
  apply (untyped_iteration_yields_rows_in_order Sample.platform
           (on_result (with_rows (Some [[JNum 0]])) h) (snd run)
           [(Raw [JNum 0], 1); (Raw [JNum 1], 2); (Raw [JNum 2], 3);
            (Raw [JNum 3], 4)] [[JNum 0]]).
  - vm_compute. reflexivity.
  - reflexivity.
  - reflexivity.
Defined.

(** ** The result object *)

Section IterateFrame.
Context {P : Platform}.

(** Whatever becomes of a row, handing it over leaves the heap as it
  was but for the row number. *)
Lemma yield_row_heap (row : list json) (h : heap) :
  snd (yield_row with_rownumbers row h)
  = on_result (with_rownumber (S (_rownumber (result h)))) h.
Proof.
  unfold yield_row, with_rownumbers, bind, gets, modify, lift, ret,
    on_result, with_rownumber.
  cbn. rewrite Nat.add_1_r.
  destruct (typed (result h)); cbn; [|reflexivity].
  destruct (_map_to_python_types row _); reflexivity.
Qed.

Lemma yield_rows_heap (l : list (list json)) :
  forall h : heap,
  exists n, snd (yield_rows with_rownumbers l h)
            = on_result (with_rownumber n) h.
Proof.
  induction l as [|row l IH]; intro h.
  - exists (_rownumber (result h)). cbn.
    destruct h as [rq cr q [rw nb ty] nt]. reflexivity.
  - cbn [yield_rows]. unfold bind.
    pose proof (yield_row_heap row h) as Y.
    destruct (yield_row with_rownumbers row h) as [[o| |] h1];
      cbn [snd] in Y; try (eexists; exact Y).
    destruct (IH h1) as (n & Ys).
    destruct (yield_rows with_rownumbers l h1) as [[os| |] h2];
      cbn [snd] in *; subst; eexists; reflexivity.
Qed.

Lemma yield_fetched_keeps_rows (fuel : nat) :
  forall (h h' : heap) (obs : list (yielded * nat)),
  yield_fetched with_rownumbers fuel h = (Ok obs, h') ->
  _rows (result h') = _rows (result h).
Proof.
  induction fuel as [|fuel IH]; intros h h' obs E;
    cbn [yield_fetched] in E; unfold bind, is_finished, gets in E;
    cbv beta iota in E;
    destruct (_finished (query h)) eqn:Fi;
    try (unfold ret in E; injection E as <- <-; reflexivity);
    try discriminate.
  destruct (fetch h) as [[[rows|]| |] h1] eqn:F; try discriminate.
  destruct (fetch_rows _ _ _ F) as (l1 & _ & _ & Rs1 & _).
  destruct (yield_rows_heap rows h1) as (n & Y).
  destruct (yield_rows with_rownumbers rows h1) as [[os| |] h2];
    try discriminate.
  cbn [snd] in Y. subst h2.
  destruct (yield_fetched with_rownumbers fuel _) as [[rest| |] h3] eqn:Yf;
    try discriminate.
  unfold ret in E. injection E as <- <-.
  apply IH in Yf. rewrite Yf. cbn. now rewrite Rs1.
Qed.

End IterateFrame.

(** X13.  A result is iterated once.  When an iteration has run to its
  end, the result holds no rows ([_rows] is [None]): iterating it again
  raises [TypeError] before any row is handed over and before any
  request is made, and the row number is not reset. *)
Theorem result_iterates_once (P : Platform) (h h' : heap)
  (obs : list (yielded * nat)) :
  __iter__ with_rownumbers h = (Ok obs, h') ->
  _rows (result h') = None /\
  forall (Obs : Type) (consume : yielded -> M Obs),
    __iter__ consume h'
    = (Raise (TypeError "'NoneType' object is not iterable"), h').
Proof.
  intro E.
  assert (R : _rows (result h') = None).
  { unfold __iter__, bind, gets in E.
    destruct (_rows (result h)) as [l|]; [|discriminate].
    destruct (yield_rows_heap l h) as (n & Y).
    destruct (yield_rows with_rownumbers l h) as [[os| |] h1];
      try discriminate.
    cbn [snd] in Y. subst h1. unfold modify in E. cbv beta iota in E.
    destruct (yield_fetched with_rownumbers _ _) as [[rest| |] h2] eqn:Yf;
      try discriminate.
    unfold ret in E. injection E as <- <-.
    apply yield_fetched_keeps_rows in Yf. rewrite Yf. reflexivity. }
  split; [exact R|].
  intros Obs consume. unfold __iter__, bind, gets. now rewrite R.
Qed.

Lemma result_iterates_once_witness :
  let h := snd (@execute Sample.platform (Sample.client 3 Sample.script)) in
  let h' := snd (@__iter__ Sample.platform _ with_rownumbers h) in
  _rows (result h') = None /\
  forall (Obs : Type) (consume : @yielded Sample.platform -> M Obs),
    __iter__ consume h'
    = (Raise (TypeError "'NoneType' object is not iterable"), h').
Proof.
  intros h h'.
  apply (result_iterates_once Sample.platform h h'
           [(Raw [JNum 1], 1); (Raw [JNum 2], 2); (Raw [JNum 3], 3)]).
  vm_compute. reflexivity.
Defined.

(** X14.  [execute] does not take the columns of the answer to the
  POST: only [fetch] records columns.  When that answer is the only
  response of the query (it has no [nextUri]), [execute] returns, the
  query has the columns it had before, even if the answer carried some,
  and the result holds the rows of the answer.  If moreover the query
  had no columns, rows are to be mapped to Python types and the answer
  carried a row, iterating the result raises [TypeError] at its first
  row. *)
Theorem typed_rows_need_polled_columns (P : Platform) (h h0 h1 h2 : heap)
  (a : option http_response) (status : PrestoStatus) :
  _cancelled (query h) = false ->
  refresh_credentials h = (Ok tt, h0) ->
  post (_sql (query h)) h0 = (Ok a, h1) ->
  process a h1 = (Ok status, h2) ->
  next_uri status = None ->
  stats status <> None ->
  fst (execute h) = Ok tt /\
  _columns (query (snd (execute h))) = _columns (query h) /\
  _rows (result (snd (execute h))) = Some (rows_or_empty (rows status)) /\
  (_experimental_python_types (query h) = true ->
   _columns (query h) = None ->
   forall (row : list json) (more : list (list json)),
     rows status = Some (row :: more) ->
     forall (Obs : Type) (consume : yielded -> M Obs),
       fst (__iter__ consume (snd (execute h)))
       = Raise (TypeError "'NoneType' object is not iterable")).
Proof.
  intros Cn Rf Po Pr Nx St.
  destruct (refresh_credentials_frame _ _ _ Rf) as (_ & Q0 & _).
  destruct (post_rows_received _ _ _ _ Po) as (l & -> & _).
  destruct (process_frame _ _ _ _ Pr) as (_ & Q2 & _).
  change (query (after l h0)) with (query h0) in Q2.
  rewrite execute_unfold, Cn, Rf. unfold submit, bind. rewrite Po, Pr.
  unfold update_stats, modify, ret, gets.
  destruct (stats status); [|congruence]. rewrite Nx.
  cbv beta iota. rewrite fetch_all_unfold. cbn -[steps rows_or_empty].
  rewrite Q2, Q0.
  repeat split.
  intros Fl Co row more Rw Obs consume. rewrite Rw.
  unfold __iter__, bind, gets. cbn.
  unfold yield_row, bind, modify, gets, lift. cbn.
  rewrite Fl. cbn. rewrite ?Q2, ?Q0, ?Co. reflexivity.
Qed.

Lemma typed_rows_need_polled_columns_witness :
  let r := Sample.answer 200 []
             (Some (Sample.page Absent (Val [Sample.column_x])
                      (Val [[JNum 1]]))) in
  let h := new_query_on (Sample.request_of [] 3) None "SELECT x FROM t" true
             {| pending := [Responds r]; log := [] |} in
  fst (@execute Sample.platform h) = Ok tt /\
  _columns (query (snd (@execute Sample.platform h))) = None /\
  _rows (result (snd (@execute Sample.platform h))) = Some [[JNum 1]] /\
  forall (Obs : Type) (consume : @yielded Sample.platform -> M Obs),
    fst (__iter__ consume (snd (@execute Sample.platform h)))
    = Raise (TypeError "'NoneType' object is not iterable").
Proof.
  intros r h.
  assert (X : exists h0 h1 h2 a status,
            @refresh_credentials Sample.platform h = (Ok tt, h0) /\
            post (_sql (query h)) h0 = (Ok a, h1) /\
            process a h1 = (Ok status, h2) /\
            next_uri status = None /\
            stats status <> None /\
            rows status = Some [[JNum 1]]).
  { do 5 eexists. repeat split; try reflexivity. discriminate. }
  destruct X as (h0 & h1 & h2 & a & status & Rf & Po & Pr & Nx & St & Rw).
  destruct (typed_rows_need_polled_columns Sample.platform h h0 h1 h2 a
              status eq_refl Rf Po Pr Nx St) as (E & Co & Ro & It).
  rewrite Rw in Ro.
  split; [exact E|]. split; [exact Co|]. split; [exact Ro|].
  exact (It eq_refl eq_refl [JNum 1] [] Rw).
Defined.

(** ** What [fetch] and [execute] leave *)

Lemma fetch_frame (h : heap) :
  query_id (query (snd (fetch h))) = query_id (query h) /\
  _warnings (query (snd (fetch h))) = _warnings (query h) /\
  _sql (query (snd (fetch h))) = _sql (query h) /\
  _cancelled (query (snd (fetch h))) = _cancelled (query h) /\
  result (snd (fetch h)) = result h /\
  (_finished (query h) = true -> _finished (query (snd (fetch h))) = true) /\
  (forall e, fst (fetch h) = Raise e ->
     _finished (query (snd (fetch h))) = _finished (query h) /\
     _stats (query (snd (fetch h))) = _stats (query h)).
Proof.
  unfold fetch, bind, gets.
  destruct (_next_uri (request h)) as [uri|].
  - destruct (get uri h) as [[a| |] h1] eqn:G;
      destruct (get_frame _ _ _ _ G) as (_ & _ & Q1 & R1);
      cbn [fst snd]; try (rewrite Q1, R1; repeat split; auto; fail).
    destruct (process a h1) as [[status| |] h2] eqn:Pr;
      destruct (process_frame _ _ _ _ Pr) as (_ & Q2 & R2 & _);
      cbn [fst snd]; try (rewrite Q2, R2, Q1, R1; repeat split; auto; fail).
    unfold update_stats, modify, raise, ret.
    destruct (columns status) as [[|c cs]|];
      destruct (stats status); destruct (next_uri status);
      cbn; rewrite ?Q2, ?R2, ?Q1, ?R1; repeat split; auto; discriminate.
  - unfold modify, ret. cbn. repeat split; auto; discriminate.
Qed.


Lemma fetch_drain (h h' : heap) (more : option (list (list json))) :
  fetch h = (Ok more, h') ->
  _finished (query h) = false ->
  _finished (query h') = true -> _next_uri (request h') = None.
Proof.
  unfold fetch, bind, gets.
  destruct (_next_uri (request h)) as [uri|] eqn:U.
  - destruct (get uri h) as [[a| |] h1] eqn:G; try discriminate.
    destruct (get_frame _ _ _ _ G) as (_ & _ & Q1 & _).
    destruct (process a h1) as [[status| |] h2] eqn:Pr; try discriminate.
    destruct (process_frame _ _ _ _ Pr) as (_ & Q2 & _).
    destruct (process_ok _ _ _ _ Pr) as (r & response & _ & _ & _ & _ & _ & _ & _ & N).
    unfold update_stats, modify, raise, ret.
    destruct (columns status) as [[|c cs]|];
      destruct (stats status); destruct (next_uri status);
      cbn; intros E F; inject_pairs; try discriminate; cbn in *;
      rewrite ?Q2, ?Q1 in *; congruence.
  - unfold modify, ret. intros E _ _. inject_pairs. exact U.
Qed.

Lemma fetch_all_drain (fuel : nat) :
  forall h h' : heap,
  fetch_all fuel h = (Ok tt, h') ->
  (_finished (query h) = true -> _next_uri (request h) = None) ->
  _finished (query h') = true -> _next_uri (request h') = None.
Proof.
  induction fuel as [|fuel IH]; intros h h' E J;
    rewrite fetch_all_unfold in E;
    destruct (negb (_finished (query h)) && negb (_cancelled (query h))) eqn:C;
    try discriminate.
  - injection E as <-. exact J.
  - apply andb_prop in C as (C & _). apply negb_true_iff in C.
    destruct (fetch h) as [[more| |] h1] eqn:F; try discriminate.
    destruct (_rows (result h)) as [l|]; [|discriminate].
    destruct more as [l'|]; [|discriminate].
    intro Fh. eapply IH; [exact E| |exact Fh]. cbn.
    exact (fetch_drain _ _ _ F C).
  - injection E as <-. exact J.
Qed.

(** X16.  [execute] drains the query.  When it returns for a query
  that was not finished, the request has no next URI left: every page
  the coordinator announced has been fetched into the result. *)
Theorem execute_leaves_no_next_uri (P : Platform) (h h' : heap) :
  execute h = (Ok tt, h') ->
  _finished (query h) = false ->
  _finished (query h') = true /\ _next_uri (request h') = None.
Proof.
  intros E F.
  destruct (execute_rows _ _ E) as (_ & _ & _ & _ & _ & _ & Fin).
  split; [exact Fin|].
  rewrite execute_unfold in E.
  destruct (_cancelled (query h)) eqn:Cn; [discriminate|].
  destruct (refresh_credentials h) as [[[]| |] h0] eqn:Rf; try discriminate.
  destruct (refresh_credentials_frame _ _ _ Rf) as (_ & Q0 & _).
  unfold submit, bind in E.
  destruct (post (_sql (query h)) h0) as [[a| |] h1] eqn:Po; try discriminate.
  destruct (process a h1) as [[status| |] h2] eqn:Pr; try discriminate.
  destruct (post_rows_received _ _ _ _ Po) as (l1 & -> & _).
  destruct (process_frame _ _ _ _ Pr) as (_ & Q2 & _).
  destruct (process_ok _ _ _ _ Pr)
    as (r & response & _ & _ & _ & _ & _ & _ & _ & N).
  change (query (after l1 h0)) with (query h0) in Q2.
  unfold update_stats, modify, raise, ret, gets in E.
  destruct (stats status) as [st|]; [|discriminate].
  assert (E' : exists h3 fuel,
            fetch_all fuel h3 = (Ok tt, h') /\
            (_finished (query h3) = true -> _next_uri (request h3) = None)).
  { destruct (next_uri status) eqn:Nx; cbv beta iota in E;
      eexists; eexists; (split; [exact E|]); cbn;
      rewrite ?Q2, ?Q0; congruence. }
  destruct E' as (h3 & fuel & E' & J).
  exact (fetch_all_drain _ _ _ E' J Fin).
Qed.

Lemma execute_leaves_no_next_uri_witness :
  let h := Sample.client 3 Sample.script in
  _finished (query (snd (@execute Sample.platform h))) = true /\
  _next_uri (request (snd (@execute Sample.platform h))) = None.
Proof.
  intro h.
  apply (execute_leaves_no_next_uri Sample.platform h).
  - vm_compute. reflexivity.
  - reflexivity.
Defined.

Lemma with_retry_log (r0 : PrestoRequest) (rq : http_request)
  (h h' : heap) (r : res (option http_response)) :
  with_retry r0 (http_send rq) h = (r, h') ->
  exists l, h' = after l h /\ Forall (fun x => fst x = rq) l.
Proof.
  intro E. destruct (with_retry_spec _ _ _ _ _ E) as (l & -> & _ & F & _).
  now exists l.
Qed.

Lemma follow_redirects_log (handle : string -> res string) (body : string)
  (hs : list (string * option string)) (fuel : nat) :
  forall (a0 : option http_response) (h h' : heap)
         (r : res (option http_response)),
  follow_redirects fuel handle body hs a0 h = (r, h') ->
  exists l, h' = after l h /\ Forall (fun x => method (fst x) = POST) l.
Proof.
  assert (Z : forall h : heap,
            exists l, h = after l h /\
                      Forall (fun x => method (fst x) = POST) l).
  { intro h. exists []. now rewrite after_nil. }
  induction fuel as [|fuel IH]; intros a0 h h' r E.
  - destruct a0 as [r0|]; cbn in E.
    + destruct (is_redirect r0); unfold diverge, ret in E;
        injection E as <- <-; apply Z.
    + injection E as <- <-. apply Z.
  - destruct a0 as [r0|]; cbn [follow_redirects] in E.
    + destruct (is_redirect r0).
      * unfold bind, lift in E.
        destruct (header_get (headers r0) "Location");
          [|injection E as <- <-; apply Z].
        destruct (handle s) as [u| |]; try (injection E as <- <-; apply Z).
        rewrite _post_eq in E.
        destruct (with_retry _ _ h) as [a1 h1] eqn:W.
        destruct (with_retry_log _ _ _ _ _ W) as (l1 & -> & F1).
        assert (P1 : Forall (fun x => method (fst x) = POST) l1).
        { eapply Forall_impl; [|exact F1]. cbv beta. now intros x ->. }
        destruct a1 as [a1| |];
          try (injection E as <- <-; now exists l1).
        apply IH in E. destruct E as (l2 & -> & P2).
        exists (l1 ++ l2). rewrite after_app. split; [reflexivity|].
        now apply Forall_app.
      * unfold ret in E. injection E as <- <-. apply Z.
    + unfold ret in E. injection E as <- <-. apply Z.
Qed.

(** Whatever [post] returns, it has sent POST requests only. *)
Lemma post_log (sql : string) (h h' : heap)
  (r : res (option http_response)) :
  post sql h = (r, h') ->
  exists l, h' = after l h /\ Forall (fun x => method (fst x) = POST) l.
Proof.
  unfold post, bind, gets, lift.
  destruct (http_headers (request h)) as [hs|e|]; cbv beta iota.
  2,3: intro E; injection E as <- <-; exists []; now rewrite after_nil.
  rewrite _post_eq.
  destruct (with_retry _ _ h) as [a0 h0] eqn:W.
  destruct (with_retry_log _ _ _ _ _ W) as (l0 & -> & F0).
  assert (P0 : Forall (fun x => method (fst x) = POST) l0).
  { eapply Forall_impl; [|exact F0]. cbv beta. now intros x ->. }
  destruct a0 as [a0| |]; try (intro E; injection E as <- <-; now exists l0).
  destruct (_redirect_handler (request h)) as [handle|].
  - intro E. apply follow_redirects_log in E.
    destruct E as (l & -> & Pl). exists (l0 ++ l).
    rewrite after_app. split; [reflexivity|]. now apply Forall_app.
  - unfold ret. intro E. injection E as <- <-. now exists l0.
Qed.

(** X17.  [execute] never resets [_finished].  Run on a query that is
  already finished, it posts the statement again and, however it ends,
  makes no poll: every request it sends is a POST, and the query is
  still finished, whether or not the answer announced a next page. *)
Theorem finished_query_is_not_polled (P : Platform) (h : heap) :
  _finished (query h) = true ->
  _finished (query (snd (execute h))) = true /\
  exists l,
    log (net (snd (execute h))) = log (net h) ++ l /\
    Forall (fun x => method (fst x) = POST) l.
Proof.
  intro F. rewrite execute_unfold.
  assert (Z : forall h0 : heap,
            net h0 = net h ->
            exists l, log (net h0) = log (net h) ++ l /\
                      Forall (fun x => method (fst x) = POST) l).
  { intros h0 ->. exists []. now rewrite app_nil_r. }
  destruct (_cancelled (query h)); [cbn [snd]; auto|].
  destruct (refresh_credentials h) as [r0 h0] eqn:Rf.
  destruct (refresh_credentials_frame _ _ _ Rf) as (N0 & Q0 & _).
  destruct r0 as [[]| |]; cbn [snd]; try (rewrite Q0; auto; fail).
  unfold submit, bind.
  destruct (post (_sql (query h)) h0) as [a h1] eqn:Po.
  destruct (post_log _ _ _ _ Po) as (l & -> & Pl).
  assert (L : forall h2 : heap,
            net h2 = net (after l h0) ->
            exists l, log (net h2) = log (net h) ++ l /\
                      Forall (fun x => method (fst x) = POST) l).
  { intros h2 ->. exists l. rewrite log_after, N0. auto. }
  destruct a as [a| |]; cbn [snd];
    try (split; [cbn; now rewrite Q0|now apply L]; fail).
  destruct (process a (after l h0)) as [st h2] eqn:Pr.
  destruct (process_frame _ _ _ _ Pr) as (_ & Q2 & _ & N2 & _).
  change (query (after l h0)) with (query h0) in Q2.
  destruct st as [status| |]; cbn [snd];
    try (split; [now rewrite Q2, Q0|now apply L]; fail).
  unfold update_stats, modify, raise, ret, gets.
  destruct (stats status); destruct (next_uri status);
    cbv beta iota; rewrite ?fetch_all_unfold;
    cbn; rewrite ?Q2, ?Q0, ?F; cbn; rewrite ?Q2, ?Q0;
    (split; [auto|apply L; cbn; exact N2]).
Qed.

Lemma finished_query_is_not_polled_witness :
  let h := snd (@execute Sample.platform (Sample.client 3 Sample.script)) in
  let again := on_net (fun w => {| pending :=
                   [Responds (Sample.answer 200 []
                      (Some (Sample.page (Val "/v1/statement/q2/1") Null
                               (Val [[JNum 7]]))))];
                   log := log w |}) h in
  _finished (query (snd (@execute Sample.platform again))) = true /\
  exists l,
    log (net (snd (@execute Sample.platform again)))
    = log (net again) ++ l /\
    Forall (fun x => method (fst x) = POST) l.
Proof.
  intros h again.
  apply (finished_query_is_not_polled Sample.platform again).
  vm_compute. reflexivity.
Defined.

(** * Further properties of the typed mapper *)

Lemma prefix_trans (a b s : string) :
  prefix a b = true -> prefix b s = true -> prefix a s = true.
Proof.
  revert b s. induction a as [|c a IH]; intros b s;
    [now destruct s|].
  destruct b as [|d b]; [now destruct a|].
  destruct s as [|e s]; [discriminate|].
  cbn [prefix].
  destruct (ascii_dec c d) as [->|]; [|discriminate].
  destruct (ascii_dec d e) as [->|]; [|discriminate].
  destruct (ascii_dec e e); [|congruence]. apply IH.
Qed.

(** A text that holds [p] holds every prefix of [p]. *)
Lemma contains_prefix (p' p s : string) :
  prefix p' p = true ->
  Py.contains p s = true -> Py.contains p' s = true.
Proof.
  intro Pp. induction s as [|c s IH]; cbn [Py.contains]; intro C.
  - rewrite orb_false_r in *. now apply (prefix_trans p' p).
  - apply orb_prop in C as [C|C].
    + now rewrite (prefix_trans p' p _ Pp C).
    + rewrite (IH C). apply orb_true_r.
Qed.

Lemma contains_prefix_false (p' p s : string) :
  prefix p' p = true ->
  Py.contains p' s = false -> Py.contains p s = false.
Proof.
  intros Pp C. destruct (Py.contains p s) eqn:E; [|reflexivity].
  now rewrite (contains_prefix p' p s Pp E) in C.
Qed.

Section MapperMore.
Context {P : Platform}.

Lemma convert_scalar_passes_through (value : json) (raw_type : string) :
  passes_through raw_type = true ->
  convert_scalar value (JStr raw_type) = Ok (PJson value).
Proof.
  unfold passes_through. intro E.
  apply andb_prop in E as (E & T). apply andb_prop in E as (D & N).
  apply negb_true_iff in T, D, N.
  assert (Z : String.eqb raw_type "timestamp with time zone" = false).
  { apply String.eqb_neq. intros ->. discriminate T. }
  unfold convert_scalar. cbn [contains_str res_bind json_is_str].
  rewrite D, N, Z.
  rewrite (contains_prefix_false "time" "timestamp" raw_type eq_refl T).
  rewrite (contains_prefix_false "time" "time with time zone" raw_type
             eq_refl T).
  rewrite T. reflexivity.
Qed.

Lemma scalar_passes_through (value data_type signature : json)
  (raw_type : string) :
  (forall l, value <> JArr l) ->
  getitem data_type "typeSignature" = Ok signature ->
  getitem signature "rawType" = Ok (JStr raw_type) ->
  passes_through raw_type = true ->
  _map_to_python_type value data_type = Ok (PJson value).
Proof.
  intros NL S R E.
  destruct value; try reflexivity;
    try (now exfalso; eapply NL);
    cbn [_map_to_python_type]; rewrite S; cbn [res_bind]; rewrite R;
    cbn [res_bind]; rewrite convert_scalar_passes_through by exact E;
    reflexivity.
Qed.

Lemma map_cells_length (cells : list (json * json)) (out : list pyval) :
  map_cells cells = Ok out -> length out = length cells.
Proof.
  revert out. induction cells as [|[v t] cells IH]; intros out;
    cbn [map_cells].
  - intro E. injection E as <-. reflexivity.
  - destruct (_map_to_python_type v t); cbn [res_bind]; try discriminate.
    destruct (map_cells cells) as [xs| |]; cbn [res_bind]; try discriminate.
    intro E. injection E as <-. cbn [length]. now rewrite (IH xs).
Qed.

End MapperMore.

(** X18.  A cell that is no list, in a column whose rawType names no
  decimal, is not [date] and names no time, is returned as it came,
  whatever it is: the mapper converts decimals, dates and the time
  types only. *)
Theorem other_types_pass_through (P : Platform)
  (value data_type signature : json) (raw_type : string) :
  (forall l, value <> JArr l) ->
  getitem data_type "typeSignature" = Ok signature ->
  getitem signature "rawType" = Ok (JStr raw_type) ->
  passes_through raw_type = true ->
  _map_to_python_type value data_type = Ok (PJson value).
Proof.
  exact (scalar_passes_through value data_type signature raw_type).
Qed.

Lemma other_types_pass_through_witness :
  @_map_to_python_type Sample.platform (JStr "2023-06-01")
    (Sample.column_of "varchar")
  = Ok (PJson (JStr "2023-06-01")).
Proof.
  apply (other_types_pass_through Sample.platform (JStr "2023-06-01")
           (Sample.column_of "varchar")
           (JObj [("rawType", JStr "varchar"); ("arguments", JArr [])])
           "varchar"); try reflexivity.
  discriminate.
Defined.

(** X19.  A list cell is mapped element by element with the first type
  argument of its column.  When that argument is a type the mapper has
  no conversion for and no element is itself a list, the cell comes
  back as the list of its elements, nulls included, in order. *)
Theorem array_cell_maps_elementwise (P : Platform) (items : list json)
  (data_type signature raw_type arguments argument element : json)
  (element_raw_type : string) :
  getitem data_type "typeSignature" = Ok signature ->
  getitem signature "rawType" = Ok raw_type ->
  getitem signature "arguments" = Ok arguments ->
  getindex arguments 0 = Ok argument ->
  getitem argument "value" = Ok element ->
  getitem element "rawType" = Ok (JStr element_raw_type) ->
  passes_through element_raw_type = true ->
  Forall (fun x => forall l, x <> JArr l) items ->
  _map_to_python_type (JArr items) data_type = Ok (PList (map PJson items)).
Proof.
  intros S R A I V Er E F.
  cbn [_map_to_python_type]. rewrite S. cbn [res_bind]. rewrite R.
  cbn [res_bind]. rewrite A. cbn [res_bind]. rewrite I. cbn [res_bind].
  rewrite V. cbn [res_bind].
  assert (H : (fix map_items (l : list json) : res (list pyval) :=
                 match l with
                 | [] => Ok []
                 | array_item :: r =>
                     let? x := _map_to_python_type array_item
                                 (JObj [("typeSignature", element)]) in
                     let? xs := map_items r in
                     Ok (x :: xs)
                 end) items = Ok (map PJson items)).
  { induction F as [|x items Fx _ IH]; [reflexivity|].
    rewrite (scalar_passes_through x (JObj [("typeSignature", element)])
               element element_raw_type Fx eq_refl Er E).
    cbn [res_bind]. rewrite IH. reflexivity. }
  rewrite H. reflexivity.
Qed.

Lemma array_cell_maps_elementwise_witness :
  let column :=
    JObj [("typeSignature",
           JObj [("rawType", JStr "array");
                 ("arguments",
                  JArr [JObj [("kind", JStr "TYPE");
                              ("value",
                               JObj [("rawType", JStr "bigint");
                                     ("arguments", JArr [])])]])])] in
  @_map_to_python_type Sample.platform (JArr [JNum 1; JNull; JNum 3]) column
  = Ok (PList [PJson (JNum 1); PJson JNull; PJson (JNum 3)]).
Proof.
  intro column.
  eapply (array_cell_maps_elementwise Sample.platform
            [JNum 1; JNull; JNum 3] column); try reflexivity.
  repeat constructor; discriminate.
Defined.

(** X20.  A row is zipped with the columns: when the mapping of a row
  succeeds, it has as many cells as the shorter of the row and the
  column list, so the cells beyond the columns the query has recorded
  are dropped without an error. *)
Theorem mapped_row_is_cut_to_columns (P : Platform) (row : list json)
  (cols : list json) (cells : list pyval) :
  _map_to_python_types row (Some cols) = Ok cells ->
  length cells = Nat.min (length row) (length cols).
Proof.
  unfold _map_to_python_types. intro E.
  rewrite (map_cells_length _ _ E). apply length_combine.
Qed.

Lemma mapped_row_is_cut_to_columns_witness :
  length [@PJson Sample.platform (JNum 1)]
  = Nat.min (length [JNum 1; JStr "dropped"]) (length [Sample.column_x]).
Proof.
  apply (mapped_row_is_cut_to_columns Sample.platform
           [JNum 1; JStr "dropped"] [Sample.column_x]).
  reflexivity.
Defined.

(** * Further properties of the objects *)

(** ** [PrestoStatus.__repr__] *)




(** ** [PrestoRequest.__init__] *)


(** X23.  A request the constructor returns is fit for use: it has no
  next URI and no prepared statement, its custom headers collide with no
  reserved header, so that [http_headers] succeeds on it, and its HTTP
  session holds the headers [http_headers] builds.  The session compares
  names without their letter case: for ASCII names, it holds under each
  name the value of the last header built whose name is this one up to
  letter case, so that a custom header [x-presto-user] replaces the
  user; when no two headers built differ in letter case only, every
  header built is in the session with its value.  If the request has an
  authenticator, its scheme is not [http]. *)
Theorem constructed_request_builds_its_headers (P : Platform)
  (host : string) (port : Z) (client_session : ClientSession)
  (http_session : list (string * option string)) (http_scheme : string)
  (auth : option Authentication)
  (redirect_handler : option (string -> res string)) (max_attempts : Z)
  (service_account : option Credentials)
  (r : PrestoRequest) (c : option Credentials) :
  Forall (fun kv => Py.all Py.is_ascii (fst kv) = true)
    (_headers client_session) ->
  PrestoRequest__init__ host port client_session http_session http_scheme
    auth redirect_handler max_attempts service_account = Ok (r, c) ->
  _next_uri r = None /\
  prepared_statements r = [] /\
  _max_attempts r = max_attempts /\
  (auth <> None -> http_scheme <> HTTP) /\
  exists hs,
    http_headers r = Ok hs /\
    (forall k v, Py.all Py.is_ascii k = true ->
       ci_get (rev hs) k = Some v ->
       ci_get (http_session_headers r) k = Some v) /\
    (NoDup (map Py.lower (dict_keys hs)) ->
     forall k v, Py.all Py.is_ascii k = true ->
       dict_get hs k = Some v ->
       ci_get (http_session_headers r) k = Some v).
Proof.
  intros _. unfold PrestoRequest__init__.
  destruct (match service_account with
            | Some c0 => _
            | None => _
            end) as [[session_headers creds]| |]; cbn [res_bind];
    try discriminate.
  set (self := {| _client_session := client_session;
                  _next_uri := None;
                  prepared_statements := [] |}).
  destruct (http_headers self) as [hs| |] eqn:H; cbn [res_bind];
    try discriminate.
  destruct (match auth with Some a => _ | None => _ end)
    as [exceptions| |] eqn:A; cbn [res_bind]; try discriminate.
  intro E. injection E as <- <-. cbn.
  split; [reflexivity|]. split; [reflexivity|]. split; [reflexivity|].
  split.
  { destruct auth as [a|]; [|congruence]. intros _ S.
    rewrite S in A. discriminate A. }
  exists hs. split; [|split].
  - rewrite <- H. reflexivity.
  - intros k v _ G. now rewrite ci_get_update, G.
  - intros N k v _ G. rewrite ci_get_update.
    now rewrite (ci_get_rev_nodup hs k v N G).
Qed.

Lemma constructed_request_builds_its_headers_witness :
  let auth := Some {| get_exceptions := ["KerberosExchangeError"] |} in
  let made := @PrestoRequest__init__ Sample.platform "coordinator" 8080
                (Sample.session [("x-presto-user", "other")])
                [("Accept", Some "*/*")]
                "https" auth None 3 None in
  exists r c,
    made = Ok (r, c) /\
    ci_get (http_session_headers r) "X-Presto-User" = Some (Some "other") /\
    (_next_uri r = None /\
     prepared_statements r = [] /\
     _max_attempts r = 3%Z /\
     (auth <> None -> "https" <> HTTP) /\
     exists hs,
       http_headers r = Ok hs /\
       (forall k v, Py.all Py.is_ascii k = true ->
          ci_get (rev hs) k = Some v ->
          ci_get (http_session_headers r) k = Some v) /\
       (NoDup (map Py.lower (dict_keys hs)) ->
        forall k v, Py.all Py.is_ascii k = true ->
          dict_get hs k = Some v ->
          ci_get (http_session_headers r) k = Some v)).
Proof.
  intros auth made. eexists. eexists. split; [vm_compute; reflexivity|].
  split; [vm_compute; reflexivity|].
  apply (constructed_request_builds_its_headers Sample.platform
           "coordinator" 8080 (Sample.session [("x-presto-user", "other")])
           [("Accept", Some "*/*")] "https" auth None 3 None _ None).
  - repeat constructor.
  - vm_compute. reflexivity.
Defined.

(** ** The first answer and the credentials *)

Lemma fetch_all_keeps_id (fuel : nat) :
  forall h h' : heap,
  fetch_all fuel h = (Ok tt, h') ->
  query_id (query h') = query_id (query h) /\
  _warnings (query h') = _warnings (query h).
Proof.
  induction fuel as [|fuel IH]; intros h h' E;
    rewrite fetch_all_unfold in E;
    destruct (negb (_finished (query h)) && negb (_cancelled (query h)));
    try discriminate;
    try (injection E as <-; auto; fail).
  destruct (fetch_frame h) as (I & W & _).
  destruct (fetch h) as [[more| |] h1]; try discriminate.
  cbn [snd] in I, W.
  destruct (_rows (result h)) as [l|]; [|discriminate].
  destruct more as [l'|]; [|discriminate].
  apply IH in E. cbn in E. now rewrite <- I, <- W.
Qed.

(** X24.  The query id and the warnings of a query are those of the
  answer to the POST.  When [execute] returns, [query_id] is the [id] of
  that answer and the warnings are its [warnings]: the polls that
  follow change neither, whatever ids and warnings their responses
  carry. *)
Theorem execute_keeps_first_id_and_warnings (P : Platform)
  (h h0 h1 h2 h' : heap) (a : option http_response)
  (status : PrestoStatus) :
  execute h = (Ok tt, h') ->
  refresh_credentials h = (Ok tt, h0) ->
  post (_sql (query h)) h0 = (Ok a, h1) ->
  process a h1 = (Ok status, h2) ->
  query_id (query h') = id status /\
  _warnings (query h') = warnings status.
Proof.
  intros E Rf Po Pr. rewrite execute_unfold in E.
  destruct (_cancelled (query h)); [discriminate|].
  rewrite Rf in E. unfold submit, bind in E. rewrite Po, Pr in E.
  unfold update_stats, modify, raise, ret, gets in E.
  destruct (stats status); [|discriminate].
  destruct (next_uri status); cbv beta iota in E;
    apply fetch_all_keeps_id in E; cbn in E; exact E.
Qed.

Lemma execute_keeps_first_id_and_warnings_witness :
  let poll := {| j_error := None; j_id := Val "another";
                 j_infoUri := Val "/ui/q1"; j_nextUri := Absent;
                 j_stats := Val []; j_warnings := Val [JStr "late"];
                 j_data := Val [[JNum 1]]; j_columns := Absent |} in
  let h := Sample.client 3
             [Responds (Sample.answer 200 []
                (Some (Sample.page (Val "/v1/statement/q1/1") Null Null)));
              Responds (Sample.answer 200 [] (Some poll))] in
  query_id (query (snd (@execute Sample.platform h))) = Some "q1" /\
  _warnings (query (snd (@execute Sample.platform h))) = Some [].
Proof.
  intros poll h.
  eapply (execute_keeps_first_id_and_warnings Sample.platform h
            _ _ _ (snd (@execute Sample.platform h)) _
            {| id := Some "q1";
               stats := Some [("state", JStr "RUNNING")];
               warnings := Some [];
               info_uri := Some "/ui/q1";
               next_uri := Some "/v1/statement/q1/1";
               rows := None;
               columns := None |});
    vm_compute; reflexivity.
Defined.

(** X25.  Before it posts, [execute] refreshes credentials that are
  no longer valid.  If the refresh fails, [execute] raises its exception
  and nothing is sent or changed.  If it succeeds, the refreshed
  credentials are kept and the headers of the HTTP session carry the
  new token under the extra-credential header, before the POST is
  made. *)
Theorem expired_credentials_are_refreshed_first (P : Platform) (h : heap)
  (c : Credentials) :
  _cancelled (query h) = false ->
  credentials h = Some c ->
  valid c = false ->
  (forall e, refresh c = Raise e -> execute h = (Raise e, h)) /\
  (forall c', refresh c = Ok c' ->
     let h0 := snd (refresh_credentials h) in
     execute h = submit (query h) h0 /\
     credentials h0 = Some c' /\
     dict_get (http_session_headers (request h0)) PRESTO_EXTRA_CREDENTIAL
     = Some (Some (GCS_CREDENTIALS_OAUTH_TOKEN_KEY ++ " = " ++ token c')%string) /\
     net h0 = net h /\ query h0 = query h).
Proof.
  intros Cn Cr V. rewrite execute_unfold, Cn.
  unfold refresh_credentials, get_oauth_token, bind, gets, lift, modify,
    ret, raise.
  rewrite Cr, V. cbn [negb]. cbv beta iota. rewrite Cr. split.
  - intros e ->. reflexivity.
  - intros c' ->. cbn. repeat split.
    apply dict_get_ci_set_same.
Qed.

Lemma expired_credentials_are_refreshed_first_witness :
  let c := {| valid := false; token := "t0" |} in
  let h := on_credentials (Some c) (Sample.client 3 Sample.script) in
  let h0 := snd (@refresh_credentials Sample.platform h) in
  @execute Sample.platform h = submit (query h) h0 /\
  credentials h0 = Some {| valid := true; token := "t0" |} /\
  dict_get (http_session_headers (request h0)) "X-Presto-Extra-Credential"
  = Some (Some "hive.gcs.oauth = t0") /\
  net h0 = net h /\ query h0 = query h.
Proof.
  intros c h h0.
  apply (expired_credentials_are_refreshed_first Sample.platform h c);
    reflexivity.
Defined.

(** ** Statistics *)





